(** * Zoho invoice analyzer (src/api.py): a shallow embedding and its properties

    The development follows api.py top to bottom: the idempotency cache
    and its key, the heuristic analyzer, the retrying dispatcher with its
    provider fallback, and the two endpoints that tie them together.

    Python text is modelled as Rocq [string]s, i.e. as the UTF-8 bytes of
    the text; the built-ins that look at characters ([lower], [isdigit],
    [strip]) are the ASCII ones, which is what they do on ASCII text.
    Python floats are IEEE 754 binary64 numbers ([spec_float]), rounded to
    nearest even.  Library code the module calls (hashlib, csv, float,
    str.format, tenacity) is written out from the library's behaviour,
    before the module that uses it.  The module's globals ([cache],
    [_model]) are threaded through a state-and-exception monad, together
    with a trace of provider calls, backoff sleeps and heuristic runs. *)

From Stdlib Require Import ZArith List Bool Ascii String Lia.
From Stdlib Require Import DecimalString Floats.SpecFloat Sorting.Sorted.
From stdpp Require Import gmap strings.

Local Open Scope Z_scope.

(** ** Python built-ins on [str] *)
Module Py.

Definition code (c : ascii) : Z := Z.of_N (N_of_ascii c).
Definition chr (z : Z) : ascii := ascii_of_N (Z.to_N z).

Definition str1 (c : ascii) : string := String c EmptyString.

(** [sep.join(l)] *)
Fixpoint join (sep : string) (l : list string) : string :=
  match l with
  | [] => EmptyString
  | [s] => s
  | s :: l' => s +:+ sep +:+ join sep l'
  end.

(** [c.lower()] on one character *)
Definition lower_char (c : ascii) : ascii :=
  if (65 <=? code c) && (code c <=? 90) then chr (code c + 32) else c.

(** [s.lower()].  On text outside ASCII Python also lowers the other
    letters; the bytes of their lowercase forms never complete an ASCII
    keyword, so that the keyword tests of api.py give the same answers. *)
Fixpoint lower (s : string) : string :=
  match s with
  | EmptyString => EmptyString
  | String c s' => String (lower_char c) (lower s')
  end.

(** [s.startswith(p)] *)
Fixpoint startswith (p s : string) : bool :=
  match p, s with
  | EmptyString, _ => true
  | String a p', String b s' => if Ascii.eqb a b then startswith p' s' else false
  | String _ _, EmptyString => false
  end.

(** [sub in s] *)
Fixpoint contains (sub s : string) : bool :=
  startswith sub s ||
  match s with
  | EmptyString => false
  | String _ s' => contains sub s'
  end.

(** [c.isdigit()] on one character; bytes outside ASCII count as no digits.
    Python's [isdigit] is also true of digits outside ASCII (superscripts,
    the digits of other scripts): what is proved of the digit test is
    stated for ASCII amounts, or of concrete ASCII records. *)
Definition isdigit_char (c : ascii) : bool := (48 <=? code c) && (code c <=? 57).

Fixpoint all_chars (p : ascii -> bool) (s : string) : bool :=
  match s with
  | EmptyString => true
  | String c s' => p c && all_chars p s'
  end.

(** [s.isdigit()]: false on the empty string *)
Definition isdigit (s : string) : bool :=
  match s with
  | EmptyString => false
  | _ => all_chars isdigit_char s
  end.

(** [s.replace(c, '')] for a one-character [c] *)
Fixpoint remove_char (c : ascii) (s : string) : string :=
  match s with
  | EmptyString => EmptyString
  | String a s' => if Ascii.eqb a c then remove_char c s' else String a (remove_char c s')
  end.

(** whitespace as [str.strip()] sees it: tab, LF, VT, FF, CR, FS, GS, RS, US, space.
    Python's [strip] also removes the white space outside ASCII (the
    no-break space and others): what is proved of stripped text is stated
    for ASCII text, or of concrete ASCII data. *)
Definition isspace_char (c : ascii) : bool :=
  let n := code c in
  ((9 <=? n) && (n <=? 13)) || ((28 <=? n) && (n <=? 32)).

Fixpoint lstrip (s : string) : string :=
  match s with
  | EmptyString => EmptyString
  | String c s' => if isspace_char c then lstrip s' else s
  end.

Fixpoint rstrip (s : string) : string :=
  match s with
  | EmptyString => EmptyString
  | String c s' =>
      match rstrip s' with
      | EmptyString => if isspace_char c then EmptyString else str1 c
      | r => String c r
      end
  end.

(** [s.strip()] *)
Definition strip (s : string) : string := rstrip (lstrip s).

(** [s.split(c)] for a one-character separator: never returns the empty list *)
Fixpoint split (c : ascii) (s : string) : list string :=
  match s with
  | EmptyString => [EmptyString]
  | String a s' =>
      if Ascii.eqb a c then EmptyString :: split c s'
      else match split c s' with
           | [] => [str1 a]
           | h :: t => String a h :: t
           end
  end.

(** [s[:n]] *)
Fixpoint take (n : nat) (s : string) : string :=
  match n, s with
  | O, _ => EmptyString
  | _, EmptyString => EmptyString
  | S n', String c s' => String c (take n' s')
  end.

(** [str(n)] for a non-negative [int] *)
Definition str_of_N (n : N) : string :=
  DecimalString.NilZero.string_of_uint (N.to_uint n).

Definition str_of_nat (n : nat) : string := str_of_N (N.of_nat n).

(** a value is truthy: an [Optional[str]] that is neither [None] nor [''] *)
Definition truthy (o : option string) : bool :=
  match o with
  | Some (String _ _) => true
  | _ => false
  end.

End Py.

(** ** hashlib.sha256(...).hexdigest() (FIPS 180-4) *)
Module Sha256.

Definition w32 (z : Z) : Z := z mod 2 ^ 32.
Definition add32 (a b : Z) : Z := w32 (a + b).
Definition rotr (n x : Z) : Z := Z.lor (Z.shiftr x n) (w32 (Z.shiftl x (32 - n))).
Definition not32 (x : Z) : Z := 2 ^ 32 - 1 - x.

Definition ch (x y z : Z) : Z := Z.lxor (Z.land x y) (Z.land (not32 x) z).
Definition maj (x y z : Z) : Z :=
  Z.lxor (Z.lxor (Z.land x y) (Z.land x z)) (Z.land y z).
Definition bsig0 (x : Z) : Z := Z.lxor (Z.lxor (rotr 2 x) (rotr 13 x)) (rotr 22 x).
Definition bsig1 (x : Z) : Z := Z.lxor (Z.lxor (rotr 6 x) (rotr 11 x)) (rotr 25 x).
Definition ssig0 (x : Z) : Z := Z.lxor (Z.lxor (rotr 7 x) (rotr 18 x)) (Z.shiftr x 3).
Definition ssig1 (x : Z) : Z := Z.lxor (Z.lxor (rotr 17 x) (rotr 19 x)) (Z.shiftr x 10).

(** the primes below 312: the first 64 *)
Definition is_prime (n : Z) : bool :=
  (1 <? n) && forallb (fun d => negb (n mod d =? 0) || (n <=? d))
                      (map Z.of_nat (seq 2 16)).

Definition primes : list Z := List.filter is_prime (map Z.of_nat (seq 2 310)).

(** the largest [r] below [2^bits] with [r^3 <= n] *)
Fixpoint cube_root (bits : nat) (n r : Z) : Z :=
  match bits with
  | O => r
  | S b =>
      let r' := r + 2 ^ Z.of_nat b in
      cube_root b n (if r' * r' * r' <=? n then r' else r)
  end.

(** the first 32 bits of the fractional part of the cube root of a prime *)
Definition cube_root_fraction (p : Z) : Z := w32 (cube_root 40 (p * 2 ^ 96) 0).

(** the first 32 bits of the fractional part of the square root of a prime *)
Definition square_root_fraction (p : Z) : Z := w32 (Z.sqrt (p * 2 ^ 64)).

(** the 64 round constants, kept evaluated *)
Definition round_constants : list Z :=
  Eval vm_compute in map cube_root_fraction primes.

(** the eight chaining words *)
Record hash := Hash { ha : Z; hb : Z; hc : Z; hd : Z; he : Z; hf : Z; hg : Z; hh : Z }.

Definition hash_of_list (l : list Z) : hash :=
  Hash (nth 0 l 0) (nth 1 l 0) (nth 2 l 0) (nth 3 l 0)
       (nth 4 l 0) (nth 5 l 0) (nth 6 l 0) (nth 7 l 0).

Definition initial_hash : hash :=
  Eval vm_compute in hash_of_list (map square_root_fraction (firstn 8 primes)).

(** message padding: 0x80, zeros up to 56 mod 64, the bit length on 8 bytes *)
Definition be_bytes (n : nat) (z : Z) : list Z :=
  map (fun i => (z / 2 ^ (8 * Z.of_nat i)) mod 256) (rev (seq 0 n)).

Definition pad (msg : list Z) : list Z :=
  let len := Z.of_nat (length msg) in
  let zeros := Z.to_nat ((55 - len) mod 64) in
  msg ++ [0x80] ++ repeat 0 zeros ++ be_bytes 8 (8 * len).

Fixpoint words (bytes : list Z) : list Z :=
  match bytes with
  | b0 :: b1 :: b2 :: b3 :: rest =>
      (((b0 * 256 + b1) * 256 + b2) * 256 + b3) :: words rest
  | _ => []
  end.

(** the message schedule: [W] holds the words produced so far, newest first *)
Fixpoint schedule (n : nat) (W : list Z) : list Z :=
  match n with
  | O => W
  | S n' =>
      match W with
      | w1 :: w2 :: _ =>
          let w7 := nth 6 W 0 in
          let w15 := nth 14 W 0 in
          let w16 := nth 15 W 0 in
          schedule n' (add32 (add32 (add32 (ssig1 w2) w7) (ssig0 w15)) w16 :: W)
      | _ => W
      end
  end.

Definition round (s : hash) (kw : Z * Z) : hash :=
  let '(k, w) := kw in
  let t1 := add32 (add32 (add32 (add32 (hh s) (bsig1 (he s))) (ch (he s) (hf s) (hg s))) k) w in
  let t2 := add32 (bsig0 (ha s)) (maj (ha s) (hb s) (hc s)) in
  Hash (add32 t1 t2) (ha s) (hb s) (hc s) (add32 (hd s) t1) (he s) (hf s) (hg s).

Definition compress (h : hash) (block : list Z) : hash :=
  let W := rev (schedule 48 (rev block)) in
  let s := fold_left round (combine round_constants W) h in
  Hash (add32 (ha h) (ha s)) (add32 (hb h) (hb s)) (add32 (hc h) (hc s))
       (add32 (hd h) (hd s)) (add32 (he h) (he s)) (add32 (hf h) (hf s))
       (add32 (hg h) (hg s)) (add32 (hh h) (hh s)).

Fixpoint blocks (fuel : nat) (ws : list Z) : list (list Z) :=
  match fuel, ws with
  | S fuel', _ :: _ => firstn 16 ws :: blocks fuel' (skipn 16 ws)
  | _, _ => []
  end.

Definition digest (msg : list Z) : hash :=
  let ws := words (pad msg) in
  fold_left compress (blocks (length ws) ws) initial_hash.

Definition hex_digit (z : Z) : ascii :=
  if z <? 10 then Py.chr (48 + z) else Py.chr (87 + z).

Definition hex_nibble (w : Z) (i : Z) : ascii := hex_digit ((w / 2 ^ (4 * i)) mod 16).

Definition hex8 (w : Z) (rest : string) : string :=
  String (hex_nibble w 7) (String (hex_nibble w 6) (String (hex_nibble w 5)
  (String (hex_nibble w 4) (String (hex_nibble w 3) (String (hex_nibble w 2)
  (String (hex_nibble w 1) (String (hex_nibble w 0) rest))))))).

Definition hex_of_hash (h : hash) : string :=
  hex8 (ha h) (hex8 (hb h) (hex8 (hc h) (hex8 (hd h)
  (hex8 (he h) (hex8 (hf h) (hex8 (hg h) (hex8 (hh h) EmptyString))))))).

(** [s.encode()]: the text is already held as its UTF-8 bytes *)
Fixpoint encode (s : string) : list Z :=
  match s with
  | EmptyString => []
  | String c s' => Py.code c :: encode s'
  end.

(** [hashlib.sha256(bytes).hexdigest()] *)
Definition hexdigest (bytes : list Z) : string := hex_of_hash (digest bytes).

End Sha256.

(** ** Python [float]: IEEE 754 binary64, round to nearest even *)
Module Float.

Definition prec : Z := 53.
Definition emax : Z := 1024.

Definition float := spec_float.

Definition zero : float := S754_zero false.
Definition add : float -> float -> float := SFadd prec emax.
Definition mul : float -> float -> float := SFmul prec emax.
Definition div : float -> float -> float := SFdiv prec emax.
Definition ltb : float -> float -> bool := SFltb.

(** [float(n)] for an [int] *)
Definition of_int (n : Z) : float := binary_normalize prec emax n 0 false.

(** the correctly rounded quotient of two non-negative integers *)
Definition of_ratio (num den : Z) : float :=
  match num, den with
  | Zpos n, Zpos d => div (S754_finite false n 0) (S754_finite false d 0)
  | _, _ => zero
  end.

Fixpoint digits_value (acc : Z) (s : string) : Z :=
  match s with
  | EmptyString => acc
  | String c s' => digits_value (10 * acc + (Py.code c - 48)) s'
  end.

Definition all_digits (s : string) : bool := Py.all_chars Py.isdigit_char s.

(** [float(s)] for the strings api.py passes to it, which are made of
    ASCII digits and dots only: the numeral is accepted when it has at
    least one digit and at most one dot; [None] is [ValueError]. *)
Definition of_str (s : string) : option float :=
  match Py.split "." s with
  | [i] =>
      if Py.isdigit i then Some (of_ratio (digits_value 0 i) 1) else None
  | [i; f] =>
      if all_digits i && all_digits f && Py.isdigit (i +:+ f)
      then Some (of_ratio (digits_value 0 (i +:+ f)) (10 ^ Z.of_nat (String.length f)))
      else None
  | _ => None
  end.

(** the integer nearest to [m * 2^e * 10^p], ties to even *)
Definition scaled_round (m : positive) (e : Z) (p : nat) : Z :=
  let n := Zpos m * 10 ^ Z.of_nat p in
  if 0 <=? e then n * 2 ^ e
  else
    let d := 2 ^ (- e) in
    let q := n / d in
    match (2 * (n mod d) ?= d) with
    | Lt => q
    | Gt => q + 1
    | Eq => if Z.even q then q else q + 1
    end.

Fixpoint zeros (n : nat) (s : string) : string :=
  match n with
  | O => s
  | S n' => String "0" (zeros n' s)
  end.

(** [s.zfill(w)] *)
Definition zfill (w : nat) (s : string) : string := zeros (w - String.length s) s.

(** thousands separators: a comma before every group of three digits *)
Fixpoint group3 (rev_digits : list ascii) : list ascii :=
  match rev_digits with
  | a :: b :: c :: (_ :: _) as rest => a :: b :: c :: ","%char :: group3 rest
  | _ => rev_digits
  end.

Definition with_commas (digits : string) : string :=
  string_of_list_ascii (rev (group3 (rev (list_ascii_of_string digits)))).

Definition drop (n : nat) (s : string) : string :=
  String.substring n (String.length s - n) s.

(** the digits of a scaled integer, split [p] places from the right *)
Definition fixed (comma : bool) (p : nat) (n : Z) : string :=
  let ds := zfill (S p) (Py.str_of_N (Z.to_N n)) in
  let ip := Py.take (String.length ds - p) ds in
  let fp := drop (String.length ds - p) ds in
  (if comma then with_commas ip else ip) +:+ "." +:+ fp.

(** [format(x, ',.pf')] when [comma], [format(x, '.pf')] otherwise, [p > 0] *)
Definition format_f (comma : bool) (p : nat) (x : float) : string :=
  match x with
  | S754_nan => "nan"
  | S754_infinity s => if s then "-inf" else "inf"
  | S754_zero s => (if s then "-" else EmptyString) +:+ fixed comma p 0
  | S754_finite s m e =>
      (if s then "-" else EmptyString) +:+ fixed comma p (scaled_round m e p)
  end.

End Float.

(** ** csv.reader and csv.DictReader, default (excel) dialect

    The parser is the state machine of CPython's [_csv] module with
    a comma as delimiter, the double quote as quote character (doubled
    inside a quoted field to stand for itself), no escape
    character and non-strict mode, which are the defaults api.py uses. *)
Module Csv.

Inductive ParserState :=
| START_RECORD
| START_FIELD
| IN_FIELD
| IN_QUOTED_FIELD
| QUOTE_IN_QUOTED_FIELD
| EAT_CRNL.

Record Reader := mkReader {
  state : ParserState;
  field : string;            (* characters of the field being read *)
  field_len : Z;
  fields : list string       (* fields of the record being read *)
}.

Definition parse_reset : Reader := mkReader START_RECORD EmptyString 0 [].

Definition set_state (st : ParserState) (r : Reader) : Reader :=
  mkReader st (field r) (field_len r) (fields r).

Definition parse_save_field (r : Reader) : Reader :=
  mkReader (state r) EmptyString 0 (fields r ++ [field r]).

Definition field_limit : Z := 131072.

(** [None] is [csv.Error] *)
Definition parse_add_char (c : ascii) (r : Reader) : option Reader :=
  if field_limit <=? field_len r then None
  else Some (mkReader (state r) (field r +:+ Py.str1 c) (field_len r + 1) (fields r)).

Definition delimiter : ascii := ","%char.
Definition quotechar : ascii := Py.chr 34.
Definition is_newline (c : ascii) : bool := Ascii.eqb c (Py.chr 10) || Ascii.eqb c (Py.chr 13).

Definition start_field (c : option ascii) (r : Reader) : option Reader :=
  match c with
  | None => Some (set_state START_RECORD (parse_save_field r))
  | Some ch =>
      if is_newline ch then Some (set_state EAT_CRNL (parse_save_field r))
      else if Ascii.eqb ch quotechar then Some (set_state IN_QUOTED_FIELD r)
      else if Ascii.eqb ch delimiter then Some (parse_save_field r)
      else option_map (set_state IN_FIELD) (parse_add_char ch r)
  end.

(** one step of the parser; the character [None] is the end of a line *)
Definition parse_process_char (r : Reader) (c : option ascii) : option Reader :=
  match state r with
  | START_RECORD =>
      match c with
      | None => Some r
      | Some ch =>
          if is_newline ch then Some (set_state EAT_CRNL r)
          else start_field c (set_state START_FIELD r)
      end
  | START_FIELD => start_field c r
  | IN_FIELD =>
      match c with
      | None => Some (set_state START_RECORD (parse_save_field r))
      | Some ch =>
          if is_newline ch then Some (set_state EAT_CRNL (parse_save_field r))
          else if Ascii.eqb ch delimiter then Some (set_state START_FIELD (parse_save_field r))
          else parse_add_char ch r
      end
  | IN_QUOTED_FIELD =>
      match c with
      | None => Some r
      | Some ch =>
          if Ascii.eqb ch quotechar then Some (set_state QUOTE_IN_QUOTED_FIELD r)
          else parse_add_char ch r
      end
  | QUOTE_IN_QUOTED_FIELD =>
      match c with
      | None => Some (set_state START_RECORD (parse_save_field r))
      | Some ch =>
          if Ascii.eqb ch quotechar
          then option_map (set_state IN_QUOTED_FIELD) (parse_add_char ch r)
          else if Ascii.eqb ch delimiter then Some (set_state START_FIELD (parse_save_field r))
          else if is_newline ch then Some (set_state EAT_CRNL (parse_save_field r))
          else option_map (set_state IN_FIELD) (parse_add_char ch r)
      end
  | EAT_CRNL =>
      match c with
      | None => Some (set_state START_RECORD r)
      | Some ch => if is_newline ch then Some r else None
      end
  end.

Fixpoint parse_line (r : Reader) (line : string) : option Reader :=
  match line with
  | EmptyString => parse_process_char r None
  | String ch rest =>
      match parse_process_char r (Some ch) with
      | Some r' => parse_line r' rest
      | None => None
      end
  end.

Definition is_start_record (r : Reader) : bool :=
  match state r with
  | START_RECORD => true
  | _ => false
  end.

Definition is_in_quoted_field (r : Reader) : bool :=
  match state r with
  | IN_QUOTED_FIELD => true
  | _ => false
  end.

(** [list(csv.reader(lines))], reading on from parser state [r]: the
    records read, and [false] when reading stopped on a [csv.Error].  A
    record ends at the first end of line that leaves the parser in
    [START_RECORD]; input that ends inside a record yields that record. *)
Fixpoint read_records (r : Reader) (lines : list string) : list (list string) * bool :=
  match lines with
  | [] =>
      if negb (field_len r =? 0) || is_in_quoted_field r
      then ([fields (parse_save_field r)], true)
      else ([], true)
  | line :: rest =>
      match parse_line r line with
      | None => ([], false)
      | Some r' =>
          if is_start_record r'
          then let '(recs, ok) := read_records parse_reset rest in (fields r' :: recs, ok)
          else read_records r' rest
      end
  end.

Definition reader (lines : list string) : list (list string) * bool :=
  read_records parse_reset lines.

(** a row of [DictReader]: the items of the dict in insertion order (a
    later item with the same key replaces an earlier one), a missing
    value being [None] ([restval]); [rest] holds the surplus values kept
    under the key [None] ([restkey]) when the row is longer than the header *)
Record DictRow := mkRow {
  items : list (string * option string);
  rest : option (list string)
}.

Fixpoint zip_row (fieldnames row : list string) : list (string * option string) :=
  match fieldnames, row with
  | [], _ => []
  | k :: ks, [] => (k, None) :: zip_row ks []
  | k :: ks, v :: vs => (k, Some v) :: zip_row ks vs
  end.

Definition dict_row (fieldnames row : list string) : DictRow :=
  mkRow (zip_row fieldnames row)
        (if (length fieldnames <? length row)%nat
         then Some (skipn (length fieldnames) row) else None).

(** [row.get(key)]: [None] when the key is absent *)
Definition get (key : string) (row : DictRow) : option (option string) :=
  fold_left (fun found kv => if String.eqb (fst kv) key then Some (snd kv) else found)
            (items row) None.

Definition nonempty (row : list string) : bool :=
  match row with
  | [] => false
  | _ => true
  end.

(** [list(csv.DictReader(lines))]: the first record is the header, empty
    records after it are skipped *)
Definition DictReader (lines : list string) : list DictRow * bool :=
  match reader lines with
  | ([], ok) => ([], ok)
  | (fieldnames :: data, ok) => (map (dict_row fieldnames) (List.filter nonempty data), ok)
  end.

(** text-mode file reading: universal newlines *)
Fixpoint universal_newlines (s : string) : string :=
  match s with
  | EmptyString => EmptyString
  | String c rest =>
      if Ascii.eqb c (Py.chr 13) then
        match rest with
        | String c' rest' =>
            if Ascii.eqb c' (Py.chr 10) then String (Py.chr 10) (universal_newlines rest')
            else String (Py.chr 10) (universal_newlines rest)
        | EmptyString => Py.str1 (Py.chr 10)
        end
      else String c (universal_newlines rest)
  end.

(** iterating a text file: lines with their terminating newline *)
Fixpoint file_lines (s : string) : list string :=
  match s with
  | EmptyString => []
  | String c rest =>
      if Ascii.eqb c (Py.chr 10) then Py.str1 c :: file_lines rest
      else match file_lines rest with
           | [] => [Py.str1 c]
           | l :: ls =>
               match rest with
               | EmptyString => [Py.str1 c]
               | _ => String c l :: ls
               end
           end
  end.

End Csv.

(** ** src/api.py *)
Module Api.

(** *** Exceptions and results *)

(** The exceptions api.py raises or lets through.  [HTTPExceptionFrom c p e]
    is [HTTPException(status_code=c, detail=f"{p}{str(e)}")]: the detail is
    kept as the literal prefix and the exception whose text follows it. *)
Inductive exn :=
| HTTPException (status_code : Z) (detail : string)
| HTTPExceptionFrom (status_code : Z) (prefix : string) (cause : exn)
| ValueError (msg : string)
| ZeroDivisionError (msg : string)
| TypeError (msg : string)
| ValidationError              (* pydantic: a field of InvoiceData is missing or None *)
| CsvError                     (* csv.Error *)
| ModelLoadError (msg : string) (* SentenceTransformer(...) failed *)
| RetryError (last_attempt : exn).

Inductive result (A : Type) :=
| Ok (a : A)
| Raise (e : exn).
Arguments Ok {A} a.
Arguments Raise {A} e.

Definition bindR {A B} (r : result A) (k : A -> result B) : result B :=
  match r with
  | Ok a => k a
  | Raise e => Raise e
  end.

Notation "'check' x <- m 'in' k" := (bindR m (fun x => k))
  (at level 10, x name, m at level 100, k at level 200).

(** *** Data model (api.py 55-69) *)

Record InvoiceData := mkInvoice {
  invoice_id : string;
  customer : string;
  amount : string;
  paid_at : string;
  status : string
}.

Record AnalysisRequest := mkRequest {
  query : string;
  csv_data : option string
}.

Record AnalysisResponse := mkResponse {
  analysis : string;
  invoices_analyzed : nat;
  query_hash : string
}.

Definition nl : string := Py.str1 (Py.chr 10).

(** *** get_cache_key (api.py 71-74) *)
Definition content (query csv_data : string) : string := query +:+ ":" +:+ csv_data.

Definition get_cache_key (query csv_data : string) : string :=
  Sha256.hexdigest (Sha256.encode (content query csv_data)).

(** *** Process state and its surroundings *)

Inductive Provider := Claude | OpenAI.

(** what one call to a provider's client library does: it returns the
    reply text or raises an exception [e], of which only [str(e)] is used *)
Inductive Reply :=
| Text (text : string)
| Fails (str_e : string).

Inductive Model := all_MiniLM_L6_v2.

(** Everything a request reads but does not change.  The provider
    functions take the number of calls made to that provider so far, so
    that a provider may answer differently from one call to the next. *)
Record Env := mkEnv {
  CLAUDE_AVAILABLE : bool;
  OPENAI_AVAILABLE : bool;
  TRANSFORMERS_AVAILABLE : bool;
  ANTHROPIC_API_KEY : option string;        (* os.getenv(...) *)
  OPENAI_API_KEY : option string;
  invoices_csv : option string;             (* text of invoices.csv, None: no such file *)
  messages_create : nat -> string -> Reply; (* anthropic client.messages.create *)
  completions_create : nat -> string -> Reply; (* openai client.chat.completions.create *)
  SentenceTransformer : result Model
}.

(** instrumentation: the calls whose number the properties speak about *)
Inductive Event :=
| ProviderCall (p : Provider) (succeeded : bool)
| Sleep (seconds : Z)
| HeuristicRun.

(** The module's globals, and the trace of events so far (newest last). *)
Record World := mkWorld {
  cache : gmap string AnalysisResponse;
  _model : option Model;
  trace : list Event
}.

Definition set_cache (c : gmap string AnalysisResponse) (w : World) : World :=
  mkWorld c (_model w) (trace w).
Definition set_model (m : option Model) (w : World) : World :=
  mkWorld (cache w) m (trace w).
Definition emit (e : Event) (w : World) : World :=
  mkWorld (cache w) (_model w) (trace w ++ [e]).

(** computations that read and change the globals and may raise *)
Definition M (A : Type) : Type := World -> result A * World.

Definition ret {A} (a : A) : M A := fun w => (Ok a, w).
Definition raise {A} (e : exn) : M A := fun w => (Raise e, w).
Definition lift {A} (r : result A) : M A := fun w => (r, w).
Definition bind {A B} (m : M A) (k : A -> M B) : M B :=
  fun w =>
    match m w with
    | (Ok a, w') => k a w'
    | (Raise e, w') => (Raise e, w')
    end.
(** [try: m  except Exception as e: h e] *)
Definition try_except {A} (m : M A) (h : exn -> M A) : M A :=
  fun w =>
    match m w with
    | (Ok a, w') => (Ok a, w')
    | (Raise e, w') => h e w'
    end.

Notation "'do' x <- m 'in' k" := (bind m (fun x => k))
  (at level 10, x name, m at level 100, k at level 200).

(** *** get_transformer_model (api.py 48-53) *)
Definition get_transformer_model (env : Env) : M (option Model) :=
  fun w =>
    match _model w with
    | None =>
        if TRANSFORMERS_AVAILABLE env then
          match SentenceTransformer env with
          | Ok m => (Ok (Some m), set_model (Some m) w)
          | Raise e => (Raise e, w)
          end
        else (Ok None, w)
    | Some m => (Ok (Some m), w)
    end.

(** *** Reading the records *)

Definition required (row : Csv.DictRow) (key : string) : result string :=
  match Csv.get key row with
  | Some (Some v) => Ok v
  | _ => Raise ValidationError
  end.

(** [InvoiceData] built from the items of [row] as keyword arguments
    (api.py 220, 303): a key [None] in [row] cannot be a keyword; columns
    other than the five fields are ignored *)
Definition InvoiceData_of_row (row : Csv.DictRow) : result InvoiceData :=
  match Csv.rest row with
  | Some _ => Raise (TypeError "keywords must be strings")
  | None =>
      check i <- required row "invoice_id" in
      check c <- required row "customer" in
      check a <- required row "amount" in
      check p <- required row "paid_at" in
      check s <- required row "status" in
      Ok (mkInvoice i c a p s)
  end.

(** [row.get(key, '')] as a field of [InvoiceData(...)] (api.py 87-93) *)
Definition get_or_empty (row : Csv.DictRow) (key : string) : result string :=
  match Csv.get key row with
  | None => Ok EmptyString
  | Some (Some v) => Ok v
  | Some None => Raise ValidationError
  end.

Definition InvoiceData_of_file_row (row : Csv.DictRow) : result InvoiceData :=
  check i <- get_or_empty row "invoice_id" in
  check c <- get_or_empty row "customer" in
  check a <- get_or_empty row "amount" in
  check p <- get_or_empty row "paid_at" in
  check s <- get_or_empty row "status" in
  Ok (mkInvoice i c a p s).

(** a loop building a list from the rows of a reader: the first row that
    raises ends it, and so does the reader when it stops on an error *)
Fixpoint for_rows (f : Csv.DictRow -> result InvoiceData)
         (rows : list Csv.DictRow) (reader_ok : bool) : result (list InvoiceData) :=
  match rows with
  | [] => if reader_ok then Ok [] else Raise CsvError
  | row :: rows' =>
      check inv <- f row in
      check invs <- for_rows f rows' reader_ok in
      Ok (inv :: invs)
  end.

(** load_csv_data (api.py 76-95) *)
Definition load_csv_data (env : Env) : result (list InvoiceData) :=
  match invoices_csv env with
  | None => Ok []
  | Some text =>
      let '(rows, ok) := Csv.DictReader (Csv.file_lines (Csv.universal_newlines text)) in
      for_rows InvoiceData_of_file_row rows ok
  end.

Definition is_empty {A} (l : list A) : bool :=
  match l with
  | [] => true
  | _ => false
  end.

(** the block that opens both endpoints (api.py 212-234, and again
    297-316): the records and the dataset text that enters the cache key *)
Definition load_request_data (env : Env) (request : AnalysisRequest)
  : result (list InvoiceData * string) :=
  if Py.truthy (csv_data request) then
    let data := default EmptyString (csv_data request) in
    let csv_lines := Py.split (Py.chr 10) (Py.strip data) in
    if (length csv_lines <? 2)%nat
    then Raise (HTTPException 400 "Invalid CSV data format")
    else
      let '(rows, ok) := Csv.DictReader csv_lines in
      check invoices <- for_rows InvoiceData_of_row rows ok in
      Ok (invoices, data)
  else
    check invoices <- load_csv_data env in
    if is_empty invoices
    then Raise (HTTPException 404
           "No invoice data found. Run the scraper first or provide CSV data.")
    else
      match invoices_csv env with
      | Some text => Ok (invoices, Csv.universal_newlines text)
      | None => Ok (invoices, EmptyString)
      end.

(** *** analyze_with_transformers (api.py 97-143) *)

(** [inv.amount.replace('.','').isdigit()] *)
Definition amount_guard (a : string) : bool := Py.isdigit (Py.remove_char "." a).

(** [float(inv.amount)] *)
Definition float_of_amount (a : string) : result Float.float :=
  match Float.of_str a with
  | Some x => Ok x
  | None => Raise (ValueError ("could not convert string to float: '" +:+ a +:+ "'"))
  end.

(** [sum(float(inv.amount) for inv in invoices if guard)] (api.py 108):
    the amounts are added one by one, left to right, from 0 (the plain
    additions of CPython up to 3.11; later versions carry a correction term
    along, which can change the last bit of the sum) *)
Fixpoint sum_amounts (acc : Float.float) (invoices : list InvoiceData)
  : result Float.float :=
  match invoices with
  | [] => Ok acc
  | inv :: rest =>
      if amount_guard (amount inv) then
        check x <- float_of_amount (amount inv) in
        sum_amounts (Float.add acc x) rest
      else sum_amounts acc rest
  end.

Definition status_is (s : string) (inv : InvoiceData) : bool :=
  String.eqb (Py.lower (status inv)) s.

(** [sum(1 for inv in invoices if p inv)] *)
Definition count_if (p : InvoiceData -> bool) (invoices : list InvoiceData) : nat :=
  length (List.filter p invoices).

(** [a / n]: a float or an int divided by an int.  The divisor is 0 only
    for an empty record list, where the dividend is the int 0. *)
Definition truediv (a : Float.float) (n : nat) : result Float.float :=
  match n with
  | O => Raise (ZeroDivisionError "division by zero")
  | _ => Ok (Float.div a (Float.of_int (Z.of_nat n)))
  end.

(** [any(word in query_lower for word in words)] *)
Definition any_in (words : list string) (query_lower : string) : bool :=
  existsb (fun word => Py.contains word query_lower) words.

(** the dict [top_customers], in insertion order *)
Fixpoint dict_mem (k : string) (d : list (string * Float.float)) : bool :=
  match d with
  | [] => false
  | (k', _) :: d' => String.eqb k' k || dict_mem k d'
  end.

(** [d[k] += x] for a key that is present *)
Fixpoint dict_add (k : string) (x : Float.float) (d : list (string * Float.float))
  : list (string * Float.float) :=
  match d with
  | [] => []
  | (k', v) :: d' =>
      if String.eqb k' k then (k', Float.add v x) :: d' else (k', v) :: dict_add k x d'
  end.

(** the loop of api.py 123-127 *)
Fixpoint tally (d : list (string * Float.float)) (invoices : list InvoiceData)
  : result (list (string * Float.float)) :=
  match invoices with
  | [] => Ok d
  | inv :: rest =>
      let d1 := if dict_mem (customer inv) d then d else d ++ [(customer inv, Float.zero)] in
      if amount_guard (amount inv) then
        check x <- float_of_amount (amount inv) in
        tally (dict_add (customer inv) x d1) rest
      else tally d1 rest
  end.

(** [sorted(items, key=lambda x: x[1], reverse=True)]: Python's sort is
    stable, also with [reverse=True]; an insertion sort that keeps an
    item before the later items that are not greater is the same function *)
Fixpoint insert_desc (x : string * Float.float) (l : list (string * Float.float))
  : list (string * Float.float) :=
  match l with
  | [] => [x]
  | y :: l' => if Float.ltb (snd x) (snd y) then y :: insert_desc x l' else x :: y :: l'
  end.

Definition sorted_desc (l : list (string * Float.float)) : list (string * Float.float) :=
  fold_right insert_desc [] l.

Definition bullet : string := string_of_list_ascii (map Py.chr [226; 128; 162]).
Definition chart : string := string_of_list_ascii (map Py.chr [240; 159; 147; 138]).

Definition money (x : Float.float) : string := "$" +:+ Float.format_f true 2 x.

Definition customer_line (item : string * Float.float) : string :=
  "  " +:+ bullet +:+ " " +:+ fst item +:+ ": " +:+ money (snd item) +:+ nl.

(** api.py 106-143: the statistics and the text of the branch the query selects *)
Definition analysis_text (query : string) (invoices : list InvoiceData) : result string :=
  let total_invoices := length invoices in
  check total_amount <- sum_amounts Float.zero invoices in
  let paid_count := count_if (status_is "paid") invoices in
  let partial_count := count_if (status_is "partially paid") invoices in
  let customers : gset string := list_to_set (map customer invoices) in
  let query_lower := Py.lower query in
  if any_in ["total"; "revenue"; "amount"; "sum"] query_lower then
    check average <- truediv total_amount total_invoices in
    Ok ("Total Revenue Analysis:" +:+ nl +:+
        "- Total invoices: " +:+ Py.str_of_nat total_invoices +:+ nl +:+
        "- Total amount: " +:+ money total_amount +:+ nl +:+
        "- Paid invoices: " +:+ Py.str_of_nat paid_count +:+ nl +:+
        "- Partially paid: " +:+ Py.str_of_nat partial_count +:+ nl +:+
        "- Average per invoice: " +:+ money average)
  else if any_in ["customer"; "client"; "who"] query_lower then
    check top_customers <- tally [] invoices in
    let sorted_customers := sorted_desc top_customers in
    Ok ("Customer Analysis:" +:+ nl +:+
        "- Total customers: " +:+ Py.str_of_nat (size customers) +:+ nl +:+
        "- Top customers by revenue:" +:+ nl +:+
        String.concat EmptyString (map customer_line (firstn 5 sorted_customers)))
  else if any_in ["status"; "paid"; "payment"] query_lower then
    check rate <- truediv (Float.of_int (Z.of_nat (paid_count + partial_count))) total_invoices in
    Ok ("Payment Status Analysis:" +:+ nl +:+
        "- Fully paid: " +:+ Py.str_of_nat paid_count +:+ " invoices" +:+ nl +:+
        "- Partially paid: " +:+ Py.str_of_nat partial_count +:+ " invoices" +:+ nl +:+
        "- Payment rate: " +:+
           Float.format_f false 1 (Float.mul rate (Float.of_int 100)) +:+ "%" +:+ nl +:+
        "- Total collected: " +:+ money total_amount)
  else if any_in ["count"; "how many"; "number"] query_lower then
    check per_customer <- truediv (Float.of_int (Z.of_nat total_invoices)) (size customers) in
    Ok ("Invoice Count Analysis:" +:+ nl +:+
        "- Total invoices: " +:+ Py.str_of_nat total_invoices +:+ nl +:+
        "- Unique customers: " +:+ Py.str_of_nat (size customers) +:+ nl +:+
        "- Fully paid: " +:+ Py.str_of_nat paid_count +:+ nl +:+
        "- Partially paid: " +:+ Py.str_of_nat partial_count +:+ nl +:+
        "- Average per customer: " +:+ Float.format_f false 1 per_customer +:+ " invoices")
  else
    check average <- truediv total_amount total_invoices in
    Ok ("Invoice Overview:" +:+ nl +:+
        "- Total invoices: " +:+ Py.str_of_nat total_invoices +:+ nl +:+
        "- Total revenue: " +:+ money total_amount +:+ nl +:+
        "- Customers: " +:+ Py.str_of_nat (size customers) +:+ nl +:+
        "- Paid: " +:+ Py.str_of_nat paid_count +:+
           ", Partial: " +:+ Py.str_of_nat partial_count +:+ nl +:+
        "- Average invoice: " +:+ money average +:+ nl +:+ nl +:+
        chart +:+ " This analysis uses free local AI (sentence-transformers)").

Definition analyze_with_transformers (env : Env) (query : string)
           (invoices : list InvoiceData) : M string :=
  fun w0 =>
    let w := emit HeuristicRun w0 in
    if negb (TRANSFORMERS_AVAILABLE env)
    then (Raise (HTTPException 500 "sentence-transformers not available"), w)
    else
      match get_transformer_model env w with
      | (Raise e, w') => (Raise e, w')
      | (Ok None, w') => (Raise (HTTPException 500 "Failed to load transformer model"), w')
      | (Ok (Some _), w') => (analysis_text query invoices, w')
      end.

(** *** call_llm (api.py 145-197) *)

Definition is_call_to (p : Provider) (e : Event) : bool :=
  match e, p with
  | ProviderCall Claude _, Claude => true
  | ProviderCall OpenAI _, OpenAI => true
  | _, _ => false
  end.

Definition is_failed_call_to (p : Provider) (e : Event) : bool :=
  match e, p with
  | ProviderCall Claude false, Claude => true
  | ProviderCall OpenAI false, OpenAI => true
  | _, _ => false
  end.

Definition is_sleep (e : Event) : bool :=
  match e with
  | Sleep _ => true
  | _ => false
  end.

Definition calls_to (p : Provider) (tr : list Event) : nat :=
  length (List.filter (is_call_to p) tr).

Definition is_text (r : Reply) : bool :=
  match r with
  | Text _ => true
  | Fails _ => false
  end.

(** one request to a provider (api.py 159-167, 175-185), recorded in the trace *)
Definition call_provider (env : Env) (p : Provider) (prompt : string) : M Reply :=
  fun w =>
    let n := calls_to p (trace w) in
    let r := match p with
             | Claude => messages_create env n prompt
             | OpenAI => completions_create env n prompt
             end in
    (Ok r, emit (ProviderCall p (is_text r)) w).

(** api.py 190-194 *)
Definition available_apis (env : Env) : list string :=
  (if CLAUDE_AVAILABLE env then ["Claude (set ANTHROPIC_API_KEY)"] else []) ++
  (if OPENAI_AVAILABLE env then ["OpenAI (set OPENAI_API_KEY)"] else []).

(** api.py 196 *)
Definition error_msg (env : Env) : string :=
  "No LLM API available. Install and configure: " +:+ Py.join ", " (available_apis env).

(** the body of call_llm (api.py 150-197), one attempt of the retried function *)
Definition call_llm_once (env : Env) (prompt : string) : M string :=
  let claude_key := ANTHROPIC_API_KEY env in
  let openai_key := OPENAI_API_KEY env in
  do answered <-
    (if CLAUDE_AVAILABLE env && Py.truthy claude_key then
       do r <- call_provider env Claude prompt in
       match r with
       | Text t => ret (Some t)
       | Fails e =>
           if negb (Py.truthy openai_key)
           then raise (HTTPException 500 ("Claude API error: " +:+ e))
           else ret None
       end
     else ret None) in
  match answered with
  | Some t => ret t
  | None =>
      if OPENAI_AVAILABLE env && Py.truthy openai_key then
        do r <- call_provider env OpenAI prompt in
        match r with
        | Text t => ret t
        | Fails e => raise (HTTPException 500 ("OpenAI API error: " +:+ e))
        end
      else
        raise (HTTPException 500 (error_msg env))
  end.

(** tenacity: [wait_exponential(multiplier, min, max)] after attempt [n] *)
Definition wait_exponential (multiplier min max : Z) (attempt_number : Z) : Z :=
  Z.max (Z.max 0 min) (Z.min (multiplier * 2 ^ (attempt_number - 1)) max).

(** tenacity's loop for [@retry(stop=stop_after_attempt(3),
    wait=wait_exponential(multiplier=1, min=4, max=10),
    retry=retry_if_exception_type(Exception))] (api.py 145-149): the
    function is run; when it raises and attempts are left the loop sleeps
    and runs it again; when it raises on the last attempt the loop raises
    [RetryError] around that exception. *)
Fixpoint retrying {A} (attempts_left : nat) (attempt_number : Z) (f : M A) : M A :=
  fun w =>
    match f w with
    | (Ok a, w') => (Ok a, w')
    | (Raise e, w') =>
        match attempts_left with
        | O => (Raise (RetryError e), w')
        | S more =>
            retrying more (attempt_number + 1) f
                     (emit (Sleep (wait_exponential 1 4 10 attempt_number)) w')
        end
    end.

(** [stop_after_attempt(3)]: the first attempt and at most two more *)
Definition retry {A} (f : M A) : M A := retrying 2 1 f.

Definition call_llm (env : Env) (prompt : string) : M string :=
  retry (call_llm_once env prompt).

(** *** analyze_invoices, POST /analyze (api.py 203-280) *)

Definition summary_line (i : nat) (invoice : InvoiceData) : string :=
  Py.str_of_nat (i + 1) +:+ ". Invoice " +:+ invoice_id invoice +:+ ": " +:+
  customer invoice +:+ ", $" +:+ amount invoice +:+ ", " +:+ status invoice +:+
  ", Paid: " +:+ paid_at invoice +:+ nl.

(** api.py 243-251 *)
Definition invoice_summary (invoices : list InvoiceData) : string :=
  "Invoice Data Summary:" +:+ nl +:+
  "Total Invoices: " +:+ Py.str_of_nat (length invoices) +:+ nl +:+ nl +:+
  String.concat EmptyString (imap summary_line (firstn 10 invoices)) +:+
  (if (10 <? length invoices)%nat
   then "... and " +:+ Py.str_of_nat (length invoices - 10) +:+ " more invoices" +:+ nl
   else EmptyString).

(** api.py 253-261 *)
Definition make_prompt (invoices : list InvoiceData) (query : string) : string :=
  nl +:+ "    " +:+ invoice_summary invoices +:+ nl +:+
  "    " +:+ nl +:+
  "    User Query: " +:+ query +:+ nl +:+
  "    " +:+ nl +:+
  "    Please analyze the invoice data and provide a concise response to the user's query. " +:+ nl +:+
  "    Focus on key insights, patterns, and specific numbers where relevant." +:+ nl +:+
  "    ".

(** the key under which POST /analyze caches (api.py 237) *)
Definition provider_cache_key (query csv_content : string) : string :=
  get_cache_key query csv_content.

(** the key under which POST /analyze-free caches (api.py 319) *)
Definition free_cache_key (query csv_content : string) : string :=
  "free_" +:+ get_cache_key query csv_content.

Definition analyze_invoices (env : Env) (request : AnalysisRequest) : M AnalysisResponse :=
  do loaded <- lift (load_request_data env request) in
  let '(invoices, csv_content) := loaded in
  let cache_key := provider_cache_key (query request) csv_content in
  fun w =>
    match cache w !! cache_key with
    | Some cached => (Ok cached, w)
    | None =>
        let prompt := make_prompt invoices (query request) in
        try_except
          (do analysis_result <- call_llm env prompt in
           let response := mkResponse analysis_result (length invoices) (Py.take 8 cache_key) in
           fun w' => (Ok response, set_cache (<[cache_key := response]> (cache w')) w'))
          (fun e => raise (HTTPExceptionFrom 500 "Analysis failed: " e))
          w
    end.

(** *** analyze_invoices_free, POST /analyze-free (api.py 288-341) *)

Definition analyze_invoices_free (env : Env) (request : AnalysisRequest)
  : M AnalysisResponse :=
  do loaded <- lift (load_request_data env request) in
  let '(invoices, csv_content) := loaded in
  let cache_key := free_cache_key (query request) csv_content in
  fun w =>
    match cache w !! cache_key with
    | Some cached => (Ok cached, w)
    | None =>
        try_except
          (do analysis_result <- analyze_with_transformers env (query request) invoices in
           let response := mkResponse analysis_result (length invoices) (Py.take 8 cache_key) in
           fun w' => (Ok response, set_cache (<[cache_key := response]> (cache w')) w'))
          (fun e => raise (HTTPExceptionFrom 500 "Free analysis failed: " e))
          w
    end.

(** GET /health (api.py 343-346): the reported [cache_size] *)
Definition health_check (w : World) : nat := size (cache w).

End Api.

(** ** The classification as the specification words it *)
Module Spec.

Inductive Category := Revenue | CustomerRanking | PaymentStatus | Count | GeneralOverview.

(** the keyword sets, in priority order *)
Definition categories : list (Category * list string) :=
  [ (Revenue, ["revenue"; "total"; "amount"; "sum"]);
    (CustomerRanking, ["customer"; "client"; "who"]);
    (PaymentStatus, ["status"; "paid"; "payment"]);
    (Count, ["count"; "how many"; "number"]) ].

(** [kw] is a prefix of [s], letter case ignored *)
Fixpoint prefix_ci (kw s : string) : bool :=
  match kw, s with
  | EmptyString, _ => true
  | String a kw', String b s' =>
      Ascii.eqb (Py.lower_char a) (Py.lower_char b) && prefix_ci kw' s'
  | String _ _, EmptyString => false
  end.

(** [kw] occurs somewhere in [s], letter case ignored *)
Fixpoint occurs_ci (kw s : string) : bool :=
  prefix_ci kw s ||
  match s with
  | EmptyString => false
  | String _ s' => occurs_ci kw s'
  end.

(** the first category one of whose keywords occurs in the query *)
Fixpoint first_match (cats : list (Category * list string)) (q : string) : Category :=
  match cats with
  | [] => GeneralOverview
  | (c, kws) :: cats' =>
      if existsb (fun kw => occurs_ci kw q) kws then c else first_match cats' q
  end.

Definition classify (q : string) : Category := first_match categories q.

(** the line that opens the text of each branch (api.py 119, 130, 136, 139, 143) *)
Definition heading (c : Category) : string :=
  match c with
  | Revenue => "Total Revenue Analysis:"
  | CustomerRanking => "Customer Analysis:"
  | PaymentStatus => "Payment Status Analysis:"
  | Count => "Invoice Count Analysis:"
  | GeneralOverview => "Invoice Overview:"
  end.

End Spec.

(** ** Notions the properties are stated with *)

Import Api.

(** a computation that never writes the cache *)
Definition keeps_cache {A} (m : M A) : Prop :=
  forall w, cache (snd (m w)) = cache w.

(** the response an endpoint builds and stores on a miss *)
Definition response_for (key : string) (invs : list InvoiceData) (text : string)
  : AnalysisResponse :=
  mkResponse text (length invs) (Py.take 8 key).

(** how a request went *)
Inductive outcome (key_of : string -> string -> string) (prefix : string)
          (analyzer : list InvoiceData -> M string)
          (env : Env) (req : AnalysisRequest) (w : World)
  : result AnalysisResponse * World -> Prop :=
| rejected e :
    load_request_data env req = Raise e ->
    outcome key_of prefix analyzer env req w (Raise e, w)
| hit invs csv_content cached :
    load_request_data env req = Ok (invs, csv_content) ->
    cache w !! key_of (query req) csv_content = Some cached ->
    outcome key_of prefix analyzer env req w (Ok cached, w)
| computed invs csv_content text w' :
    load_request_data env req = Ok (invs, csv_content) ->
    cache w !! key_of (query req) csv_content = None ->
    analyzer invs w = (Ok text, w') ->
    outcome key_of prefix analyzer env req w
      (Ok (response_for (key_of (query req) csv_content) invs text),
       set_cache (<[key_of (query req) csv_content :=
                     response_for (key_of (query req) csv_content) invs text]> (cache w')) w')
| failed invs csv_content e w' :
    load_request_data env req = Ok (invs, csv_content) ->
    cache w !! key_of (query req) csv_content = None ->
    analyzer invs w = (Raise e, w') ->
    outcome key_of prefix analyzer env req w (Raise (HTTPExceptionFrom 500 prefix e), w').

(** a process that has just started: empty cache, no model, no events *)
Definition fresh : World := mkWorld ∅ None [].

(** the events a run added to the trace *)
Definition new_events (before after : World) : list Event :=
  skipn (length (trace before)) (trace after).

(** a dataset of two records, as text *)
Definition two_invoices : string :=
  "invoice_id,customer,amount,paid_at,status" +:+ nl +:+
  "1,Acme,100,2024-01-01,Paid" +:+ nl +:+
  "2,Bolt,50,2024-01-02,Partially Paid".

(** no provider library and no credential; the local analyzer works *)
Definition env_local : Env :=
  mkEnv false false true None None None
        (fun _ _ => Fails "unreachable") (fun _ _ => Fails "unreachable")
        (Ok all_MiniLM_L6_v2).

(** both providers configured; the primary always fails, the secondary answers *)
Definition env_fallback : Env :=
  mkEnv true true false (Some "sk-ant") (Some "sk-oai") None
        (fun _ _ => Fails "overloaded") (fun _ _ => Text "Revenue is 150.")
        (Raise (ModelLoadError "not installed")).

(** both libraries installed, no credential set *)
Definition env_no_keys : Env :=
  mkEnv true true false None None None
        (fun _ _ => Fails "unreachable") (fun _ _ => Fails "unreachable")
        (Raise (ModelLoadError "not installed")).

(** no library installed, no credential set *)
Definition env_bare : Env :=
  mkEnv false false false None None None
        (fun _ _ => Fails "unreachable") (fun _ _ => Fails "unreachable")
        (Raise (ModelLoadError "not installed")).

(** the revenue scenario: the question, and what each endpoint answers and
    leaves behind when asked in a fresh process *)
Definition revenue_request : AnalysisRequest :=
  mkRequest "total revenue" (Some two_invoices).

Definition revenue_text : string :=
  Py.join nl ["Total Revenue Analysis:";
              "- Total invoices: 2";
              "- Total amount: $150.00";
              "- Paid invoices: 1";
              "- Partially paid: 1";
              "- Average per invoice: $75.00"].

Definition fallback_response : AnalysisResponse :=
  mkResponse "Revenue is 150." 2
             (Py.take 8 (provider_cache_key "total revenue" two_invoices)).

Definition after_fallback : World :=
  mkWorld {[ provider_cache_key "total revenue" two_invoices := fallback_response ]}
          None [ProviderCall Claude false; ProviderCall OpenAI true].

Definition local_response : AnalysisResponse :=
  mkResponse revenue_text 2 (Py.take 8 (free_cache_key "total revenue" two_invoices)).

Definition after_local : World :=
  mkWorld {[ free_cache_key "total revenue" two_invoices := local_response ]}
          (Some all_MiniLM_L6_v2) [HeuristicRun].

(** a request nobody can answer: what each endpoint raises and leaves behind *)
Definition no_provider_error : exn :=
  HTTPExceptionFrom 500 "Analysis failed: "
    (RetryError (HTTPException 500
       "No LLM API available. Install and configure: Claude (set ANTHROPIC_API_KEY), OpenAI (set OPENAI_API_KEY)")).

Definition after_no_provider : World := mkWorld ∅ None [Sleep 4; Sleep 4].

Definition no_heuristic_error : exn :=
  HTTPExceptionFrom 500 "Free analysis failed: "
    (HTTPException 500 "sentence-transformers not available").

Definition after_no_heuristic : World := mkWorld ∅ None [HeuristicRun].

(** every amount that passes the digit test of api.py 108 is one [float] reads *)
Definition amounts_readable (invoices : list InvoiceData) : bool :=
  forallb (fun inv => negb (amount_guard (amount inv)) ||
                      match Float.of_str (amount inv) with
                      | Some _ => true
                      | None => false
                      end) invoices.

(** the records of [two_invoices] *)
Definition two_records : list InvoiceData :=
  [ mkInvoice "1" "Acme" "100" "2024-01-01" "Paid";
    mkInvoice "2" "Bolt" "50" "2024-01-02" "Partially Paid" ].

(** a dataset whose header opens a quote and never closes it *)
Definition unclosed_quote_csv : string :=
  "invoice_id,customer,amount,paid_at," +:+ Py.str1 Csv.quotechar +:+ "status" +:+ nl +:+
  "1,Acme,100,2024-01-01,Paid".

(** a dataset with an amount of digits and two dots *)
Definition dotted_amount_csv : string :=
  "invoice_id,customer,amount,paid_at,status" +:+ nl +:+
  "1,Acme,100,2024-01-01,Paid" +:+ nl +:+
  "2,Bolt,1.2.3,2024-01-02,Paid".

Definition dotted_amount_records : list InvoiceData :=
  [ mkInvoice "1" "Acme" "100" "2024-01-01" "Paid";
    mkInvoice "2" "Bolt" "1.2.3" "2024-01-02" "Paid" ].

(** a dataset with an amount that is no numeral *)
Definition abc_amount_records : list InvoiceData :=
  [ mkInvoice "1" "Acme" "100" "2024-01-01" "Paid";
    mkInvoice "2" "Bolt" "abc" "2024-01-02" "Paid" ].

(** [x] stands somewhere before [y] in [l] *)
Definition precedes {A} (x y : A) (l : list A) : Prop :=
  exists l1 l2 l3, l = l1 ++ x :: l2 ++ y :: l3.

(** a dataset with ties and more than five customers *)
Definition seven_customers : list InvoiceData :=
  [ mkInvoice "1" "Acme" "100" "d" "Paid";
    mkInvoice "2" "Bolt" "50" "d" "Paid";
    mkInvoice "3" "Cord" "abc" "d" "Paid";
    mkInvoice "4" "Bolt" "50.5" "d" "Paid";
    mkInvoice "5" "Dyne" "100.5" "d" "Paid";
    mkInvoice "6" "Elco" "1234567.891" "d" "Paid";
    mkInvoice "7" "Fynn" "0" "d" "Paid";
    mkInvoice "8" "Gray" "7" "d" "Paid" ].

(** how many times the character [c] occurs in [s] *)
Fixpoint occurrences (c : ascii) (s : string) : nat :=
  match s with
  | EmptyString => O
  | String a s' => ((if Ascii.eqb a c then 1 else 0) + occurrences c s')%nat
  end.

(** ** The ranking as the specification words it *)

(** what a record adds to a sum: its amount when it is a numeral, else nothing *)
Definition add_amount (acc : Float.float) (inv : InvoiceData) : Float.float :=
  if amount_guard (amount inv) then
    match Float.of_str (amount inv) with
    | Some x => Float.add acc x
    | None => acc
    end
  else acc.

(** the sum of the amounts of customer [c], added in record order to [start] *)
Definition customer_sum_from (c : string) (start : Float.float)
           (invs : list InvoiceData) : Float.float :=
  fold_left (fun acc inv => if String.eqb (customer inv) c then add_amount acc inv else acc)
            invs start.

(** the names of [l] that are not in [seen], each once, in first-occurrence order *)
Fixpoint first_occurrences (seen : list string) (l : list string) : list string :=
  match l with
  | [] => []
  | c :: l' =>
      if existsb (String.eqb c) seen then first_occurrences seen l'
      else c :: first_occurrences (seen ++ [c]) l'
  end.

(** the customers in first-occurrence order, each with the sum of its amounts *)
Definition customer_sums (invs : list InvoiceData) : list (string * Float.float) :=
  map (fun c => (c, customer_sum_from c Float.zero invs))
      (first_occurrences [] (map customer invs)).

(** one record's effect on an entry of the dict *)
Definition credit (inv : InvoiceData) (kv : string * Float.float) : string * Float.float :=
  if String.eqb (customer inv) (fst kv) then (fst kv, add_amount (snd kv) inv) else kv.

(** two different byte strings with the same SHA-256 digest *)
Definition sha256_collision (b1 b2 : list Z) : Prop :=
  b1 <> b2 /\ Sha256.hexdigest b1 = Sha256.hexdigest b2.

(** ** The range of the fingerprint *)

Definition hexdigits : list ascii := list_ascii_of_string "0123456789abcdef".

(** all the strings of [n] hexadecimal digits *)
Fixpoint hexstrings (n : nat) : list string :=
  match n with
  | O => [EmptyString]
  | S k => flat_map (fun s => map (fun c => String c s) hexdigits) (hexstrings k)
  end.

(** the query made of [n] letters a *)
Fixpoint letters (n : nat) : string :=
  match n with
  | O => EmptyString
  | S k => String "a" (letters k)
  end.

(** two requests whose query and dataset differ and whose joined texts agree *)
Definition overview_request : AnalysisRequest :=
  mkRequest "hello"
    (Some ("who:x,invoice_id,customer,amount,paid_at,status" +:+ nl +:+
           "0,1,Acme,100,2024-01-01,Paid")).

Definition ranking_request : AnalysisRequest :=
  mkRequest "hello:who"
    (Some ("x,invoice_id,customer,amount,paid_at,status" +:+ nl +:+
           "0,1,Acme,100,2024-01-01,Paid")).

(** ** More of src/api.py, and notions for its further properties *)

(** get_invoices, GET /invoices (api.py 282-286): the records and their count *)
Definition get_invoices (env : Env) : result (list InvoiceData * nat) :=
  check invoices <- load_csv_data env in
  Ok (invoices, length invoices).

Definition is_heuristic_run (e : Event) : bool :=
  match e with
  | HeuristicRun => true
  | _ => false
  end.

(** the environment with another persisted dataset *)
Definition with_invoices_csv (file : option string) (env : Env) : Env :=
  mkEnv (CLAUDE_AVAILABLE env) (OPENAI_AVAILABLE env) (TRANSFORMERS_AVAILABLE env)
        (ANTHROPIC_API_KEY env) (OPENAI_API_KEY env) file
        (messages_create env) (completions_create env) (SentenceTransformer env).

(** the world after the local model has been loaded in a fresh process *)
Definition model_loaded : World := mkWorld ∅ (Some all_MiniLM_L6_v2) [].

(** the local analyzer library is installed, but its model cannot be built *)
Definition env_model_fails : Env :=
  mkEnv false false true None None None
        (fun _ _ => Fails "unreachable") (fun _ _ => Fails "unreachable")
        (Raise (ModelLoadError "download failed")).

(** the answer to a request without a dataset to read *)
Definition no_data_error : exn :=
  HTTPException 404 "No invoice data found. Run the scraper first or provide CSV data.".

(** the answer to inline data of fewer than two lines *)
Definition bad_format_error : exn := HTTPException 400 "Invalid CSV data format".

(** the line feed *)
Definition LF : ascii := Py.chr 10.

(** text of ASCII characters only, on which [strip], [isdigit] and [lower]
    are the ASCII ones *)
Definition ascii_text (s : string) : bool := Py.all_chars (fun c => Py.code c <? 128) s.

Definition ascii_amounts (invs : list InvoiceData) : bool :=
  forallb (fun inv => ascii_text (amount inv)) invs.

(** a request that carries no dataset *)
Definition overview_of_file : AnalysisRequest := mkRequest "overview" None.

(** a persisted dataset whose second row stops after two fields *)
Definition short_row_csv : string :=
  "invoice_id,customer,amount,paid_at,status" +:+ nl +:+ "1,Acme" +:+ nl.

Definition env_short_row : Env := with_invoices_csv (Some short_row_csv) env_local.

(** a provider call that returned a reply text *)
Definition is_answer (e : Event) : bool :=
  match e with
  | ProviderCall _ true => true
  | _ => false
  end.

(** what provider [p] does at its call number [n] *)
Definition reply (env : Env) (p : Provider) (n : nat) (prompt : string) : Reply :=
  match p with
  | Claude => messages_create env n prompt
  | OpenAI => completions_create env n prompt
  end.

(** the three texts an attempt of the dispatcher fails with *)
Definition attempt_error (env : Env) (msg : string) : Prop :=
  msg = error_msg env \/
  (exists s, msg = "Claude API error: " +:+ s) \/
  (exists s, msg = "OpenAI API error: " +:+ s).

(** the backoff waits before [n] further attempts, the next one being attempt [k + 1] *)
Fixpoint waits (n : nat) (k : Z) : list Event :=
  match n with
  | O => []
  | S m => Sleep (wait_exponential 1 4 10 k) :: waits m (k + 1)
  end.

(** only the primary is configured; it fails once and then answers *)
Definition env_flaky : Env :=
  mkEnv true false false (Some "sk-ant") None None
        (fun n _ => match n with O => Fails "overloaded" | _ => Text "Revenue is 150." end)
        (fun _ _ => Fails "unreachable")
        (Raise (ModelLoadError "not installed")).

(** the primary is configured and down; the secondary has a credential
    but its library is not installed *)
Definition env_masked : Env :=
  mkEnv true false false (Some "sk-ant") (Some "sk-oai") None
        (fun _ _ => Fails "overloaded") (fun _ _ => Fails "unreachable")
        (Raise (ModelLoadError "not installed")).

(** both providers configured and answering *)
Definition env_both_answer : Env :=
  mkEnv true true false (Some "sk-ant") (Some "sk-oai") None
        (fun _ _ => Text "Claude says 150.") (fun _ _ => Text "OpenAI says 150.")
        (Raise (ModelLoadError "not installed")).

(** only the secondary is configured, and it answers *)
Definition env_openai_only : Env :=
  mkEnv true true false None (Some "sk-oai") None
        (fun _ _ => Text "Claude says 150.") (fun _ _ => Text "OpenAI says 150.")
        (Raise (ModelLoadError "not installed")).

(** both providers configured and down *)
Definition env_both_down : Env :=
  mkEnv true true false (Some "k1") (Some "k2") None
        (fun _ _ => Fails "down") (fun _ _ => Fails "busy")
        (Raise (ModelLoadError "none")).

(** what the local analysis reads of a record: the customer, the amount,
    and the status up to letter case *)
Definition same_for_analysis (a b : InvoiceData) : Prop :=
  customer a = customer b /\ amount a = amount b /\
  Py.lower (status a) = Py.lower (status b).

(** the branch of api.py 118-143 a query selects *)
Definition branch (q : string) : Spec.Category :=
  let query_lower := Py.lower q in
  if any_in ["total"; "revenue"; "amount"; "sum"] query_lower then Spec.Revenue
  else if any_in ["customer"; "client"; "who"] query_lower then Spec.CustomerRanking
  else if any_in ["status"; "paid"; "payment"] query_lower then Spec.PaymentStatus
  else if any_in ["count"; "how many"; "number"] query_lower then Spec.Count
  else Spec.GeneralOverview.

(** the records of [two_records] under other ids and dates, and with the
    status in other letter case *)
Definition two_records_relabelled : list InvoiceData :=
  [ mkInvoice "INV-7" "Acme" "100" "never" "PAID";
    mkInvoice "INV-8" "Bolt" "50" EmptyString "partially paid" ].

(** what [float] says of a text it cannot read *)
Definition not_a_float (a : string) : exn :=
  ValueError ("could not convert string to float: '" +:+ a +:+ "'").

(** a character of a plain numeral *)
Definition digit_or_dot (c : ascii) : bool := Py.isdigit_char c || Ascii.eqb c ".".

(** a text made of digits and dots, with a digit *)
Definition digits_and_dots (a : string) : bool :=
  forallb digit_or_dot (list_ascii_of_string a) &&
  existsb Py.isdigit_char (list_ascii_of_string a).

(** the carriage return *)
Definition CR : ascii := Py.chr 13.

(** a character a CSV field holds without quoting (and not NUL, which the
    readers before CPython 3.11 refuse) *)
Definition plain_char (c : ascii) : bool :=
  negb (Ascii.eqb c Csv.delimiter) && negb (Ascii.eqb c Csv.quotechar) &&
  negb (Csv.is_newline c) && negb (Ascii.eqb c (Py.chr 0)).

(** a field the writer of a CSV file leaves unquoted, within the reader's size limit *)
Definition plain (s : string) : bool :=
  Py.all_chars plain_char s && (Z.of_nat (String.length s) <=? Csv.field_limit).

Definition fields_of (inv : InvoiceData) : list string :=
  [invoice_id inv; customer inv; amount inv; paid_at inv; status inv].

Definition plain_record (inv : InvoiceData) : bool := forallb plain (fields_of inv).

(** the header line of invoices.csv, the one of the inline data in test_api.py *)
Definition header : string := "invoice_id,customer,amount,paid_at,status".

Definition record_line (inv : InvoiceData) : string := Py.join "," (fields_of inv).

(** records written as inline data: the lines joined by line feeds *)
Definition dataset (invs : list InvoiceData) : string :=
  Py.join nl (header :: map record_line invs).

(** records written as a file: every line closed by [line_end] *)
Definition file_of_lines (line_end : string) (lines : list string) : string :=
  fold_right (fun l text => l +:+ line_end +:+ text) EmptyString lines.

Definition dataset_file (line_end : string) (invs : list InvoiceData) : string :=
  file_of_lines line_end (header :: map record_line invs).

(** the record the header line is the line of *)
Definition header_record : InvoiceData :=
  mkInvoice "invoice_id" "customer" "amount" "paid_at" "status".

(** the two ways a line handed to the reader ends: bare, or with its line feed *)
Definition line_tail (tail : string) : Prop := tail = EmptyString \/ tail = nl.

(** the line end of a file written on Windows *)
Definition CRLF : string := String CR nl.

(** a dataset of two records whose fields hold blanks, signs and letters *)
Definition spaced_records : list InvoiceData :=
  [ mkInvoice "INV 1" "Acme & Sons" "1.5" "2024-01-01" "Paid";
    mkInvoice EmptyString "Bolt" "-3" EmptyString "Partially Paid" ].

(** text that [strip] leaves alone at its end: ASCII, the last character no white space *)
Definition no_trailing_space (s : string) : bool :=
  ascii_text s && String.eqb (Py.rstrip s) s.

(** a file with a quoted field that spans two lines, saved with Windows line ends *)
Definition quoted_crlf_csv : string :=
  "invoice_id,customer,amount,paid_at,status" +:+ CRLF +:+
  "1," +:+ Py.str1 Csv.quotechar +:+ "Acme" +:+ CRLF +:+ "Ltd" +:+ Py.str1 Csv.quotechar +:+
  ",100,2024-01-01,Paid" +:+ CRLF.

(** the five keys of a record *)
Definition record_keys : list string :=
  ["invoice_id"; "customer"; "amount"; "paid_at"; "status"].

(** a row under a header without a status column, and a row with a value too many *)
Definition row_without_status : Csv.DictRow :=
  Csv.dict_row ["invoice_id"; "customer"; "amount"; "paid_at"]
               ["1"; "Acme"; "100"; "2024-01-01"].

Definition row_with_surplus : Csv.DictRow :=
  Csv.dict_row record_keys ["1"; "Acme"; "100"; "2024-01-01"; "Paid"; "late"].


(** the second pair is the first with a piece [s] and a colon taken from
    the front of the dataset and put, colon first, at the end of the query:
    both pairs are joined into the same text *)
Definition colon_shift (q1 d1 q2 d2 : string) : Prop :=
  exists s, q2 = q1 +:+ ":" +:+ s /\ d1 = s +:+ ":" +:+ d2.

(** * Properties *)

(** ** SHA-256 test vectors (FIPS 180-4, appendix B) *)

Example sha_abc : Sha256.hexdigest (Sha256.encode "abc") =
  "ba7816bf8f01cfea414140de5dae2223b00361a396177a9cb410ff61f20015ad".
Proof. vm_compute. reflexivity. Qed.

Example sha_empty : Sha256.hexdigest (Sha256.encode EmptyString) =
  "e3b0c44298fc1c149afbf4c8996fb92427ae41e4649b934ca495991b7852b855".
Proof. vm_compute. reflexivity. Qed.

Example sha_long : Sha256.hexdigest (Sha256.encode
  "abcdbcdecdefdefgefghfghighijhijkijkljklmklmnlmnomnopnopq") =
  "248d6a61d20638b8e5c026930c3e6039a33ce45964ff2167f6ecedd419db06c1".
Proof. vm_compute. reflexivity. Qed.


(** ** The fingerprint *)

Lemma hexdigest_length (bytes : list Z) :
  String.length (Sha256.hexdigest bytes) = 64%nat.
Proof.
  unfold Sha256.hexdigest, Sha256.hex_of_hash, Sha256.hex8. reflexivity.
Qed.

Lemma get_cache_key_length (q d : string) :
  String.length (get_cache_key q d) = 64%nat.
Proof. unfold get_cache_key. apply hexdigest_length. Qed.

Lemma append_length (s t : string) :
  String.length (s +:+ t) = (String.length s + String.length t)%nat.
Proof. induction s as [|c s IH]; simpl; [reflexivity | now rewrite IH]. Qed.

Lemma contains_colon_head (s : string) : Py.contains ":" (String ":" s) = true.
Proof. reflexivity. Qed.

Lemma contains_tail (sub : string) (c : ascii) (s : string) :
  Py.contains sub (String c s) = false -> Py.contains sub s = false.
Proof.
  simpl. intros H. apply orb_false_iff in H. destruct H as [_ H]. exact H.
Qed.

(** joining with a colon loses nothing when the queries hold no colon *)
Lemma joined_text_injective (q1 q2 d1 d2 : string) :
  Py.contains ":" q1 = false -> Py.contains ":" q2 = false ->
  content q1 d1 = content q2 d2 -> q1 = q2 /\ d1 = d2.
Proof.
  unfold content.
  revert q2. induction q1 as [|c q1 IH]; intros [|c2 q2] H1 H2 E; simpl in E.
  - injection E as E. now subst.
  - injection E as Ec E. subst c2. rewrite contains_colon_head in H2. discriminate.
  - injection E as Ec E. subst c. rewrite contains_colon_head in H1. discriminate.
  - injection E as Ec E. subst c2.
    apply contains_tail in H1. apply contains_tail in H2.
    destruct (IH q2 H1 H2 E) as [-> ->]. now split.
Qed.

(** C1, the claim as worded fails: two different pairs with one fingerprint *)
Lemma get_cache_key_colon_collision :
  ("a:b", "c") <> ("a", "b:c") /\ get_cache_key "a:b" "c" = get_cache_key "a" "b:c".
Proof. split; [discriminate | reflexivity]. Qed.

(** what the shared fingerprint does at the endpoint: asked alone, the
    overview request is answered with the overview; asked after the ranking
    request, it is answered with the ranking that request left in the cache *)
Example colon_collision_at_endpoint :
  fst (analyze_invoices_free env_local overview_request fresh)
    = Ok (mkResponse
            (Py.join nl ["Invoice Overview:";
                         "- Total invoices: 1";
                         "- Total revenue: $100.00";
                         "- Customers: 1";
                         "- Paid: 1, Partial: 0";
                         "- Average invoice: $100.00";
                         EmptyString;
                         chart +:+ " This analysis uses free local AI (sentence-transformers)"])
            1 "free_703") /\
  fst (analyze_invoices_free env_local overview_request
         (snd (analyze_invoices_free env_local ranking_request fresh)))
    = Ok (mkResponse
            (Py.join nl ["Customer Analysis:";
                         "- Total customers: 1";
                         "- Top customers by revenue:";
                         "  " +:+ bullet +:+ " Acme: $100.00";
                         EmptyString])
            1 "free_703").
Proof. split; vm_compute; reflexivity. Qed.

Lemma encode_injective (s t : string) : Sha256.encode s = Sha256.encode t -> s = t.
Proof.
  revert t. induction s as [|a s IH]; intros [|b t] E; simpl in E; try discriminate.
  - reflexivity.
  - injection E as Eab E. f_equal; [|now apply IH].
    unfold Py.code in Eab. apply N2Z.inj in Eab.
    rewrite <- (ascii_N_embedding a), <- (ascii_N_embedding b). now rewrite Eab.
Qed.

(** the fingerprint ranges over the finitely many strings of 64 hexadecimal
    digits, so that queries without a colon share fingerprints as well *)
Lemma hex_digit_in (z : Z) : 0 <= z < 16 -> In (Sha256.hex_digit z) hexdigits.
Proof.
  intros H.
  assert (E : z = 0 \/ z = 1 \/ z = 2 \/ z = 3 \/ z = 4 \/ z = 5 \/ z = 6 \/ z = 7 \/
              z = 8 \/ z = 9 \/ z = 10 \/ z = 11 \/ z = 12 \/ z = 13 \/ z = 14 \/ z = 15)
    by lia.
  repeat (destruct E as [->|E]; [simpl; tauto|]). subst z. simpl. tauto.
Qed.

Lemma hex_nibble_in (w i : Z) : In (Sha256.hex_nibble w i) hexdigits.
Proof. unfold Sha256.hex_nibble. apply hex_digit_in, Z.mod_pos_bound. lia. Qed.

Lemma hexstrings_cons (c : ascii) (s : string) (k : nat) :
  In c hexdigits -> In s (hexstrings k) -> In (String c s) (hexstrings (S k)).
Proof.
  intros Hc Hs. change (hexstrings (S k))
    with (flat_map (fun s => map (fun c => String c s) hexdigits) (hexstrings k)).
  apply in_flat_map. exists s. split; [assumption|].
  exact (in_map (fun c0 => String c0 s) hexdigits c Hc).
Qed.

Lemma hexdigest_in (bytes : list Z) : In (Sha256.hexdigest bytes) (hexstrings 64).
Proof.
  unfold Sha256.hexdigest, Sha256.hex_of_hash, Sha256.hex8.
  repeat (apply hexstrings_cons; [apply hex_nibble_in|]).
  left. reflexivity.
Qed.

Section Pigeonhole.

Variable A : Type.
Hypothesis A_eq_dec : forall x y : A, {x = y} + {x <> y}.
Variable f : nat -> A.

Lemma clash_or_distinct (n : nat) :
  (exists i j, (i < j < n)%nat /\ f i = f j) \/ List.NoDup (map f (seq 0 n)).
Proof.
  induction n as [|n [(i & j & Hij & E)|Hnd]].
  - right. constructor.
  - left. exists i, j. split; [lia | assumption].
  - rewrite seq_S, map_app. simpl.
    destruct (in_dec A_eq_dec (f n) (map f (seq 0 n))) as [Hin|Hout].
    + left. apply in_map_iff in Hin. destruct Hin as (i & E & Hi).
      apply in_seq in Hi. exists i, n. split; [lia | assumption].
    + right. apply List.NoDup_app; [assumption | repeat constructor; intros [] |].
      intros a Ha [<-|[]]. contradiction.
Qed.

Lemma pigeonhole (range : list A) :
  (forall n, In (f n) range) -> exists i j, (i < j)%nat /\ f i = f j.
Proof.
  intros Hrange.
  destruct (clash_or_distinct (S (length range))) as [(i & j & Hij & E)|Hnd].
  - exists i, j. split; [lia | assumption].
  - exfalso.
    assert (Hle : (length (map f (seq 0 (S (length range)))) <= length range)%nat).
    { apply NoDup_incl_length; [assumption|].
      intros a Ha. apply in_map_iff in Ha. destruct Ha as (n & <- & _). apply Hrange. }
    rewrite length_map, length_seq in Hle. lia.
Qed.

End Pigeonhole.

Lemma letters_length (n : nat) : String.length (letters n) = n.
Proof. induction n as [|n IH]; simpl; [reflexivity | now rewrite IH]. Qed.

Lemma letters_no_colon (n : nat) : Py.contains ":" (letters n) = false.
Proof. induction n as [|n IH]; [reflexivity|]. simpl in *. exact IH. Qed.

Lemma fingerprints_repeat (d : string) :
  exists q1 q2,
    Py.contains ":" q1 = false /\ Py.contains ":" q2 = false /\ q1 <> q2 /\
    get_cache_key q1 d = get_cache_key q2 d.
Proof.
  destruct (pigeonhole string string_dec (fun n => get_cache_key (letters n) d)
              (hexstrings 64)) as (i & j & Hij & E).
  - intros n. apply hexdigest_in.
  - exists (letters i), (letters j). repeat split; try apply letters_no_colon; [|exact E].
    intros Eq. apply (f_equal String.length) in Eq. rewrite !letters_length in Eq. lia.
Qed.

(** the only pairs joined into one text: a pair and its colon shifts *)
Lemma content_shifted (q1 d1 q2 d2 : string) :
  colon_shift q1 d1 q2 d2 -> content q1 d1 = content q2 d2.
Proof.
  unfold content. intros (s & -> & ->).
  induction q1 as [|c q1 IH]; [reflexivity|].
  change (String c (q1 +:+ ":" +:+ s +:+ ":" +:+ d2)
          = String c ((q1 +:+ ":" +:+ s) +:+ ":" +:+ d2)).
  now rewrite IH.
Qed.

Lemma content_equal (q1 d1 q2 d2 : string) :
  content q1 d1 = content q2 d2 ->
  (q1, d1) = (q2, d2) \/ colon_shift q1 d1 q2 d2 \/ colon_shift q2 d2 q1 d1.
Proof.
  unfold content.
  revert q2. induction q1 as [|c q1 IH]; intros [|c2 q2] E.
  - change (String ":" d1 = String ":" d2) in E.
    injection E as E. subst d2. now left.
  - change (String ":" d1 = String c2 (q2 +:+ ":" +:+ d2)) in E.
    injection E as Ec E. subst c2 d1. right. left. now exists q2.
  - change (String c (q1 +:+ ":" +:+ d1) = String ":" d2) in E.
    injection E as Ec E. subst c d2. right. right. now exists q1.
  - change (String c (q1 +:+ ":" +:+ d1) = String c2 (q2 +:+ ":" +:+ d2)) in E.
    injection E as Ec E. subst c2.
    destruct (IH q2 E) as [Eq|[(s & Hq & Hd)|(s & Hq & Hd)]].
    + injection Eq as Hq Hd. subst q2 d2. now left.
    + subst q2 d1. right. left. now exists s.
    + subst q1 d2. right. right. now exists s.
Qed.

Lemma colon_shift_longer (q1 d1 q2 d2 : string) :
  colon_shift q1 d1 q2 d2 ->
  (String.length q1 < String.length q2)%nat /\ (String.length d2 < String.length d1)%nat /\
  Py.contains ":" q2 = true.
Proof.
  intros (s & -> & ->). rewrite !append_length. cbn [String.length].
  split; [lia | split; [lia|]].
  induction q1 as [|c q1 IH]; [reflexivity|].
  change (Py.contains ":" (String c (q1 +:+ ":" +:+ s)) = true).
  cbn [Py.contains]. rewrite IH. apply orb_true_r.
Qed.

(** C1 (amended): the fingerprint is stable: the same query and dataset
    text always give the same fingerprint.  Two pairs are hashed as the
    same text exactly when they are equal or one is a colon shift of the
    other (a piece led by a colon moved between the end of the query and
    the front of the dataset).  Two pairs that differ, by one character
    or more, whitespace included, and are no colon shift of each other
    are hashed as different texts, so their fingerprints differ unless
    the two texts are a collision of SHA-256 (and such collisions exist,
    the fingerprints being finitely many).  No colon shift is possible
    when the two queries are equal, when the two datasets are equal, or
    when neither query holds a colon. *)
Theorem get_cache_key_stable (q1 d1 q2 d2 : string) :
  ((q1, d1) = (q2, d2) -> get_cache_key q1 d1 = get_cache_key q2 d2) /\
  (content q1 d1 = content q2 d2 <->
   (q1, d1) = (q2, d2) \/ colon_shift q1 d1 q2 d2 \/ colon_shift q2 d2 q1 d1) /\
  ((q1, d1) <> (q2, d2) ->
   ~ colon_shift q1 d1 q2 d2 -> ~ colon_shift q2 d2 q1 d1 ->
   get_cache_key q1 d1 <> get_cache_key q2 d2 \/
   sha256_collision (Sha256.encode (content q1 d1)) (Sha256.encode (content q2 d2))) /\
  (q1 = q2 \/ d1 = d2 \/
   (Py.contains ":" q1 = false /\ Py.contains ":" q2 = false) ->
   ~ colon_shift q1 d1 q2 d2 /\ ~ colon_shift q2 d2 q1 d1) /\
  ((q1, d1) <> (q2, d2) ->
   q1 = q2 \/ d1 = d2 \/
   (Py.contains ":" q1 = false /\ Py.contains ":" q2 = false) ->
   get_cache_key q1 d1 <> get_cache_key q2 d2 \/
   sha256_collision (Sha256.encode (content q1 d1)) (Sha256.encode (content q2 d2))).
Proof.
  assert (Hno : q1 = q2 \/ d1 = d2 \/
                (Py.contains ":" q1 = false /\ Py.contains ":" q2 = false) ->
                ~ colon_shift q1 d1 q2 d2 /\ ~ colon_shift q2 d2 q1 d1).
  { intros H. split; intros S; apply colon_shift_longer in S;
      destruct S as (Hq & Hd & Hc);
      destruct H as [->|[->|[H1 H2]]]; try lia; congruence. }
  assert (Hsens : (q1, d1) <> (q2, d2) ->
            ~ colon_shift q1 d1 q2 d2 -> ~ colon_shift q2 d2 q1 d1 ->
            get_cache_key q1 d1 <> get_cache_key q2 d2 \/
            sha256_collision (Sha256.encode (content q1 d1))
                             (Sha256.encode (content q2 d2))).
  { intros Hne N1 N2.
    destruct (string_dec (get_cache_key q1 d1) (get_cache_key q2 d2)) as [E|E];
      [right | now left].
    split; [|exact E].
    intros Ec. apply encode_injective in Ec.
    destruct (content_equal q1 d1 q2 d2 Ec) as [Eq|[S|S]]; auto. }
  split; [|split; [|split; [exact Hsens | split; [exact Hno|]]]].
  - intros E. injection E as -> ->. reflexivity.
  - split; [apply content_equal|].
    intros [E|[S|S]].
    + injection E as -> ->. reflexivity.
    + now apply content_shifted.
    + symmetry. now apply content_shifted.
  - intros Hne H. destruct (Hno H) as [N1 N2]. now apply Hsens.
Qed.

Lemma get_cache_key_stable_witness :
  get_cache_key "ratio 1:2" "id,amount" = get_cache_key "ratio 1:2" "id,amount" /\
  (get_cache_key "ratio 1:2" "id,amount" <> get_cache_key "ratio 1:2" "id,amount " \/
   sha256_collision (Sha256.encode (content "ratio 1:2" "id,amount"))
                    (Sha256.encode (content "ratio 1:2" "id,amount "))).
Proof.
  split.
  - apply (proj1 (get_cache_key_stable "ratio 1:2" "id,amount" "ratio 1:2" "id,amount")).
    reflexivity.
  - destruct (get_cache_key_stable "ratio 1:2" "id,amount" "ratio 1:2" "id,amount ")
      as (_ & _ & _ & _ & Hsens).
    apply Hsens; [discriminate | left; reflexivity].
Defined.

(** ** What the analysis steps leave alone *)

Lemma keeps_cache_ret {A} (a : A) : keeps_cache (ret a).
Proof. intros w. reflexivity. Qed.

Lemma keeps_cache_raise {A} (e : exn) : keeps_cache (@raise A e).
Proof. intros w. reflexivity. Qed.

Lemma keeps_cache_bind {A B} (m : M A) (k : A -> M B) :
  keeps_cache m -> (forall a, keeps_cache (k a)) -> keeps_cache (bind m k).
Proof.
  intros Hm Hk w. unfold bind. specialize (Hm w).
  destruct (m w) as [[a|e] w']; simpl in *.
  - rewrite Hk. exact Hm.
  - exact Hm.
Qed.

Lemma keeps_cache_call_provider env p prompt : keeps_cache (call_provider env p prompt).
Proof. intros w. reflexivity. Qed.

Create HintDb cache.
#[local] Hint Resolve keeps_cache_ret keeps_cache_raise keeps_cache_call_provider : cache.

Lemma keeps_cache_call_llm_once env prompt : keeps_cache (call_llm_once env prompt).
Proof.
  unfold call_llm_once.
  apply keeps_cache_bind.
  - destruct (CLAUDE_AVAILABLE env && Py.truthy (ANTHROPIC_API_KEY env)); auto with cache.
    apply keeps_cache_bind; auto with cache.
    intros [t|e]; auto with cache.
    destruct (negb (Py.truthy (OPENAI_API_KEY env))); auto with cache.
  - intros [t|]; auto with cache.
    destruct (OPENAI_AVAILABLE env && Py.truthy (OPENAI_API_KEY env)); auto with cache.
    apply keeps_cache_bind; auto with cache.
    intros [t|e]; auto with cache.
Qed.

Lemma keeps_cache_retrying {A} (f : M A) (n : nat) :
  keeps_cache f -> forall k, keeps_cache (retrying n k f).
Proof.
  intros Hf. induction n as [|n IH]; intros k w; simpl;
    specialize (Hf w); destruct (f w) as [[a|e] w']; simpl in *; auto.
  rewrite IH. simpl. exact Hf.
Qed.

Lemma keeps_cache_call_llm env prompt : keeps_cache (call_llm env prompt).
Proof.
  unfold call_llm, retry. apply keeps_cache_retrying, keeps_cache_call_llm_once.
Qed.

Lemma keeps_cache_get_transformer_model env : keeps_cache (get_transformer_model env).
Proof.
  intros w. unfold get_transformer_model.
  destruct (_model w); [reflexivity|].
  destruct (TRANSFORMERS_AVAILABLE env); [|reflexivity].
  destruct (SentenceTransformer env); reflexivity.
Qed.

Lemma keeps_cache_analyze_with_transformers env q invs :
  keeps_cache (analyze_with_transformers env q invs).
Proof.
  intros w. unfold analyze_with_transformers.
  destruct (negb (TRANSFORMERS_AVAILABLE env)); [reflexivity|].
  pose proof (keeps_cache_get_transformer_model env (emit HeuristicRun w)) as H.
  destruct (get_transformer_model env (emit HeuristicRun w)) as [[[m|]|e] w']; exact H.
Qed.

(** ** The two endpoints, case by case *)

Lemma analyze_invoices_outcome env req w :
  outcome provider_cache_key "Analysis failed: "
          (fun invs => call_llm env (make_prompt invs (query req)))
          env req w (analyze_invoices env req w).
Proof.
  unfold analyze_invoices, bind, lift.
  destruct (load_request_data env req) as [[invs csv_content]|e] eqn:Hload.
  - destruct (cache w !! provider_cache_key (query req) csv_content) as [cached|] eqn:Hc.
    + eapply hit; eauto.
    + unfold try_except.
      destruct (call_llm env (make_prompt invs (query req)) w) as [[text|e] w'] eqn:Hcall.
      * eapply computed; eauto.
      * eapply failed; eauto.
  - now apply rejected.
Qed.

Lemma analyze_invoices_free_outcome env req w :
  outcome free_cache_key "Free analysis failed: "
          (fun invs => analyze_with_transformers env (query req) invs)
          env req w (analyze_invoices_free env req w).
Proof.
  unfold analyze_invoices_free, bind, lift.
  destruct (load_request_data env req) as [[invs csv_content]|e] eqn:Hload.
  - destruct (cache w !! free_cache_key (query req) csv_content) as [cached|] eqn:Hc.
    + eapply hit; eauto.
    + unfold try_except.
      destruct (analyze_with_transformers env (query req) invs w) as [[text|e] w'] eqn:Hcall.
      * eapply computed; eauto.
      * eapply failed; eauto.
  - now apply rejected.
Qed.

Lemma load_request_data_ext env env2 req :
  invoices_csv env2 = invoices_csv env ->
  load_request_data env2 req = load_request_data env req.
Proof.
  intros E. unfold load_request_data, load_csv_data. now rewrite E.
Qed.

Lemma analyze_invoices_hit env req w invs csv_content cached :
  load_request_data env req = Ok (invs, csv_content) ->
  cache w !! provider_cache_key (query req) csv_content = Some cached ->
  analyze_invoices env req w = (Ok cached, w).
Proof.
  intros Hl Hc. unfold analyze_invoices, bind, lift. rewrite Hl, Hc. reflexivity.
Qed.

Lemma analyze_invoices_free_hit env req w invs csv_content cached :
  load_request_data env req = Ok (invs, csv_content) ->
  cache w !! free_cache_key (query req) csv_content = Some cached ->
  analyze_invoices_free env req w = (Ok cached, w).
Proof.
  intros Hl Hc. unfold analyze_invoices_free, bind, lift. rewrite Hl, Hc. reflexivity.
Qed.

(** ** What holds of any endpoint of this shape *)

Section Endpoint.

Variable key_of : string -> string -> string.
Variable prefix : string.
Variable analyzer : list InvoiceData -> M string.
Hypothesis analyzer_keeps_cache : forall invs, keeps_cache (analyzer invs).

Variable env : Env.
Variable req : AnalysisRequest.
Variable w : World.

(** what the run of the analyzer in the context left of the cache *)
Ltac analyzer_kept :=
  match goal with
  | H : analyzer ?i w = (_, ?w') |- _ =>
      let K := fresh "Kept" in
      pose proof (analyzer_keeps_cache i w) as K; rewrite H in K; simpl in K
  end.

(** both readings of the records are the same one *)
Ltac same_records Hl :=
  match goal with
  | H : load_request_data env req = Ok (_, _) |- _ =>
      rewrite H in Hl; injection Hl as <- <-
  end.

(** a request that returned a response finds it in the cache afterwards *)
Lemma outcome_ok_cached r w1 :
  outcome key_of prefix analyzer env req w (Ok r, w1) ->
  exists invs csv_content,
    load_request_data env req = Ok (invs, csv_content) /\
    cache w1 !! key_of (query req) csv_content = Some r.
Proof.
  intros O. inversion O; subst.
  - eauto.
  - exists invs, csv_content. split; [assumption|]. simpl. apply lookup_insert_eq.
Qed.

(** a request that raised left the cache alone, and stored nothing under its key *)
Lemma outcome_raise e w' :
  outcome key_of prefix analyzer env req w (Raise e, w') ->
  cache w' = cache w /\
  forall invs csv_content,
    load_request_data env req = Ok (invs, csv_content) ->
    cache w' !! key_of (query req) csv_content = None.
Proof.
  intros O. inversion O; subst.
  - split; [reflexivity|]. intros invs csv_content Hl. congruence.
  - analyzer_kept. split; [exact Kept|].
    intros invs' csv_content' Hl. rewrite Kept. same_records Hl. assumption.
Qed.

(** a request that misses the cache runs its analyzer in full *)
Lemma outcome_miss_trace res invs csv_content :
  outcome key_of prefix analyzer env req w res ->
  load_request_data env req = Ok (invs, csv_content) ->
  cache w !! key_of (query req) csv_content = None ->
  trace (snd res) = trace (snd (analyzer invs w)).
Proof.
  intros O Hl Hc. inversion O; subst; simpl;
    try same_records Hl; try congruence;
    match goal with H : analyzer _ w = _ |- _ => rewrite H end; reflexivity.
Qed.

(** an endpoint writes the cache under keys of its own kind only *)
Lemma outcome_cache_other res k :
  outcome key_of prefix analyzer env req w res ->
  (forall q d, key_of q d <> k) ->
  cache (snd res) !! k = cache w !! k.
Proof.
  intros O Hk. inversion O; subst; simpl; try reflexivity.
  - rewrite lookup_insert_ne by apply Hk. analyzer_kept. now rewrite Kept.
  - analyzer_kept. now rewrite Kept.
Qed.

End Endpoint.

(** ** C2: cache idempotence *)

(** C2: when a request to an endpoint has returned a response, the same
    request issued again to that endpoint (same query, same dataset text)
    returns that very response, and leaves the cache, the model and the
    trace as they were: no provider call, no backoff and no heuristic run
    takes place. *)
Theorem cache_idempotence env env2 req w r w1 :
  invoices_csv env2 = invoices_csv env ->
  (analyze_invoices env req w = (Ok r, w1) ->
   analyze_invoices env2 req w1 = (Ok r, w1)) /\
  (analyze_invoices_free env req w = (Ok r, w1) ->
   analyze_invoices_free env2 req w1 = (Ok r, w1)).
Proof.
  intros E. split; intros H.
  - pose proof (analyze_invoices_outcome env req w) as O. rewrite H in O.
    destruct (outcome_ok_cached _ _ _ _ _ _ _ _ O) as (invs & csv_content & Hl & Hc).
    eapply analyze_invoices_hit; [|exact Hc].
    rewrite (load_request_data_ext env env2 req E). exact Hl.
  - pose proof (analyze_invoices_free_outcome env req w) as O. rewrite H in O.
    destruct (outcome_ok_cached _ _ _ _ _ _ _ _ O) as (invs & csv_content & Hl & Hc).
    eapply analyze_invoices_free_hit; [|exact Hc].
    rewrite (load_request_data_ext env env2 req E). exact Hl.
Qed.

Lemma revenue_request_via_provider :
  analyze_invoices env_fallback revenue_request fresh = (Ok fallback_response, after_fallback).
Proof. vm_compute. reflexivity. Qed.

Lemma revenue_request_via_heuristic :
  analyze_invoices_free env_local revenue_request fresh = (Ok local_response, after_local).
Proof. vm_compute. reflexivity. Qed.

Lemma cache_idempotence_witness :
  analyze_invoices env_fallback revenue_request after_fallback
    = (Ok fallback_response, after_fallback) /\
  analyze_invoices_free env_local revenue_request after_local
    = (Ok local_response, after_local).
Proof.
  split.
  - exact (proj1 (cache_idempotence env_fallback env_fallback revenue_request fresh
                    fallback_response after_fallback eq_refl)
                 revenue_request_via_provider).
  - exact (proj2 (cache_idempotence env_local env_local revenue_request fresh
                    local_response after_local eq_refl)
                 revenue_request_via_heuristic).
Defined.

(** ** C10: a failed request leaves the cache as it was *)

(** C10: when a request to either endpoint fails, whatever the failure, the
    cache holds exactly the entries it held before and the reported cache
    size is unchanged; when the failure is that of the analysis step (the
    records were read), nothing is stored under the request's key, and the
    same request issued again runs the analysis again in full. *)
Theorem failure_leaves_cache env req w e w' :
  (analyze_invoices env req w = (Raise e, w') ->
   cache w' = cache w /\ health_check w' = health_check w /\
   forall invs csv_content,
     load_request_data env req = Ok (invs, csv_content) ->
     cache w' !! provider_cache_key (query req) csv_content = None /\
     trace (snd (analyze_invoices env req w'))
       = trace (snd (call_llm env (make_prompt invs (query req)) w'))) /\
  (analyze_invoices_free env req w = (Raise e, w') ->
   cache w' = cache w /\ health_check w' = health_check w /\
   forall invs csv_content,
     load_request_data env req = Ok (invs, csv_content) ->
     cache w' !! free_cache_key (query req) csv_content = None /\
     trace (snd (analyze_invoices_free env req w'))
       = trace (snd (analyze_with_transformers env (query req) invs w'))).
Proof.
  split; intros H.
  - pose proof (analyze_invoices_outcome env req w) as O. rewrite H in O.
    apply outcome_raise in O; [|intros; apply keeps_cache_call_llm].
    destruct O as [Hc Hk]. split; [exact Hc|]. split.
    + unfold health_check. now rewrite Hc.
    + intros invs csv_content Hl. split; [now apply (Hk invs)|].
      apply (outcome_miss_trace _ _ _ _ _ _ _ _ _
               (analyze_invoices_outcome env req w') Hl (Hk invs csv_content Hl)).
  - pose proof (analyze_invoices_free_outcome env req w) as O. rewrite H in O.
    apply outcome_raise in O; [|intros; apply keeps_cache_analyze_with_transformers].
    destruct O as [Hc Hk]. split; [exact Hc|]. split.
    + unfold health_check. now rewrite Hc.
    + intros invs csv_content Hl. split; [now apply (Hk invs)|].
      apply (outcome_miss_trace _ _ _ _ _ _ _ _ _
               (analyze_invoices_free_outcome env req w') Hl (Hk invs csv_content Hl)).
Qed.

Lemma revenue_request_without_provider :
  analyze_invoices env_no_keys revenue_request fresh = (Raise no_provider_error, after_no_provider).
Proof. vm_compute. reflexivity. Qed.

Lemma revenue_request_without_heuristic :
  analyze_invoices_free env_bare revenue_request fresh
    = (Raise no_heuristic_error, after_no_heuristic).
Proof. vm_compute. reflexivity. Qed.

Lemma failure_leaves_cache_witness :
  (cache after_no_provider = cache fresh /\
   health_check after_no_provider = health_check fresh) /\
  (cache after_no_heuristic = cache fresh /\
   health_check after_no_heuristic = health_check fresh).
Proof.
  split.
  - destruct (proj1 (failure_leaves_cache env_no_keys revenue_request fresh
                       no_provider_error after_no_provider)
                    revenue_request_without_provider) as (Hc & Hs & _).
    split; assumption.
  - destruct (proj2 (failure_leaves_cache env_bare revenue_request fresh
                       no_heuristic_error after_no_heuristic)
                    revenue_request_without_heuristic) as (Hc & Hs & _).
    split; assumption.
Defined.

(** ** C9: the endpoints' keys never meet *)

Lemma provider_key_not_free_key (q d q' d' : string) :
  provider_cache_key q d <> free_cache_key q' d'.
Proof.
  intros E. apply (f_equal String.length) in E.
  unfold provider_cache_key, free_cache_key in E.
  rewrite append_length, !get_cache_key_length in E. simpl in E. lia.
Qed.

(** C9: a key of the provider-backed endpoint is never a key of the
    heuristic endpoint, whatever the queries and datasets, identical ones
    included; hence a request to one endpoint leaves every entry of the
    other as it is. *)
Theorem endpoint_keys_disjoint env req w (q d q' d' : string) :
  provider_cache_key q d <> free_cache_key q' d' /\
  cache (snd (analyze_invoices_free env req w)) !! provider_cache_key q d
    = cache w !! provider_cache_key q d /\
  cache (snd (analyze_invoices env req w)) !! free_cache_key q' d'
    = cache w !! free_cache_key q' d'.
Proof.
  split; [apply provider_key_not_free_key|]. split.
  - refine (outcome_cache_other _ _ _ _ _ _ _ _ _
              (analyze_invoices_free_outcome env req w) _).
    + intros invs. apply keeps_cache_analyze_with_transformers.
    + intros q0 d0 E. symmetry in E. revert E. apply provider_key_not_free_key.
  - refine (outcome_cache_other _ _ _ _ _ _ _ _ _
              (analyze_invoices_outcome env req w) _).
    + intros invs. apply keeps_cache_call_llm.
    + intros q0 d0. apply provider_key_not_free_key.
Qed.

(** ** C3 and C8: the dispatcher *)

Lemma calls_to_app p (l1 l2 : list Event) :
  calls_to p (l1 ++ l2) = (calls_to p l1 + calls_to p l2)%nat.
Proof. unfold calls_to. now rewrite List.filter_app, length_app. Qed.

Lemma new_events_app (w w' : World) (evs : list Event) :
  trace w' = trace w ++ evs -> new_events w w' = evs.
Proof.
  intros E. unfold new_events. rewrite E. apply drop_app_length.
Qed.

(** C3, the claim as worded fails: the primary always fails, the secondary
    answers, and the dispatcher switches after one failed attempt on the
    primary, without any backoff *)
Lemma fallback_after_one_failure :
  call_llm env_fallback "How much revenue?" fresh
    = (Ok "Revenue is 150.",
       mkWorld ∅ None [ProviderCall Claude false; ProviderCall OpenAI true]) /\
  length (List.filter (is_failed_call_to Claude)
            (trace (snd (call_llm env_fallback "How much revenue?" fresh)))) <> 3%nat.
Proof. split; [vm_compute; reflexivity | vm_compute; discriminate]. Qed.

(** fallback happens inside one attempt *)
Lemma call_llm_once_fallback env prompt w msg t :
  CLAUDE_AVAILABLE env = true -> Py.truthy (ANTHROPIC_API_KEY env) = true ->
  OPENAI_AVAILABLE env = true -> Py.truthy (OPENAI_API_KEY env) = true ->
  messages_create env (calls_to Claude (trace w)) prompt = Fails msg ->
  completions_create env (calls_to OpenAI (trace w)) prompt = Text t ->
  call_llm_once env prompt w
    = (Ok t, emit (ProviderCall OpenAI true) (emit (ProviderCall Claude false) w)).
Proof.
  intros Hc Hck Ho Hok Hm Hr.
  unfold call_llm_once, bind, call_provider, ret, raise.
  rewrite Hc, Hck, Ho, Hok. cbn. rewrite Hm. cbn.
  change (length (List.filter (is_call_to OpenAI) (trace w ++ [ProviderCall Claude false])))
    with (calls_to OpenAI (trace w ++ [ProviderCall Claude false])).
  rewrite calls_to_app. cbn. rewrite Nat.add_0_r, Hr. reflexivity.
Qed.

Lemma sleeps_app (l1 l2 : list Event) :
  List.filter is_sleep (l1 ++ l2) = List.filter is_sleep l1 ++ List.filter is_sleep l2.
Proof. apply List.filter_app. Qed.

(** one attempt calls each provider at most once and never sleeps *)
Lemma call_llm_once_events env prompt w :
  exists evs,
    trace (snd (call_llm_once env prompt w)) = trace w ++ evs /\
    (calls_to Claude evs <= 1)%nat /\ (calls_to OpenAI evs <= 1)%nat /\
    List.filter is_sleep evs = [].
Proof.
  unfold call_llm_once, bind, call_provider, ret, raise.
  destruct (CLAUDE_AVAILABLE env && Py.truthy (ANTHROPIC_API_KEY env)); cbn.
  - destruct (messages_create env _ prompt); cbn.
    + exists [ProviderCall Claude true]. cbn. auto.
    + destruct (negb (Py.truthy (OPENAI_API_KEY env))); cbn.
      * exists [ProviderCall Claude false]. cbn. auto.
      * destruct (OPENAI_AVAILABLE env && Py.truthy (OPENAI_API_KEY env)); cbn.
        -- destruct (completions_create env _ prompt); cbn;
             [exists [ProviderCall Claude false; ProviderCall OpenAI true]
             |exists [ProviderCall Claude false; ProviderCall OpenAI false]];
             rewrite <- app_assoc; cbn; auto.
        -- exists [ProviderCall Claude false]. cbn. auto.
  - destruct (OPENAI_AVAILABLE env && Py.truthy (OPENAI_API_KEY env)); cbn.
    + destruct (completions_create env _ prompt); cbn;
        [exists [ProviderCall OpenAI true] | exists [ProviderCall OpenAI false]];
        cbn; auto.
    + exists []. rewrite app_nil_r. cbn. auto.
Qed.

Lemma wait_after_first_attempt : wait_exponential 1 4 10 1 = 4.
Proof. reflexivity. Qed.

Lemma wait_after_second_attempt : wait_exponential 1 4 10 (1 + 1) = 4.
Proof. reflexivity. Qed.

(** a dispatch is at most three attempts, with a wait of 4 seconds before
    the second and before the third *)
Lemma call_llm_events env prompt w :
  exists evs,
    trace (snd (call_llm env prompt w)) = trace w ++ evs /\
    (calls_to Claude evs <= 3)%nat /\ (calls_to OpenAI evs <= 3)%nat /\
    exists n, (n <= 2)%nat /\ List.filter is_sleep evs = repeat (Sleep 4) n.
Proof.
  unfold call_llm, retry, retrying.
  destruct (call_llm_once_events env prompt w) as (e1 & T1 & C1 & O1 & S1).
  destruct (call_llm_once env prompt w) as [[a|x] w1]; simpl in T1.
  { exists e1. simpl. repeat split; try lia; try assumption.
    exists 0%nat. split; [lia | assumption]. }
  rewrite wait_after_first_attempt.
  destruct (call_llm_once_events env prompt (emit (Sleep 4) w1)) as (e2 & T2 & C2 & O2 & S2).
  destruct (call_llm_once env prompt (emit (Sleep 4) w1)) as [[a|y] w2]; simpl in T2.
  { exists (e1 ++ [Sleep 4] ++ e2).
    split; [cbn [snd]; rewrite T2; cbn [emit trace]; rewrite T1, <- !app_assoc; reflexivity|].
    rewrite !calls_to_app, !sleeps_app, S1, S2. cbn.
    repeat split; try lia. exists 1%nat. split; [lia | reflexivity]. }
  rewrite wait_after_second_attempt.
  destruct (call_llm_once_events env prompt (emit (Sleep 4) w2)) as (e3 & T3 & C3 & O3 & S3).
  exists (e1 ++ [Sleep 4] ++ e2 ++ [Sleep 4] ++ e3).
  assert (T : trace (snd (call_llm_once env prompt (emit (Sleep 4) w2)))
              = trace w ++ e1 ++ [Sleep 4] ++ e2 ++ [Sleep 4] ++ e3).
  { rewrite T3. cbn [emit trace]. rewrite T2. cbn [emit trace].
    rewrite T1, <- !app_assoc. reflexivity. }
  split.
  - destruct (call_llm_once env prompt (emit (Sleep 4) w2)) as [[a|z] w3]; exact T.
  - rewrite !calls_to_app, !sleeps_app, S1, S2, S3. cbn.
    repeat split; try lia. exists 2%nat. split; [lia | reflexivity].
Qed.

(** C3 (amended): when both providers are configured, the primary's call
    fails and the secondary's call succeeds, the dispatcher returns the
    secondary's result within the same attempt, after exactly one failed
    call to the primary and without backoff.  Attempts and backoff belong to
    the dispatcher as a whole: in one dispatch no provider is called more
    than 3 times, and there are at most two waits, each of 4 seconds. *)
Theorem fallback_within_one_attempt env prompt w :
  (forall msg t,
     CLAUDE_AVAILABLE env = true -> Py.truthy (ANTHROPIC_API_KEY env) = true ->
     OPENAI_AVAILABLE env = true -> Py.truthy (OPENAI_API_KEY env) = true ->
     messages_create env (calls_to Claude (trace w)) prompt = Fails msg ->
     completions_create env (calls_to OpenAI (trace w)) prompt = Text t ->
     call_llm env prompt w
       = (Ok t, emit (ProviderCall OpenAI true) (emit (ProviderCall Claude false) w))) /\
  (calls_to Claude (new_events w (snd (call_llm env prompt w))) <= 3)%nat /\
  (calls_to OpenAI (new_events w (snd (call_llm env prompt w))) <= 3)%nat /\
  exists n, (n <= 2)%nat /\
    List.filter is_sleep (new_events w (snd (call_llm env prompt w))) = repeat (Sleep 4) n.
Proof.
  split.
  - intros msg t Hc Hck Ho Hok Hm Hr.
    unfold call_llm, retry, retrying.
    now rewrite (call_llm_once_fallback env prompt w msg t).
  - destruct (call_llm_events env prompt w) as (evs & T & C & O & S).
    rewrite (new_events_app _ _ _ T). auto.
Qed.

Lemma fallback_within_one_attempt_witness :
  call_llm env_fallback "How much revenue?" fresh
    = (Ok "Revenue is 150.",
       emit (ProviderCall OpenAI true) (emit (ProviderCall Claude false) fresh)).
Proof.
  apply (proj1 (fallback_within_one_attempt env_fallback "How much revenue?" fresh)
               "overloaded" "Revenue is 150."); reflexivity.
Defined.

(** both providers failing: three attempts, each trying both, then [RetryError] *)
Example both_providers_fail :
  call_llm (mkEnv true true false (Some "k1") (Some "k2") None
                  (fun _ _ => Fails "down") (fun _ _ => Fails "busy")
                  (Raise (ModelLoadError "none")))
           "How much revenue?" fresh
  = (Raise (RetryError (HTTPException 500 "OpenAI API error: busy")),
     mkWorld ∅ None
       [ProviderCall Claude false; ProviderCall OpenAI false; Sleep 4;
        ProviderCall Claude false; ProviderCall OpenAI false; Sleep 4;
        ProviderCall Claude false; ProviderCall OpenAI false]).
Proof. vm_compute. reflexivity. Qed.

(** C8, the claim as worded fails: with no credential set the dispatcher
    makes three attempts with two waits of 4 seconds and ends in a
    [RetryError], not in the configuration error; with no library installed
    the message of that configuration error names no provider at all *)
Lemma unconfigured_dispatch_retries :
  call_llm env_no_keys "How much revenue?" fresh
    = (Raise (RetryError (HTTPException 500
         "No LLM API available. Install and configure: Claude (set ANTHROPIC_API_KEY), OpenAI (set OPENAI_API_KEY)")),
       mkWorld ∅ None [Sleep 4; Sleep 4]) /\
  error_msg env_bare = "No LLM API available. Install and configure: ".
Proof. split; vm_compute; reflexivity. Qed.

Lemma call_llm_once_unconfigured env prompt w :
  CLAUDE_AVAILABLE env && Py.truthy (ANTHROPIC_API_KEY env) = false ->
  OPENAI_AVAILABLE env && Py.truthy (OPENAI_API_KEY env) = false ->
  call_llm_once env prompt w = (Raise (HTTPException 500 (error_msg env)), w).
Proof.
  intros Hc Ho. unfold call_llm_once, bind, ret, raise. rewrite Hc, Ho. reflexivity.
Qed.

(** C8 (amended): when no provider is usable (for each provider the library
    is absent or the credential is not set) the dispatcher calls no
    provider; each of its three attempts raises the configuration error,
    whose message lists the providers whose library is installed, Claude
    first, all of them and no other; the attempts are separated by two
    waits of 4 seconds, and the dispatcher ends by raising [RetryError]
    around the configuration error. *)
Theorem unconfigured_dispatch_fails env prompt w :
  CLAUDE_AVAILABLE env && Py.truthy (ANTHROPIC_API_KEY env) = false ->
  OPENAI_AVAILABLE env && Py.truthy (OPENAI_API_KEY env) = false ->
  call_llm env prompt w
    = (Raise (RetryError (HTTPException 500 (error_msg env))),
       emit (Sleep 4) (emit (Sleep 4) w)) /\
  error_msg env
    = "No LLM API available. Install and configure: " +:+
      match CLAUDE_AVAILABLE env, OPENAI_AVAILABLE env with
      | true, true => "Claude (set ANTHROPIC_API_KEY), OpenAI (set OPENAI_API_KEY)"
      | true, false => "Claude (set ANTHROPIC_API_KEY)"
      | false, true => "OpenAI (set OPENAI_API_KEY)"
      | false, false => EmptyString
      end /\
  (forall api, In api (available_apis env) <->
     (api = "Claude (set ANTHROPIC_API_KEY)" /\ CLAUDE_AVAILABLE env = true) \/
     (api = "OpenAI (set OPENAI_API_KEY)" /\ OPENAI_AVAILABLE env = true)).
Proof.
  intros Hc Ho. split; [|split].
  - unfold call_llm, retry, retrying.
    rewrite !(call_llm_once_unconfigured env prompt) by assumption.
    reflexivity.
  - unfold error_msg, available_apis.
    destruct (CLAUDE_AVAILABLE env), (OPENAI_AVAILABLE env); reflexivity.
  - unfold available_apis. intros api.
    destruct (CLAUDE_AVAILABLE env), (OPENAI_AVAILABLE env); simpl; split; intros H;
      intuition (subst; auto; discriminate).
Qed.

Lemma unconfigured_dispatch_fails_witness :
  call_llm env_no_keys "How much revenue?" fresh
    = (Raise (RetryError (HTTPException 500 (error_msg env_no_keys))),
       emit (Sleep 4) (emit (Sleep 4) fresh)) /\
  error_msg env_no_keys
    = "No LLM API available. Install and configure: Claude (set ANTHROPIC_API_KEY), OpenAI (set OPENAI_API_KEY)" /\
  In "OpenAI (set OPENAI_API_KEY)" (available_apis env_no_keys).
Proof.
  destruct (unconfigured_dispatch_fails env_no_keys "How much revenue?" fresh
              eq_refl eq_refl) as (Hcall & Hmsg & Hin).
  split; [exact Hcall | split; [exact Hmsg|]].
  apply Hin. right. split; reflexivity.
Defined.

(** ** C6: query classification *)

Lemma startswith_lower (kw s : string) :
  Py.lower kw = kw -> Py.startswith kw (Py.lower s) = Spec.prefix_ci kw s.
Proof.
  revert s. induction kw as [|a kw IH]; intros s Hkw; [reflexivity|].
  simpl in Hkw. injection Hkw as Ha Hkw.
  destruct s as [|b s]; simpl; [reflexivity|].
  rewrite Ha, (IH s Hkw). now destruct (Ascii.eqb a (Py.lower_char b)).
Qed.

Lemma contains_lower (kw s : string) :
  Py.lower kw = kw -> Py.contains kw (Py.lower s) = Spec.occurs_ci kw s.
Proof.
  intros Hkw. induction s as [|b s IH].
  - pose proof (startswith_lower kw EmptyString Hkw) as H. simpl in *. now rewrite H.
  - pose proof (startswith_lower kw (String b s) Hkw) as H. simpl in *.
    now rewrite H, IH.
Qed.

Lemma any_in_lower (words : list string) (q : string) :
  forallb (fun kw => String.eqb (Py.lower kw) kw) words = true ->
  any_in words (Py.lower q) = existsb (fun kw => Spec.occurs_ci kw q) words.
Proof.
  unfold any_in. induction words as [|kw words IH]; intros H; [reflexivity|].
  simpl in H. apply andb_true_iff in H. destruct H as [Hkw H].
  apply String.eqb_eq in Hkw. simpl. now rewrite IH, contains_lower.
Qed.

(** the branch api.py takes is the category of the specification *)
Lemma classify_revenue (q : string) :
  any_in ["total"; "revenue"; "amount"; "sum"] (Py.lower q)
  = existsb (fun kw => Spec.occurs_ci kw q) ["revenue"; "total"; "amount"; "sum"].
Proof.
  rewrite any_in_lower by reflexivity. simpl.
  destruct (Spec.occurs_ci "total" q), (Spec.occurs_ci "revenue" q); reflexivity.
Qed.

Lemma analysis_text_heading (q : string) (invs : list InvoiceData) (text : string) :
  analysis_text q invs = Ok text ->
  Py.startswith (Spec.heading (Spec.classify q)) text = true.
Proof.
  unfold analysis_text, Spec.classify, Spec.categories, Spec.first_match, bindR.
  destruct (sum_amounts Float.zero invs) as [total|e]; [|discriminate].
  rewrite classify_revenue.
  rewrite (any_in_lower ["customer"; "client"; "who"]) by reflexivity.
  rewrite (any_in_lower ["status"; "paid"; "payment"]) by reflexivity.
  rewrite (any_in_lower ["count"; "how many"; "number"]) by reflexivity.
  destruct (existsb _ ["revenue"; "total"; "amount"; "sum"]).
  { destruct (truediv total (length invs)); [|discriminate].
    intros H. injection H as <-. reflexivity. }
  destruct (existsb _ ["customer"; "client"; "who"]).
  { destruct (tally [] invs); [|discriminate].
    intros H. injection H as <-. reflexivity. }
  destruct (existsb _ ["status"; "paid"; "payment"]).
  { destruct (truediv _ (length invs)); [|discriminate].
    intros H. injection H as <-. reflexivity. }
  destruct (existsb _ ["count"; "how many"; "number"]).
  { destruct (truediv _ _); [|discriminate].
    intros H. injection H as <-. reflexivity. }
  destruct (truediv total (length invs)); [|discriminate].
  intros H. injection H as <-. reflexivity.
Qed.

(** two prefixes of one text: one is a prefix of the other *)
Lemma startswith_both (p1 p2 text : string) :
  Py.startswith p1 text = true -> Py.startswith p2 text = true ->
  Py.startswith p1 p2 = true \/ Py.startswith p2 p1 = true.
Proof.
  revert p2 text. induction p1 as [|a p1 IH]; intros [|b p2] [|c text]; simpl;
    auto; try discriminate.
  destruct (Ascii.eqb a c) eqn:Eac; [|discriminate].
  destruct (Ascii.eqb b c) eqn:Ebc; [|discriminate].
  apply Ascii.eqb_eq in Eac, Ebc. subst a b. rewrite Ascii.eqb_refl.
  apply IH.
Qed.

(** the heading of a text tells its category *)
Lemma heading_identifies (c1 c2 : Spec.Category) (text : string) :
  Py.startswith (Spec.heading c1) text = true ->
  Py.startswith (Spec.heading c2) text = true -> c1 = c2.
Proof.
  intros H1 H2. destruct (startswith_both _ _ _ H1 H2) as [H|H];
    destruct c1, c2; try reflexivity; discriminate H.
Qed.

Lemma sum_amounts_readable (invs : list InvoiceData) (acc : Float.float) :
  amounts_readable invs = true -> exists x, sum_amounts acc invs = Ok x.
Proof.
  revert acc. induction invs as [|inv invs IH]; intros acc H; simpl.
  - eauto.
  - simpl in H. apply andb_true_iff in H. destruct H as [Hinv H].
    destruct (amount_guard (amount inv)); simpl in *; [|now apply IH].
    unfold float_of_amount. destruct (Float.of_str (amount inv)); [|discriminate].
    simpl. now apply IH.
Qed.

Lemma tally_readable (invs : list InvoiceData) (d : list (string * Float.float)) :
  amounts_readable invs = true -> exists d', tally d invs = Ok d'.
Proof.
  revert d. induction invs as [|inv invs IH]; intros d H; simpl.
  - eauto.
  - simpl in H. apply andb_true_iff in H. destruct H as [Hinv H].
    destruct (amount_guard (amount inv)); simpl in *; [|now apply IH].
    unfold float_of_amount. destruct (Float.of_str (amount inv)); [|discriminate].
    simpl. now apply IH.
Qed.

Lemma customers_nonempty (invs : list InvoiceData) :
  invs <> [] -> size (list_to_set (map customer invs) : gset string) <> 0%nat.
Proof.
  destruct invs as [|inv invs]; [congruence|]. intros _ H.
  apply size_empty_iff in H. simpl in H. set_solver.
Qed.

Lemma truediv_nonzero (a : Float.float) (n : nat) :
  n <> 0%nat -> exists x, truediv a n = Ok x.
Proof. destruct n; [congruence|]. simpl. eauto. Qed.

Lemma analysis_text_total (q : string) (invs : list InvoiceData) :
  invs <> [] -> amounts_readable invs = true -> exists text, analysis_text q invs = Ok text.
Proof.
  intros Hne Hr. unfold analysis_text, bindR.
  destruct (sum_amounts_readable invs Float.zero Hr) as [total ->].
  assert (Hlen : length invs <> 0%nat) by (destruct invs; simpl; congruence).
  pose proof (customers_nonempty invs Hne) as Hcust.
  destruct (any_in ["total"; "revenue"; "amount"; "sum"] _).
  { destruct (truediv_nonzero total _ Hlen) as [x ->]. eauto. }
  destruct (any_in ["customer"; "client"; "who"] _).
  { destruct (tally_readable invs [] Hr) as [d ->]. eauto. }
  destruct (any_in ["status"; "paid"; "payment"] _).
  { match goal with |- context [truediv ?a (length invs)] =>
      destruct (truediv_nonzero a _ Hlen) as [x ->] end. eauto. }
  destruct (any_in ["count"; "how many"; "number"] _).
  { match goal with |- context [truediv ?a (size ?c)] =>
      destruct (truediv_nonzero a _ Hcust) as [x ->] end. eauto. }
  destruct (truediv_nonzero total _ Hlen) as [x ->]. eauto.
Qed.

(** C6: the text the heuristic analyzer returns opens with the heading of
    the category the query falls in, and of no other, categories being
    tried in the order revenue (revenue, total, amount, sum), customers
    (customer, client, who), payment status (status, paid, payment), count
    (count, how many, number), general overview otherwise, and a keyword
    matching when it occurs in the query whatever the letter case; the
    analyzer does return a text whenever it is usable, the records are not
    empty and the amounts are ASCII text that is readable.  The four
    queries of the specification fall in the categories it names, and
    so do queries written in capitals. *)
Theorem query_classification (q : string) :
  (forall env invs w text w',
     analyze_with_transformers env q invs w = (Ok text, w') ->
     forall c, Py.startswith (Spec.heading c) text = true <-> c = Spec.classify q) /\
  (forall env invs w,
     TRANSFORMERS_AVAILABLE env = true ->
     SentenceTransformer env = Ok all_MiniLM_L6_v2 ->
     invs <> [] -> ascii_amounts invs = true -> amounts_readable invs = true ->
     exists text w', analyze_with_transformers env q invs w = (Ok text, w')) /\
  Spec.classify "What is the total revenue?" = Spec.Revenue /\
  Spec.classify "Who are my customers?" = Spec.CustomerRanking /\
  Spec.classify "Show payment status" = Spec.PaymentStatus /\
  Spec.classify "hello" = Spec.GeneralOverview /\
  Spec.classify "WHAT IS THE TOTAL REVENUE?" = Spec.Revenue /\
  Spec.classify "Who Are My CUSTOMERS?" = Spec.CustomerRanking /\
  Spec.classify "SHOW PAYMENT STATUS" = Spec.PaymentStatus /\
  Spec.classify "How Many invoices?" = Spec.Count /\
  Spec.classify "HELLO" = Spec.GeneralOverview.
Proof.
  split; [|split; [|repeat split; reflexivity]].
  - intros env invs w text w'. unfold analyze_with_transformers.
    destruct (negb (TRANSFORMERS_AVAILABLE env)); [discriminate|].
    destruct (get_transformer_model env _) as [[[m|]|e] w1]; try discriminate.
    intros H c. injection H as H _. apply analysis_text_heading in H.
    split; [intros Hc; now apply (heading_identifies _ _ text) | now intros ->].
  - intros env invs w Ha Hm Hne _ Hr. unfold analyze_with_transformers, get_transformer_model.
    rewrite Ha, Hm. simpl.
    destruct (analysis_text_total q invs Hne Hr) as [text ->].
    destruct (_model w); eauto.
Qed.

Lemma query_classification_witness :
  exists text w',
    analyze_with_transformers env_local "SHOW Payment Status" two_records fresh
      = (Ok text, w') /\
    Py.startswith "Payment Status Analysis:" text = true.
Proof.
  destruct (proj1 (proj2 (query_classification "SHOW Payment Status"))
              env_local two_records fresh eq_refl eq_refl
              ltac:(discriminate) eq_refl ltac:(vm_compute; reflexivity))
    as (text & w' & H).
  exists text, w'. split; [exact H|].
  now apply (proj1 (query_classification "SHOW Payment Status") _ _ _ _ _ H
               Spec.PaymentStatus).
Defined.

(** ** C4: empty record sets *)

(** what the code does guard: a persisted dataset without records is
    answered 404, an inline dataset of fewer than two lines 400, both
    before the cache and the analysis are reached *)
Lemma persisted_empty_rejected env req :
  Py.truthy (csv_data req) = false -> load_csv_data env = Ok [] ->
  load_request_data env req
    = Raise (HTTPException 404
        "No invoice data found. Run the scraper first or provide CSV data.").
Proof.
  intros Ht Hl. unfold load_request_data. rewrite Ht, Hl. reflexivity.
Qed.

Lemma rejected_before_analysis env req w e :
  load_request_data env req = Raise e ->
  analyze_invoices env req w = (Raise e, w) /\
  analyze_invoices_free env req w = (Raise e, w).
Proof.
  intros H. unfold analyze_invoices, analyze_invoices_free, bind, lift.
  now rewrite H.
Qed.

Example header_only_rejected :
  load_request_data env_local
    (mkRequest "total revenue" (Some "invoice_id,customer,amount,paid_at,status"))
  = Raise (HTTPException 400 "Invalid CSV data format").
Proof. vm_compute. reflexivity. Qed.

(** with no records every branch but the customer ranking divides by zero *)
Lemma no_records_divide (q : string) :
  any_in ["total"; "revenue"; "amount"; "sum"] (Py.lower q) = true \/
  any_in ["customer"; "client"; "who"] (Py.lower q) = false ->
  analysis_text q [] = Raise (ZeroDivisionError "division by zero").
Proof.
  unfold analysis_text, bindR. cbn [sum_amounts length].
  intros [-> | Hc]; [reflexivity|].
  destruct (any_in ["total"; "revenue"; "amount"; "sum"] (Py.lower q)); [reflexivity|].
  rewrite Hc.
  destruct (any_in ["status"; "paid"; "payment"] (Py.lower q)); [reflexivity|].
  destruct (any_in ["count"; "how many"; "number"] (Py.lower q)); reflexivity.
Qed.

(** C4: an inline dataset of two lines whose header opens a quote that is
    never closed parses to no record at all (the second line is read as
    the rest of the header); it passes the line-count check, and the
    heuristic endpoint divides by the record count: the request fails with
    the wrapped [ZeroDivisionError], not with a not-found error. *)
Theorem empty_records_reach_division :
  load_request_data env_local (mkRequest "total revenue" (Some unclosed_quote_csv))
    = Ok ([], unclosed_quote_csv) /\
  analyze_invoices_free env_local (mkRequest "total revenue" (Some unclosed_quote_csv)) fresh
    = (Raise (HTTPExceptionFrom 500 "Free analysis failed: "
                (ZeroDivisionError "division by zero")),
       mkWorld ∅ (Some all_MiniLM_L6_v2) [HeuristicRun]).
Proof. split; vm_compute; reflexivity. Qed.

(** ** C5: amounts that are no numerals *)

(** what the code does achieve: an amount the digit test rejects adds
    nothing to the sum, and its record is still counted *)
Lemma sum_amounts_skips (inv : InvoiceData) (invs : list InvoiceData) (acc : Float.float) :
  amount_guard (amount inv) = false ->
  sum_amounts acc (inv :: invs) = sum_amounts acc invs.
Proof. intros H. simpl. now rewrite H. Qed.

Example abc_amount_counts_for_nothing :
  analysis_text "total revenue" abc_amount_records
  = Ok (Py.join nl ["Total Revenue Analysis:";
                    "- Total invoices: 2";
                    "- Total amount: $100.00";
                    "- Paid invoices: 2";
                    "- Partially paid: 0";
                    "- Average per invoice: $50.00"]).
Proof. vm_compute. reflexivity. Qed.

(** which amounts pass the digit test and are still refused by [float]:
    exactly those with two dots or more *)
Lemma split_length (c : ascii) (s : string) :
  length (Py.split c s) = S (occurrences c s).
Proof.
  induction s as [|a s IH]; simpl; [reflexivity|].
  destruct (Ascii.eqb a c); simpl; [now rewrite IH|].
  destruct (Py.split c s); simpl in *; [discriminate | assumption].
Qed.

Lemma split_without_separator (c : ascii) (s : string) :
  occurrences c s = 0%nat -> Py.split c s = [s] /\ Py.remove_char c s = s.
Proof.
  induction s as [|a s IH]; simpl; [auto|].
  destruct (Ascii.eqb a c); simpl; [discriminate|].
  intros H. destruct (IH H) as [-> ->]. auto.
Qed.

Lemma split_at_one_separator (c : ascii) (s : string) :
  occurrences c s = 1%nat ->
  exists i f, Py.split c s = [i; f] /\ Py.remove_char c s = i +:+ f.
Proof.
  induction s as [|a s IH]; simpl; [discriminate|].
  destruct (Ascii.eqb a c); simpl; intros H.
  - injection H as H. destruct (split_without_separator c s H) as [-> ->].
    now exists EmptyString, s.
  - destruct (IH H) as (i & f & -> & ->). now exists (String a i), f.
Qed.

Lemma all_chars_app (p : ascii -> bool) (s t : string) :
  Py.all_chars p (s +:+ t) = Py.all_chars p s && Py.all_chars p t.
Proof.
  induction s as [|a s IH]; simpl; [reflexivity|].
  now rewrite IH, andb_assoc.
Qed.

Lemma isdigit_all_chars (s : string) :
  Py.isdigit s = true -> Py.all_chars Py.isdigit_char s = true.
Proof. destruct s; [discriminate | auto]. Qed.

Lemma float_reads_guarded (a : string) :
  amount_guard a = true -> (occurrences "." a <= 1)%nat ->
  exists x, Float.of_str a = Some x.
Proof.
  unfold amount_guard, Float.of_str. intros Hg Hd.
  destruct (occurrences "." a) as [|[|n]] eqn:Hn; [| |lia].
  - destruct (split_without_separator "." a Hn) as [-> E].
    rewrite E in Hg. rewrite Hg. eauto.
  - destruct (split_at_one_separator "." a Hn) as (i & f & -> & E).
    rewrite E in Hg. rewrite Hg.
    apply isdigit_all_chars in Hg. rewrite all_chars_app in Hg.
    unfold Float.all_digits. rewrite Hg. eauto.
Qed.

Lemma float_refuses_two_dots (a : string) :
  (2 <= occurrences "." a)%nat -> Float.of_str a = None.
Proof.
  intros H. unfold Float.of_str.
  pose proof (split_length "." a) as L.
  destruct (Py.split "." a) as [|i [|f [|g l]]]; simpl in L; try lia; reflexivity.
Qed.

Lemma amounts_readable_iff (invs : list InvoiceData) :
  amounts_readable invs = true <->
  forall inv, In inv invs ->
    amount_guard (amount inv) = true -> (occurrences "." (amount inv) <= 1)%nat.
Proof.
  unfold amounts_readable. rewrite forallb_forall. split; intros H inv Hin.
  - intros Hg. specialize (H inv Hin). rewrite Hg in H. simpl in H.
    destruct (le_lt_dec (occurrences "." (amount inv)) 1) as [Hle|Hlt]; [assumption|].
    rewrite float_refuses_two_dots in H by lia. discriminate.
  - destruct (amount_guard (amount inv)) eqn:Hg; [|reflexivity]. simpl.
    destruct (float_reads_guarded _ Hg (H inv Hin Hg)) as [x ->]. reflexivity.
Qed.

(** on record sets it can read, the sum of api.py 108 is the sum of the
    amounts that are numerals, every other amount counting for nothing *)
Lemma sum_amounts_value (invs : list InvoiceData) (acc : Float.float) :
  amounts_readable invs = true ->
  sum_amounts acc invs = Ok (fold_left add_amount invs acc).
Proof.
  revert acc. induction invs as [|inv invs IH]; intros acc H; [reflexivity|].
  simpl in H. apply andb_true_iff in H. destruct H as [Hinv H].
  simpl. unfold add_amount at 2, float_of_amount.
  destruct (amount_guard (amount inv)); simpl in *; [|now apply IH].
  destruct (Float.of_str (amount inv)); [|discriminate]. simpl. now apply IH.
Qed.

(** the sum of api.py 108 fails exactly when some amount is refused *)
Lemma sum_amounts_fails_iff (invs : list InvoiceData) (acc : Float.float) :
  (exists e, sum_amounts acc invs = Raise e) <-> amounts_readable invs = false.
Proof.
  split.
  - intros [e He]. destruct (amounts_readable invs) eqn:Hr; [|reflexivity].
    destruct (sum_amounts_readable invs acc Hr) as [x Hx]. congruence.
  - revert acc. induction invs as [|inv invs IH]; intros acc H; [discriminate|].
    simpl in *. destruct (amount_guard (amount inv)); simpl in *; [|now apply IH].
    unfold float_of_amount. destruct (Float.of_str (amount inv)); simpl in *.
    + now apply IH.
    + eauto.
Qed.

(** C5: an amount made of digits and two dots passes the digit test of
    api.py 108 and is handed to [float], which raises [ValueError]: the
    analysis fails instead of counting the amount for 0. *)
Theorem dotted_amount_fails_analysis :
  amount_guard "1.2.3" = true /\
  analysis_text "total revenue" dotted_amount_records
    = Raise (ValueError "could not convert string to float: '1.2.3'") /\
  analyze_invoices_free env_local (mkRequest "total revenue" (Some dotted_amount_csv)) fresh
    = (Raise (HTTPExceptionFrom 500 "Free analysis failed: "
                (ValueError "could not convert string to float: '1.2.3'")),
       mkWorld ∅ (Some all_MiniLM_L6_v2) [HeuristicRun]).
Proof. repeat split; vm_compute; reflexivity. Qed.

(** ** C7: the ranking of customers *)

(** C7: with an amount made of digits and two dots among the records, the
    customer branch reports no ranking: the analysis raises [ValueError]
    where the claim has that amount count for 0. *)
Theorem ranking_fails_on_dotted_amount :
  analysis_text "Who are my customers?" dotted_amount_records
    = Raise (ValueError "could not convert string to float: '1.2.3'") /\
  tally [] dotted_amount_records
    = Raise (ValueError "could not convert string to float: '1.2.3'").
Proof. split; vm_compute; reflexivity. Qed.

(** on record sets it can read, the loop of api.py 123-127 computes the
    sum of each customer's amounts, customers in first-occurrence order *)
Lemma dict_mem_keys (k : string) (d : list (string * Float.float)) :
  dict_mem k d = existsb (String.eqb k) (map fst d).
Proof.
  induction d as [|[k' v] d IH]; simpl; [reflexivity|].
  now rewrite IH, String.eqb_sym.
Qed.

Lemma existsb_eqb_In (k : string) (l : list string) :
  existsb (String.eqb k) l = true <-> In k l.
Proof.
  rewrite existsb_exists. split.
  - intros (x & Hin & E). apply String.eqb_eq in E. now subst.
  - intros H. exists k. split; [assumption | apply String.eqb_refl].
Qed.

Lemma credit_other (inv : InvoiceData) (d : list (string * Float.float)) :
  ~ In (customer inv) (map fst d) -> map (credit inv) d = d.
Proof.
  induction d as [|[k v] d IH]; simpl; intros H; [reflexivity|].
  unfold credit at 1. simpl.
  destruct (String.eqb (customer inv) k) eqn:E.
  - apply String.eqb_eq in E. symmetry in E. tauto.
  - rewrite IH by tauto. reflexivity.
Qed.

Lemma credit_keys (inv : InvoiceData) (d : list (string * Float.float)) :
  map fst (map (credit inv) d) = map fst d.
Proof.
  induction d as [|[k v] d IH]; simpl; [reflexivity|].
  rewrite IH. unfold credit. simpl. now destruct (String.eqb (customer inv) k).
Qed.

Lemma credit_unguarded (inv : InvoiceData) (d : list (string * Float.float)) :
  amount_guard (amount inv) = false -> map (credit inv) d = d.
Proof.
  intros Hg. induction d as [|[k v] d IH]; simpl; [reflexivity|].
  rewrite IH. unfold credit, add_amount. simpl. rewrite Hg.
  now destruct (String.eqb (customer inv) k).
Qed.

Lemma dict_add_credit (inv : InvoiceData) (x : Float.float) (d : list (string * Float.float)) :
  amount_guard (amount inv) = true -> Float.of_str (amount inv) = Some x ->
  List.NoDup (map fst d) ->
  dict_add (customer inv) x d = map (credit inv) d.
Proof.
  intros Hg Hx. induction d as [|[k v] d IH]; simpl; intros Hnd; [reflexivity|].
  inversion Hnd as [|? ? Hk Hd]; subst.
  unfold credit at 1, add_amount. simpl. rewrite Hg, Hx, (String.eqb_sym k).
  destruct (String.eqb (customer inv) k) eqn:E.
  - apply String.eqb_eq in E. subst k. now rewrite credit_other.
  - now rewrite IH.
Qed.

Lemma keys_stay_distinct (k : string) (v : Float.float) (d : list (string * Float.float)) :
  List.NoDup (map fst d) -> dict_mem k d = false ->
  List.NoDup (map fst (d ++ [(k, v)])).
Proof.
  intros Hnd Hm. rewrite map_app. simpl. apply List.NoDup_app.
  - assumption.
  - constructor; [intros [] | constructor].
  - intros a Ha [<-|[]]. apply existsb_eqb_In in Ha.
    rewrite <- dict_mem_keys in Ha. congruence.
Qed.

(** one turn of the loop *)
Lemma tally_step (inv : InvoiceData) (invs : list InvoiceData) (d : list (string * Float.float)) :
  List.NoDup (map fst d) ->
  negb (amount_guard (amount inv)) ||
    match Float.of_str (amount inv) with Some _ => true | None => false end = true ->
  tally d (inv :: invs)
  = tally (map (credit inv)
             (if dict_mem (customer inv) d then d else d ++ [(customer inv, Float.zero)]))
          invs.
Proof.
  intros Hnd Hr. simpl.
  set (d1 := if dict_mem (customer inv) d then d else d ++ [(customer inv, Float.zero)]).
  assert (Hnd1 : List.NoDup (map fst d1)).
  { subst d1. destruct (dict_mem (customer inv) d) eqn:Hm; [assumption|].
    now apply keys_stay_distinct. }
  destruct (amount_guard (amount inv)) eqn:Hg; simpl in Hr.
  - unfold float_of_amount. destruct (Float.of_str (amount inv)) as [x|] eqn:Hx; [|discriminate].
    simpl. now rewrite (dict_add_credit inv x d1 Hg Hx Hnd1).
  - now rewrite credit_unguarded.
Qed.

Lemma first_occurrences_fresh (seen l : list string) (c : string) :
  In c (first_occurrences seen l) -> ~ In c seen.
Proof.
  revert seen. induction l as [|a l IH]; simpl; intros seen H; [destruct H|].
  destruct (existsb (String.eqb a) seen) eqn:E.
  - now apply IH.
  - destruct H as [->|H].
    + intros Hin. apply existsb_eqb_In in Hin. congruence.
    + apply IH in H. intros Hin. apply H. apply in_or_app. now left.
Qed.

Lemma customer_sum_from_cons (c : string) (v : Float.float) inv invs :
  customer_sum_from c v (inv :: invs)
  = customer_sum_from c (if String.eqb (customer inv) c then add_amount v inv else v) invs.
Proof. reflexivity. Qed.

Lemma tally_computes_sums (invs : list InvoiceData) (d : list (string * Float.float)) :
  List.NoDup (map fst d) -> amounts_readable invs = true ->
  tally d invs
  = Ok (map (fun kv => (fst kv, customer_sum_from (fst kv) (snd kv) invs)) d ++
        map (fun c => (c, customer_sum_from c Float.zero invs))
            (first_occurrences (map fst d) (map customer invs))).
Proof.
  revert d. induction invs as [|inv invs IH]; intros d Hnd Hr.
  - simpl. rewrite app_nil_r. f_equal. induction d as [|[k v] d IHd]; simpl; [reflexivity|].
    inversion Hnd; subst. now rewrite <- IHd at 1.
  - simpl in Hr. apply andb_true_iff in Hr. destruct Hr as [Hinv Hr].
    rewrite (tally_step inv invs d Hnd Hinv).
    assert (Hfold : forall l : list (string * Float.float),
               map (fun kv => (fst kv, customer_sum_from (fst kv) (snd kv) invs))
                   (map (credit inv) l)
               = map (fun kv => (fst kv, customer_sum_from (fst kv) (snd kv) (inv :: invs))) l).
    { intros l. rewrite map_map. apply map_ext. intros [k v].
      rewrite customer_sum_from_cons. unfold credit. simpl.
      now destruct (String.eqb (customer inv) k). }
    assert (Hnew : forall seen,
               In (customer inv) seen ->
               map (fun c => (c, customer_sum_from c Float.zero invs))
                   (first_occurrences seen (map customer invs))
               = map (fun c => (c, customer_sum_from c Float.zero (inv :: invs)))
                     (first_occurrences seen (map customer invs))).
    { intros seen Hseen. apply map_ext_in. intros c Hc.
      apply first_occurrences_fresh in Hc. rewrite customer_sum_from_cons.
      destruct (String.eqb (customer inv) c) eqn:E; [|reflexivity].
      apply String.eqb_eq in E. subst c. contradiction. }
    simpl map at 3. simpl first_occurrences.
    rewrite <- dict_mem_keys.
    destruct (dict_mem (customer inv) d) eqn:Hm.
    + rewrite IH; [|now rewrite credit_keys|assumption].
      rewrite credit_keys, Hfold, Hnew; [reflexivity|].
      apply existsb_eqb_In. now rewrite <- dict_mem_keys.
    + pose proof (keys_stay_distinct (customer inv) Float.zero d Hnd Hm) as Hnd1.
      rewrite IH; [|now rewrite credit_keys|assumption].
      rewrite credit_keys, Hfold.
      rewrite (Hnew (map fst (d ++ [(customer inv, Float.zero)])))
        by (rewrite map_app; apply in_or_app; right; now left).
      rewrite !map_app, <- app_assoc. reflexivity.
Qed.

Lemma tally_is_customer_sums (invs : list InvoiceData) :
  amounts_readable invs = true -> tally [] invs = Ok (customer_sums invs).
Proof.
  intros Hr. rewrite (tally_computes_sums invs [] (List.NoDup_nil _) Hr). reflexivity.
Qed.

(** what the code does achieve on record sets it can read: the sort keeps
    every item, and an item that comes earlier with a sum that is not
    smaller stays earlier, so that equal sums keep their first-occurrence
    order; at most five items are reported *)
Lemma insert_desc_permutation (x : string * Float.float) (l : list (string * Float.float)) :
  Permutation (insert_desc x l) (x :: l).
Proof.
  induction l as [|y l IH]; simpl; [reflexivity|].
  destruct (Float.ltb (snd x) (snd y)); [|reflexivity].
  rewrite IH. apply perm_swap.
Qed.

Lemma sorted_desc_permutation (l : list (string * Float.float)) :
  Permutation (sorted_desc l) l.
Proof.
  induction l as [|x l IH]; simpl; [reflexivity|].
  rewrite insert_desc_permutation. now rewrite IH.
Qed.

Lemma precedes_cons {A} (a x y : A) (l : list A) :
  precedes x y l -> precedes x y (a :: l).
Proof.
  intros (l1 & l2 & l3 & ->). now exists (a :: l1), l2, l3.
Qed.

Lemma precedes_head {A} (x y : A) (l : list A) : In y l -> precedes x y (x :: l).
Proof.
  intros H. apply in_split in H. destruct H as (l2 & l3 & ->).
  now exists [], l2, l3.
Qed.

Lemma precedes_inv {A} (a x y : A) (l : list A) :
  precedes x y (a :: l) -> (a = x /\ In y l) \/ precedes x y l.
Proof.
  intros (l1 & l2 & l3 & E). destruct l1 as [|b l1]; simpl in E.
  - injection E as -> ->. left. split; [reflexivity|].
    apply in_or_app. right. now left.
  - injection E as -> ->. right. now exists l1, l2, l3.
Qed.

Lemma insert_desc_keeps_order (a x y : string * Float.float) l :
  precedes x y l -> precedes x y (insert_desc a l).
Proof.
  induction l as [|z l IH]; intros H; simpl.
  - destruct H as (l1 & l2 & l3 & E). destruct l1; discriminate.
  - destruct (Float.ltb (snd a) (snd z)).
    + apply precedes_inv in H. destruct H as [[-> Hy]|H].
      * apply precedes_head.
        apply (Permutation_in _ (Permutation_sym (insert_desc_permutation a l))).
        now right.
      * apply precedes_cons. now apply IH.
    + now apply precedes_cons.
Qed.

Lemma insert_desc_goes_before (a y : string * Float.float) l :
  In y l -> Float.ltb (snd a) (snd y) = false -> precedes a y (insert_desc a l).
Proof.
  induction l as [|z l IH]; intros Hin Hge; simpl; [destruct Hin|].
  destruct (Float.ltb (snd a) (snd z)) eqn:Hz.
  - destruct Hin as [->|Hin]; [congruence|].
    apply precedes_cons. now apply IH.
  - now apply precedes_head.
Qed.

Lemma customer_ranking_stable (x y : string * Float.float) l :
  precedes x y l -> Float.ltb (snd x) (snd y) = false ->
  precedes x y (sorted_desc l).
Proof.
  induction l as [|a l IH]; intros H Hge.
  - destruct H as (l1 & l2 & l3 & E). destruct l1; discriminate.
  - simpl. apply precedes_inv in H. destruct H as [[-> Hy]|H].
    + apply insert_desc_goes_before; [|assumption].
      apply (Permutation_in _ (Permutation_sym (sorted_desc_permutation l))).
      assumption.
    + apply insert_desc_keeps_order. now apply IH.
Qed.

Lemma top_five_at_most (l : list (string * Float.float)) :
  (length (firstn 5 l) <= 5)%nat.
Proof. rewrite length_firstn. lia. Qed.

(** the customer branch on record sets it can read: the five first of the
    customers' sums, sorted *)
Lemma customer_branch_text (q : string) (invs : list InvoiceData) :
  any_in ["total"; "revenue"; "amount"; "sum"] (Py.lower q) = false ->
  any_in ["customer"; "client"; "who"] (Py.lower q) = true ->
  amounts_readable invs = true ->
  analysis_text q invs
  = Ok ("Customer Analysis:" +:+ nl +:+
        "- Total customers: " +:+
          Py.str_of_nat (size (list_to_set (map customer invs) : gset string)) +:+ nl +:+
        "- Top customers by revenue:" +:+ nl +:+
        String.concat EmptyString
          (map customer_line (firstn 5 (sorted_desc (customer_sums invs))))).
Proof.
  intros Hrev Hcus Hr. unfold analysis_text, bindR.
  destruct (sum_amounts_readable invs Float.zero Hr) as [total ->].
  rewrite Hrev, Hcus, (tally_is_customer_sums invs Hr). reflexivity.
Qed.

(** equal sums (Bolt and Dyne, 100.50 each) keep their first-occurrence
    order, a malformed amount counts for 0, five customers are reported *)
Example ranking_of_seven_customers :
  analysis_text "Who are my customers?" seven_customers
  = Ok ("Customer Analysis:" +:+ nl +:+
        "- Total customers: 7" +:+ nl +:+
        "- Top customers by revenue:" +:+ nl +:+
        "  " +:+ bullet +:+ " Elco: $1,234,567.89" +:+ nl +:+
        "  " +:+ bullet +:+ " Bolt: $100.50" +:+ nl +:+
        "  " +:+ bullet +:+ " Dyne: $100.50" +:+ nl +:+
        "  " +:+ bullet +:+ " Acme: $100.00" +:+ nl +:+
        "  " +:+ bullet +:+ " Gray: $7.00" +:+ nl).
Proof. vm_compute. reflexivity. Qed.

(** the sort puts no item before a greater one *)
Lemma ltb_asymmetric (x y : Float.float) :
  Float.ltb x y = true -> Float.ltb y x = false.
Proof.
  unfold Float.ltb, SFltb.
  destruct x as [sx|sx| |sx mx ex], y as [sy|sy| |sy my ey]; simpl;
    try destruct sx; try destruct sy; simpl; try discriminate; try reflexivity.
  - rewrite (Z.compare_antisym ex ey).
    destruct (ex ?= ey)%Z; simpl; try discriminate; try reflexivity.
    change (Pos.compare_cont Eq my mx) with (Pos.compare my mx).
    change (Pos.compare_cont Eq mx my) with (Pos.compare mx my).
    rewrite (Pos.compare_antisym mx my).
    destruct (mx ?= my)%positive; simpl; try discriminate; reflexivity.
  - rewrite (Z.compare_antisym ex ey).
    destruct (ex ?= ey)%Z; simpl; try discriminate; try reflexivity.
    change (Pos.compare_cont Eq my mx) with (Pos.compare my mx).
    change (Pos.compare_cont Eq mx my) with (Pos.compare mx my).
    rewrite (Pos.compare_antisym mx my).
    destruct (mx ?= my)%positive; simpl; try discriminate; reflexivity.
Qed.

Lemma insert_desc_sorted (x : string * Float.float) (l : list (string * Float.float)) :
  Sorted (fun a b => Float.ltb (snd a) (snd b) = false) l ->
  Sorted (fun a b => Float.ltb (snd a) (snd b) = false) (insert_desc x l).
Proof.
  induction l as [|y l IH]; simpl; intros H.
  - repeat constructor.
  - destruct (Float.ltb (snd x) (snd y)) eqn:E.
    + inversion H as [|? ? Hs Hh]; subst. constructor; [now apply IH|].
      destruct l as [|z l]; simpl.
      * constructor. now apply ltb_asymmetric.
      * destruct (Float.ltb (snd x) (snd z)).
        -- inversion Hh; subst. now constructor.
        -- constructor. now apply ltb_asymmetric.
    + constructor; [assumption|]. now constructor.
Qed.

Lemma sorted_desc_descending (l : list (string * Float.float)) :
  Sorted (fun a b => Float.ltb (snd a) (snd b) = false) (sorted_desc l).
Proof.
  induction l as [|x l IH]; simpl; [constructor|]. now apply insert_desc_sorted.
Qed.

(** * Further properties of src/api.py *)

(** ** The globals a dispatch and a heuristic run leave alone *)

Section DispatchFrame.

Variable X : Type.
Variable g : World -> X.
Hypothesis g_call : forall p b w, g (emit (ProviderCall p b) w) = g w.
Hypothesis g_sleep : forall s w, g (emit (Sleep s) w) = g w.

Lemma frame_call_llm_once env prompt w : g (snd (call_llm_once env prompt w)) = g w.
Proof.
  unfold call_llm_once, bind, call_provider, ret, raise.
  destruct (CLAUDE_AVAILABLE env && Py.truthy (ANTHROPIC_API_KEY env)); cbn.
  - destruct (messages_create env _ prompt); cbn; [apply g_call|].
    destruct (negb (Py.truthy (OPENAI_API_KEY env))); cbn; [apply g_call|].
    destruct (OPENAI_AVAILABLE env && Py.truthy (OPENAI_API_KEY env)); cbn.
    + destruct (completions_create env _ prompt); cbn; now rewrite !g_call.
    + apply g_call.
  - destruct (OPENAI_AVAILABLE env && Py.truthy (OPENAI_API_KEY env)); cbn.
    + destruct (completions_create env _ prompt); cbn; apply g_call.
    + reflexivity.
Qed.

Lemma frame_retrying {A} (f : M A) (n : nat) :
  (forall w, g (snd (f w)) = g w) -> forall k w, g (snd (retrying n k f w)) = g w.
Proof.
  intros Hf. induction n as [|n IH]; intros k w; simpl;
    specialize (Hf w); destruct (f w) as [[a|e] w']; simpl in *; auto.
  now rewrite IH, g_sleep.
Qed.

Lemma frame_call_llm env prompt w : g (snd (call_llm env prompt w)) = g w.
Proof.
  unfold call_llm, retry. apply frame_retrying. intros w0. apply frame_call_llm_once.
Qed.

End DispatchFrame.

Lemma call_llm_keeps_model env prompt w : _model (snd (call_llm env prompt w)) = _model w.
Proof. apply frame_call_llm; reflexivity. Qed.

Lemma call_llm_runs_no_heuristic env prompt w :
  List.filter is_heuristic_run (trace (snd (call_llm env prompt w)))
  = List.filter is_heuristic_run (trace w).
Proof.
  apply (frame_call_llm _ (fun w => List.filter is_heuristic_run (trace w)));
    intros; simpl; rewrite List.filter_app; simpl; apply app_nil_r.
Qed.

Lemma analyze_with_transformers_trace env q invs w :
  trace (snd (analyze_with_transformers env q invs w)) = trace w ++ [HeuristicRun].
Proof.
  unfold analyze_with_transformers, get_transformer_model.
  destruct (negb (TRANSFORMERS_AVAILABLE env)) eqn:E; [reflexivity|].
  apply negb_false_iff in E. rewrite E. simpl.
  destruct (_model w); [reflexivity|].
  destruct (SentenceTransformer env); reflexivity.
Qed.

(** ** The model is loaded once *)

(** X1: get_transformer_model builds the model at most once: a model it
    has returned stays in [_model] and is returned by every later call,
    whatever the environment has become, without building it again; a
    failed build leaves [_model] empty, so that the next call tries again;
    [None] is returned only when the library is not installed. *)
Theorem model_is_loaded_once env w :
  (forall m w',
     get_transformer_model env w = (Ok (Some m), w') ->
     _model w' = Some m /\ cache w' = cache w /\ trace w' = trace w /\
     forall env2, get_transformer_model env2 w' = (Ok (Some m), w')) /\
  (forall e w',
     get_transformer_model env w = (Raise e, w') ->
     w' = w /\ _model w = None /\ SentenceTransformer env = Raise e) /\
  (forall w',
     get_transformer_model env w = (Ok None, w') ->
     w' = w /\ _model w = None /\ TRANSFORMERS_AVAILABLE env = false).
Proof.
  unfold get_transformer_model. split; [|split].
  - intros m w' H. destruct (_model w) as [m0|] eqn:Hm.
    + inversion H; subst. destruct m, m0. rewrite Hm. now repeat split.
    + destruct (TRANSFORMERS_AVAILABLE env); [|discriminate].
      destruct (SentenceTransformer env) as [m1|]; [|discriminate].
      inversion H; subst. destruct m, m1. now repeat split.
  - intros e w' H. destruct (_model w) as [m0|] eqn:Hm; [discriminate|].
    destruct (TRANSFORMERS_AVAILABLE env); [|discriminate].
    destruct (SentenceTransformer env); [discriminate|].
    inversion H; subst. repeat split.
  - intros w' H. destruct (_model w) as [m0|] eqn:Hm; [discriminate|].
    destruct (TRANSFORMERS_AVAILABLE env).
    + destruct (SentenceTransformer env); discriminate.
    + inversion H; subst. repeat split.
Qed.

Lemma model_is_loaded_once_witness :
  _model model_loaded = Some all_MiniLM_L6_v2 /\
  get_transformer_model env_model_fails model_loaded
    = (Ok (Some all_MiniLM_L6_v2), model_loaded) /\
  _model fresh = None.
Proof.
  destruct (proj1 (model_is_loaded_once env_local fresh) all_MiniLM_L6_v2 model_loaded
              eq_refl) as (Hm & _ & _ & Hagain).
  destruct (proj1 (proj2 (model_is_loaded_once env_model_fails fresh))
              (ModelLoadError "download failed") fresh eq_refl) as (_ & Hnone & _).
  split; [exact Hm | split; [apply Hagain | exact Hnone]].
Defined.

(** ** The cache only grows *)

Lemma outcome_cache_grows key_of prefix analyzer env req w res :
  (forall invs, keeps_cache (analyzer invs)) ->
  outcome key_of prefix analyzer env req w res ->
  (forall k r, cache w !! k = Some r -> cache (snd res) !! k = Some r) /\
  (health_check w <= health_check (snd res) <= S (health_check w))%nat.
Proof.
  intros Hk O. unfold health_check. inversion O; subst; simpl.
  - split; [auto | lia].
  - split; [auto | lia].
  - pose proof (Hk invs w) as Kept.
    match goal with H : analyzer invs w = _ |- _ => rewrite H in Kept end.
    simpl in Kept. rewrite Kept. split.
    + intros k r Hr.
      destruct (decide (key_of (query req) csv_content = k)) as [<-|Hne].
      * congruence.
      * now rewrite lookup_insert_ne.
    + rewrite map_size_insert_None by assumption. lia.
  - pose proof (Hk invs w) as Kept.
    match goal with H : analyzer invs w = _ |- _ => rewrite H in Kept end.
    simpl in Kept. rewrite Kept. split; [auto | lia].
Qed.

(** X2: neither endpoint ever evicts or overwrites a cached response: an
    entry of the cache before a request is there, unchanged, after it,
    and the size GET /health reports never goes down and goes up by at
    most one per request. *)
Theorem cache_only_grows env req w :
  ((forall k r, cache w !! k = Some r ->
      cache (snd (analyze_invoices env req w)) !! k = Some r) /\
   (health_check w <= health_check (snd (analyze_invoices env req w))
      <= S (health_check w))%nat) /\
  ((forall k r, cache w !! k = Some r ->
      cache (snd (analyze_invoices_free env req w)) !! k = Some r) /\
   (health_check w <= health_check (snd (analyze_invoices_free env req w))
      <= S (health_check w))%nat).
Proof.
  split.
  - refine (outcome_cache_grows _ _ _ env req w _ _ (analyze_invoices_outcome env req w)).
    intros invs. apply keeps_cache_call_llm.
  - refine (outcome_cache_grows _ _ _ env req w _ _ (analyze_invoices_free_outcome env req w)).
    intros invs. apply keeps_cache_analyze_with_transformers.
Qed.

(** ** Each endpoint keeps to its analyzer *)

(** X3: POST /analyze never runs the local analyzer and never touches the
    loaded model; POST /analyze-free never calls a provider and never
    sleeps: all it adds to the trace is at most one heuristic run. *)
Theorem endpoints_keep_to_their_analyzer env req w :
  (_model (snd (analyze_invoices env req w)) = _model w /\
   List.filter is_heuristic_run (trace (snd (analyze_invoices env req w)))
   = List.filter is_heuristic_run (trace w)) /\
  (trace (snd (analyze_invoices_free env req w)) = trace w \/
   trace (snd (analyze_invoices_free env req w)) = trace w ++ [HeuristicRun]).
Proof.
  split.
  - pose proof (analyze_invoices_outcome env req w) as O.
    inversion O; subst; simpl; auto;
      match goal with
      | H : call_llm env ?p w = _ |- _ =>
          pose proof (call_llm_keeps_model env p w) as Hm;
          pose proof (call_llm_runs_no_heuristic env p w) as Ht;
          rewrite H in Hm, Ht; simpl in Hm, Ht; auto
      end.
  - pose proof (analyze_invoices_free_outcome env req w) as O.
    inversion O; subst; simpl; auto;
      match goal with
      | H : analyze_with_transformers env ?q ?i w = _ |- _ =>
          pose proof (analyze_with_transformers_trace env q i w) as Ht;
          rewrite H in Ht; simpl in Ht; auto
      end.
Qed.

(** ** Requests without inline data read what GET /invoices lists *)

(** X4: a request without inline data is served from the records GET
    /invoices lists: without invoices.csv that list is empty (count 0);
    when it is empty both analysis endpoints answer 404 and change
    nothing; when reading the file fails they fail with that very
    exception, not wrapped as an analysis failure; otherwise they go on
    with exactly the listed records, keyed by the text of the file. *)
Theorem endpoints_read_what_get_invoices_lists env req w :
  Py.truthy (csv_data req) = false ->
  (invoices_csv env = None -> get_invoices env = Ok ([], 0%nat)) /\
  (forall n, get_invoices env = Ok ([], n) ->
     analyze_invoices env req w = (Raise no_data_error, w) /\
     analyze_invoices_free env req w = (Raise no_data_error, w)) /\
  (forall e, get_invoices env = Raise e ->
     analyze_invoices env req w = (Raise e, w) /\
     analyze_invoices_free env req w = (Raise e, w)) /\
  (forall inv invs n, get_invoices env = Ok (inv :: invs, n) ->
     n = length (inv :: invs) /\
     exists text, invoices_csv env = Some text /\
       load_request_data env req = Ok (inv :: invs, Csv.universal_newlines text)).
Proof.
  intros Hnone. unfold get_invoices.
  assert (Hreject : forall e, load_request_data env req = Raise e ->
            analyze_invoices env req w = (Raise e, w) /\
            analyze_invoices_free env req w = (Raise e, w))
    by (intros e; apply rejected_before_analysis).
  split; [|split; [|split]].
  - intros Hfile. unfold load_csv_data. now rewrite Hfile.
  - intros n H. apply Hreject.
    destruct (load_csv_data env) as [invs|e] eqn:Hl; simpl in H; [|discriminate].
    injection H as -> _. now apply persisted_empty_rejected.
  - intros e H. apply Hreject.
    unfold load_request_data. rewrite Hnone.
    destruct (load_csv_data env) as [invs|e0]; simpl in *; congruence.
  - intros inv invs n H.
    destruct (load_csv_data env) as [invs0|e] eqn:Hl; simpl in H; [|discriminate].
    injection H as -> <-. split; [reflexivity|].
    unfold load_request_data. rewrite Hnone, Hl. simpl.
    destruct (invoices_csv env) as [text|] eqn:Hfile.
    + now exists text.
    + unfold load_csv_data in Hl. rewrite Hfile in Hl. discriminate.
Qed.

Lemma short_row_fails : get_invoices env_short_row = Raise ValidationError.
Proof. vm_compute. reflexivity. Qed.

Lemma endpoints_read_what_get_invoices_lists_witness :
  get_invoices env_local = Ok ([], 0%nat) /\
  analyze_invoices env_local overview_of_file fresh = (Raise no_data_error, fresh) /\
  analyze_invoices_free env_short_row overview_of_file fresh = (Raise ValidationError, fresh).
Proof.
  pose proof (endpoints_read_what_get_invoices_lists env_local overview_of_file fresh eq_refl)
    as (Hmissing & Hempty & _).
  pose proof (endpoints_read_what_get_invoices_lists env_short_row overview_of_file
                fresh eq_refl) as (_ & _ & Hfails & _).
  split; [exact (Hmissing eq_refl)|].
  split; [exact (proj1 (Hempty _ (Hmissing eq_refl)))|].
  exact (proj2 (Hfails _ short_row_fails)).
Defined.

(** ** Inline data *)

Lemma for_rows_no_http f rows ok c d :
  (forall row, f row <> Raise (HTTPException c d)) ->
  for_rows f rows ok <> Raise (HTTPException c d).
Proof.
  intros Hf. induction rows as [|row rows IH]; simpl.
  - now destruct ok.
  - specialize (Hf row). destruct (f row) as [inv|e]; simpl.
    + destruct (for_rows f rows ok) as [invs|e]; simpl; congruence.
    + intros H. apply Hf. congruence.
Qed.

Lemma InvoiceData_of_row_no_http row c d :
  InvoiceData_of_row row <> Raise (HTTPException c d).
Proof.
  unfold InvoiceData_of_row, required.
  destruct (Csv.rest row); [discriminate|].
  repeat match goal with
         | |- context [Csv.get ?k row] => destruct (Csv.get k row) as [[?|]|]; simpl
         end; discriminate.
Qed.

Lemma inline_single_line env q data :
  data <> EmptyString ->
  (occurrences LF (Py.strip data) = 0%nat <->
   load_request_data env (mkRequest q (Some data)) = Raise bad_format_error).
Proof.
  intros Hdata. unfold load_request_data. simpl.
  destruct data as [|c data']; [congruence|]. simpl Py.truthy. cbv iota.
  change (Py.chr 10) with LF.
  rewrite split_length.
  destruct (occurrences LF (Py.strip (String c data'))) as [|n] eqn:Hn.
  - simpl. tauto.
  - simpl. split; [discriminate|]. intros H. exfalso.
    destruct (Csv.DictReader _) as [rows ok].
    pose proof (for_rows_no_http InvoiceData_of_row rows ok 400 "Invalid CSV data format"
                  (fun row => InvoiceData_of_row_no_http row _ _)) as Hno.
    unfold bad_format_error in H.
    destruct (for_rows InvoiceData_of_row rows ok); simpl in H; [discriminate|].
    apply Hno. congruence.
Qed.

(** X5: inline data is checked for its shape only: a non-empty [csv_data]
    (of ASCII text) is answered with 400 by both endpoints, with nothing
    changed, exactly when it is a single line once stripped; and a
    request that carries data never looks at invoices.csv. *)
Theorem inline_data_format_check env q data w :
  data <> EmptyString -> ascii_text data = true ->
  (occurrences LF (Py.strip data) = 0%nat <->
   analyze_invoices env (mkRequest q (Some data)) w = (Raise bad_format_error, w)) /\
  (occurrences LF (Py.strip data) = 0%nat <->
   analyze_invoices_free env (mkRequest q (Some data)) w = (Raise bad_format_error, w)) /\
  (forall file,
     analyze_invoices (with_invoices_csv file env) (mkRequest q (Some data)) w
     = analyze_invoices env (mkRequest q (Some data)) w /\
     analyze_invoices_free (with_invoices_csv file env) (mkRequest q (Some data)) w
     = analyze_invoices_free env (mkRequest q (Some data)) w).
Proof.
  intros Hdata _. pose proof (inline_single_line env q data Hdata) as Hline.
  split; [|split].
  - rewrite Hline. split.
    + intros H. now apply rejected_before_analysis.
    + intros H. pose proof (analyze_invoices_outcome env (mkRequest q (Some data)) w) as O.
      rewrite H in O. inversion O; subst. assumption.
  - rewrite Hline. split.
    + intros H. now apply rejected_before_analysis.
    + intros H.
      pose proof (analyze_invoices_free_outcome env (mkRequest q (Some data)) w) as O.
      rewrite H in O. inversion O; subst. assumption.
  - intros file. destruct data as [|c data']; [congruence|]. split; reflexivity.
Qed.

Lemma inline_data_format_check_witness :
  analyze_invoices env_bare (mkRequest "total" (Some "   ")) fresh
    = (Raise bad_format_error, fresh) /\
  analyze_invoices_free env_bare (mkRequest "total" (Some "id,amount")) fresh
    = (Raise bad_format_error, fresh).
Proof.
  split.
  - apply (proj1 (inline_data_format_check env_bare "total" "   " fresh
                    ltac:(discriminate) eq_refl)). reflexivity.
  - apply (proj1 (proj2 (inline_data_format_check env_bare "total" "id,amount" fresh
                           ltac:(discriminate) eq_refl))). reflexivity.
Defined.

(** ** The dispatcher *)

Lemma retrying_ok {A} (f : M A) n k w a w' :
  f w = (Ok a, w') -> retrying n k f w = (Ok a, w').
Proof. intros H. destruct n; simpl; now rewrite H. Qed.

Lemma retrying_again {A} (f : M A) n k w e w' :
  f w = (Raise e, w') ->
  retrying (S n) k f w
  = retrying n (k + 1) f (emit (Sleep (wait_exponential 1 4 10 k)) w').
Proof. intros H. simpl. now rewrite H. Qed.

Lemma retrying_last {A} (f : M A) k w e w' :
  f w = (Raise e, w') -> retrying 0 k f w = (Raise (RetryError e), w').
Proof. intros H. simpl. now rewrite H. Qed.

Lemma call_llm_once_claude env prompt w t :
  CLAUDE_AVAILABLE env = true -> Py.truthy (ANTHROPIC_API_KEY env) = true ->
  messages_create env (calls_to Claude (trace w)) prompt = Text t ->
  call_llm_once env prompt w = (Ok t, emit (ProviderCall Claude true) w).
Proof.
  intros Ha Hk Hr. unfold call_llm_once, bind, call_provider, ret.
  rewrite Ha, Hk. cbn. now rewrite Hr.
Qed.

Lemma call_llm_once_openai env prompt w t :
  CLAUDE_AVAILABLE env && Py.truthy (ANTHROPIC_API_KEY env) = false ->
  OPENAI_AVAILABLE env = true -> Py.truthy (OPENAI_API_KEY env) = true ->
  completions_create env (calls_to OpenAI (trace w)) prompt = Text t ->
  call_llm_once env prompt w = (Ok t, emit (ProviderCall OpenAI true) w).
Proof.
  intros Hc Ha Hk Hr. unfold call_llm_once, bind, call_provider, ret.
  rewrite Hc, Ha, Hk. cbn. now rewrite Hr.
Qed.

(** X6: the dispatcher asks the providers in a fixed order and stops at
    the first answer: when Claude is configured and answers, its text is
    returned after that one call, whatever is set for OpenAI; OpenAI is
    asked first only when Claude is not configured. *)
Theorem first_configured_provider_answers env prompt w :
  (forall t,
     CLAUDE_AVAILABLE env = true -> Py.truthy (ANTHROPIC_API_KEY env) = true ->
     messages_create env (calls_to Claude (trace w)) prompt = Text t ->
     call_llm env prompt w = (Ok t, emit (ProviderCall Claude true) w)) /\
  (forall t,
     CLAUDE_AVAILABLE env && Py.truthy (ANTHROPIC_API_KEY env) = false ->
     OPENAI_AVAILABLE env = true -> Py.truthy (OPENAI_API_KEY env) = true ->
     completions_create env (calls_to OpenAI (trace w)) prompt = Text t ->
     call_llm env prompt w = (Ok t, emit (ProviderCall OpenAI true) w)).
Proof.
  split; intros; unfold call_llm, retry; apply retrying_ok;
    [now apply call_llm_once_claude | now apply call_llm_once_openai].
Qed.

Lemma first_configured_provider_answers_witness :
  call_llm env_both_answer "How much revenue?" fresh
    = (Ok "Claude says 150.", emit (ProviderCall Claude true) fresh) /\
  call_llm env_openai_only "How much revenue?" fresh
    = (Ok "OpenAI says 150.", emit (ProviderCall OpenAI true) fresh).
Proof.
  split.
  - exact (proj1 (first_configured_provider_answers env_both_answer "How much revenue?" fresh)
             "Claude says 150." eq_refl eq_refl eq_refl).
  - exact (proj2 (first_configured_provider_answers env_openai_only "How much revenue?" fresh)
             "OpenAI says 150." eq_refl eq_refl eq_refl eq_refl).
Defined.

Lemma call_llm_once_claude_fails env prompt w msg :
  CLAUDE_AVAILABLE env = true -> Py.truthy (ANTHROPIC_API_KEY env) = true ->
  Py.truthy (OPENAI_API_KEY env) = false ->
  messages_create env (calls_to Claude (trace w)) prompt = Fails msg ->
  call_llm_once env prompt w
  = (Raise (HTTPException 500 ("Claude API error: " +:+ msg)),
     emit (ProviderCall Claude false) w).
Proof.
  intros Ha Hk Ho Hr. unfold call_llm_once, bind, call_provider, ret, raise.
  rewrite Ha, Hk, Ho. cbn. now rewrite Hr.
Qed.

Lemma calls_to_emit p q b w :
  calls_to p (trace (emit (ProviderCall q b) w))
  = (calls_to p (trace w) + (if is_call_to p (ProviderCall q b) then 1 else 0))%nat.
Proof.
  simpl. rewrite calls_to_app. f_equal. unfold calls_to. simpl.
  now destruct p, q.
Qed.

Lemma calls_to_sleep p s w : calls_to p (trace (emit (Sleep s) w)) = calls_to p (trace w).
Proof.
  simpl. rewrite calls_to_app.
  change (calls_to p [Sleep s]) with 0%nat. lia.
Qed.

(** X7: the retry does what it is there for: when only Claude is
    configured and its call fails once and answers the next time, the
    dispatcher waits 4 seconds, asks again and returns that answer. *)
Theorem retry_recovers_from_one_failure env prompt w msg t :
  CLAUDE_AVAILABLE env = true -> Py.truthy (ANTHROPIC_API_KEY env) = true ->
  Py.truthy (OPENAI_API_KEY env) = false ->
  messages_create env (calls_to Claude (trace w)) prompt = Fails msg ->
  messages_create env (S (calls_to Claude (trace w))) prompt = Text t ->
  call_llm env prompt w
  = (Ok t, emit (ProviderCall Claude true)
             (emit (Sleep 4) (emit (ProviderCall Claude false) w))).
Proof.
  intros Ha Hk Ho Hfirst Hsecond. unfold call_llm, retry.
  rewrite (retrying_again _ _ _ _ _ _ (call_llm_once_claude_fails _ _ _ _ Ha Hk Ho Hfirst)).
  rewrite wait_after_first_attempt.
  apply retrying_ok, call_llm_once_claude; try assumption.
  rewrite calls_to_sleep, calls_to_emit. simpl.
  now replace (calls_to Claude (trace w) + 1)%nat with (S (calls_to Claude (trace w))) by lia.
Qed.

Lemma retry_recovers_from_one_failure_witness :
  call_llm env_flaky "How much revenue?" fresh
  = (Ok "Revenue is 150.",
     emit (ProviderCall Claude true) (emit (Sleep 4) (emit (ProviderCall Claude false) fresh))).
Proof.
  exact (retry_recovers_from_one_failure env_flaky "How much revenue?" fresh
           "overloaded" "Revenue is 150." eq_refl eq_refl eq_refl eq_refl eq_refl).
Defined.

Lemma call_llm_once_masked env prompt w msg :
  CLAUDE_AVAILABLE env = true -> Py.truthy (ANTHROPIC_API_KEY env) = true ->
  OPENAI_AVAILABLE env = false -> Py.truthy (OPENAI_API_KEY env) = true ->
  messages_create env (calls_to Claude (trace w)) prompt = Fails msg ->
  call_llm_once env prompt w
  = (Raise (HTTPException 500 (error_msg env)), emit (ProviderCall Claude false) w).
Proof.
  intros Ha Hk Hoa Ho Hr. unfold call_llm_once, bind, call_provider, ret, raise.
  rewrite Ha, Hk, Ho, Hoa. cbn. now rewrite Hr.
Qed.

(** X8: Claude's error is lost when an OpenAI key is set but the openai
    library is not installed: every attempt calls Claude, swallows its
    failure because a key for the fallback exists, finds the fallback
    unusable, and raises the configuration error, which names Claude as
    the provider to configure although it is configured. *)
Theorem provider_error_masked env prompt w :
  CLAUDE_AVAILABLE env = true -> Py.truthy (ANTHROPIC_API_KEY env) = true ->
  OPENAI_AVAILABLE env = false -> Py.truthy (OPENAI_API_KEY env) = true ->
  (forall n, is_text (messages_create env n prompt) = false) ->
  call_llm env prompt w
  = (Raise (RetryError (HTTPException 500
       "No LLM API available. Install and configure: Claude (set ANTHROPIC_API_KEY)")),
     emit (ProviderCall Claude false)
       (emit (Sleep 4) (emit (ProviderCall Claude false)
          (emit (Sleep 4) (emit (ProviderCall Claude false) w))))).
Proof.
  intros Ha Hk Hoa Ho Hdown.
  assert (Hmsg : error_msg env
            = "No LLM API available. Install and configure: Claude (set ANTHROPIC_API_KEY)")
    by (unfold error_msg, available_apis; rewrite Ha, Hoa; reflexivity).
  assert (Hfail : forall w0, call_llm_once env prompt w0
            = (Raise (HTTPException 500 (error_msg env)), emit (ProviderCall Claude false) w0)).
  { intros w0. specialize (Hdown (calls_to Claude (trace w0))).
    destruct (messages_create env (calls_to Claude (trace w0)) prompt) as [t|msg] eqn:Hr;
      [discriminate|].
    now apply call_llm_once_masked with (msg := msg). }
  unfold call_llm, retry.
  rewrite (retrying_again _ _ _ _ _ _ (Hfail _)).
  rewrite (retrying_again _ _ _ _ _ _ (Hfail _)).
  rewrite (retrying_last _ _ _ _ _ (Hfail _)).
  now rewrite wait_after_first_attempt, wait_after_second_attempt, Hmsg.
Qed.

Lemma provider_error_masked_witness :
  call_llm env_masked "How much revenue?" fresh
  = (Raise (RetryError (HTTPException 500
       "No LLM API available. Install and configure: Claude (set ANTHROPIC_API_KEY)")),
     emit (ProviderCall Claude false)
       (emit (Sleep 4) (emit (ProviderCall Claude false)
          (emit (Sleep 4) (emit (ProviderCall Claude false) fresh))))).
Proof.
  exact (provider_error_masked env_masked "How much revenue?" fresh
           eq_refl eq_refl eq_refl eq_refl (fun _ => eq_refl)).
Defined.

Lemma call_llm_once_shape env prompt w :
  match call_llm_once env prompt w with
  | (Ok t, w') =>
      exists p evs,
        trace w' = trace w ++ evs ++ [ProviderCall p true] /\
        List.filter is_answer evs = [] /\ List.filter is_sleep evs = [] /\
        reply env p (calls_to p (trace w ++ evs)) prompt = Text t
  | (Raise e, w') =>
      exists msg evs,
        e = HTTPException 500 msg /\ attempt_error env msg /\
        trace w' = trace w ++ evs /\
        List.filter is_answer evs = [] /\ List.filter is_sleep evs = []
  end.
Proof.
  unfold call_llm_once, bind, call_provider, ret, raise, attempt_error.
  destruct (CLAUDE_AVAILABLE env && Py.truthy (ANTHROPIC_API_KEY env)); cbn.
  - destruct (messages_create env (calls_to Claude (trace w)) prompt) as [t|msg] eqn:Hc; cbn.
    + exists Claude, []. rewrite app_nil_r. simpl. auto.
    + destruct (negb (Py.truthy (OPENAI_API_KEY env))); cbn.
      * exists ("Claude API error: " +:+ msg), [ProviderCall Claude false].
        repeat split; eauto.
      * destruct (OPENAI_AVAILABLE env && Py.truthy (OPENAI_API_KEY env)); cbn.
        -- destruct (completions_create env _ prompt) as [t|msg2] eqn:Ho; cbn.
           ++ exists OpenAI, [ProviderCall Claude false].
              rewrite <- app_assoc. simpl. auto.
           ++ exists ("OpenAI API error: " +:+ msg2),
                [ProviderCall Claude false; ProviderCall OpenAI false].
              rewrite <- app_assoc. simpl. repeat split; eauto.
        -- exists (error_msg env), [ProviderCall Claude false]. repeat split; eauto.
  - destruct (OPENAI_AVAILABLE env && Py.truthy (OPENAI_API_KEY env)); cbn.
    + destruct (completions_create env (calls_to OpenAI (trace w)) prompt)
        as [t|msg2] eqn:Ho; cbn.
      * exists OpenAI, []. rewrite app_nil_r. simpl. auto.
      * exists ("OpenAI API error: " +:+ msg2), [ProviderCall OpenAI false].
        repeat split; eauto.
    + exists (error_msg env), []. rewrite app_nil_r. repeat split; eauto.
Qed.

Lemma retrying_shape env prompt n : forall k w,
  match retrying n k (call_llm_once env prompt) w with
  | (Ok t, w') =>
      exists p evs,
        trace w' = trace w ++ evs ++ [ProviderCall p true] /\
        List.filter is_answer evs = [] /\
        reply env p (calls_to p (trace w ++ evs)) prompt = Text t
  | (Raise e, w') =>
      exists msg evs,
        e = RetryError (HTTPException 500 msg) /\ attempt_error env msg /\
        trace w' = trace w ++ evs /\
        List.filter is_answer evs = [] /\ List.filter is_sleep evs = waits n k
  end.
Proof.
  induction n as [|n IH]; intros k w; simpl;
    pose proof (call_llm_once_shape env prompt w) as Hone;
    destruct (call_llm_once env prompt w) as [[t|e] w1].
  - destruct Hone as (p & evs & Ht & Ha & _ & Hr). now exists p, evs.
  - destruct Hone as (msg & evs & -> & Hm & Ht & Ha & Hs). now exists msg, evs.
  - destruct Hone as (p & evs & Ht & Ha & _ & Hr). now exists p, evs.
  - destruct Hone as (msg & evs & -> & Hm & Ht & Ha & Hs).
    specialize (IH (k + 1) (emit (Sleep (wait_exponential 1 4 10 k)) w1)).
    destruct (retrying n (k + 1) (call_llm_once env prompt)
                (emit (Sleep (wait_exponential 1 4 10 k)) w1)) as [[t|e] w2];
      simpl in IH; rewrite Ht in IH.
    + destruct IH as (p & evs2 & Ht2 & Ha2 & Hr2).
      exists p, (evs ++ [Sleep (wait_exponential 1 4 10 k)] ++ evs2).
      rewrite Ht2, <- !app_assoc. split; [reflexivity|]. split.
      * rewrite !List.filter_app, Ha, Ha2. reflexivity.
      * rewrite <- Hr2. now rewrite <- !app_assoc.
    + destruct IH as (msg2 & evs2 & -> & Hm2 & Ht2 & Ha2 & Hs2).
      exists msg2, (evs ++ [Sleep (wait_exponential 1 4 10 k)] ++ evs2).
      rewrite Ht2, <- !app_assoc. repeat split; try assumption.
      * rewrite !List.filter_app, Ha, Ha2. reflexivity.
      * rewrite !List.filter_app, Hs, Hs2. reflexivity.
Qed.

(** X9: how a dispatch ends.  When call_llm returns a text, the last
    thing it did was a provider call that returned that text, and every
    call before it had failed; when it raises, it raises a RetryError
    around an HTTP 500 whose detail is one of three texts (a Claude
    error, an OpenAI error, the configuration error), no call has
    answered, and it has slept exactly twice, 4 seconds each. *)
Theorem dispatch_ends_at_first_answer env prompt w :
  (forall t w', call_llm env prompt w = (Ok t, w') ->
     exists p evs,
       trace w' = trace w ++ evs ++ [ProviderCall p true] /\
       List.filter is_answer evs = [] /\
       reply env p (calls_to p (trace w ++ evs)) prompt = Text t) /\
  (forall e w', call_llm env prompt w = (Raise e, w') ->
     exists msg evs,
       e = RetryError (HTTPException 500 msg) /\ attempt_error env msg /\
       trace w' = trace w ++ evs /\
       List.filter is_answer evs = [] /\
       List.filter is_sleep evs = [Sleep 4; Sleep 4]).
Proof.
  pose proof (retrying_shape env prompt 2 1 w) as H.
  unfold call_llm, retry. split.
  - intros t w' E. rewrite E in H. exact H.
  - intros e w' E. rewrite E in H. exact H.
Qed.

Lemma both_down_fails :
  call_llm env_both_down "How much revenue?" fresh
  = (Raise (RetryError (HTTPException 500 "OpenAI API error: busy")),
     mkWorld ∅ None
       [ProviderCall Claude false; ProviderCall OpenAI false; Sleep 4;
        ProviderCall Claude false; ProviderCall OpenAI false; Sleep 4;
        ProviderCall Claude false; ProviderCall OpenAI false]).
Proof. vm_compute. reflexivity. Qed.

Lemma dispatch_ends_at_first_answer_witness :
  exists msg evs,
    RetryError (HTTPException 500 "OpenAI API error: busy")
      = RetryError (HTTPException 500 msg) /\
    attempt_error env_both_down msg /\
    [ProviderCall Claude false; ProviderCall OpenAI false; Sleep 4;
     ProviderCall Claude false; ProviderCall OpenAI false; Sleep 4;
     ProviderCall Claude false; ProviderCall OpenAI false] = [] ++ evs /\
    List.filter is_answer evs = [] /\
    List.filter is_sleep evs = [Sleep 4; Sleep 4].
Proof.
  exact (proj2 (dispatch_ends_at_first_answer env_both_down "How much revenue?" fresh)
           _ _ both_down_fails).
Defined.

(** ** The query matters through its category only *)

Lemma branch_classify (q : string) : branch q = Spec.classify q.
Proof.
  unfold branch, Spec.classify, Spec.categories, Spec.first_match.
  rewrite classify_revenue.
  rewrite (any_in_lower ["customer"; "client"; "who"]) by reflexivity.
  rewrite (any_in_lower ["status"; "paid"; "payment"]) by reflexivity.
  rewrite (any_in_lower ["count"; "how many"; "number"]) by reflexivity.
  reflexivity.
Qed.

Lemma analysis_text_by_branch (q1 q2 : string) (invs : list InvoiceData) :
  branch q1 = branch q2 -> analysis_text q1 invs = analysis_text q2 invs.
Proof.
  unfold branch, analysis_text.
  destruct (any_in ["total"; "revenue"; "amount"; "sum"] (Py.lower q1)),
           (any_in ["total"; "revenue"; "amount"; "sum"] (Py.lower q2)),
           (any_in ["customer"; "client"; "who"] (Py.lower q1)),
           (any_in ["customer"; "client"; "who"] (Py.lower q2)),
           (any_in ["status"; "paid"; "payment"] (Py.lower q1)),
           (any_in ["status"; "paid"; "payment"] (Py.lower q2)),
           (any_in ["count"; "how many"; "number"] (Py.lower q1)),
           (any_in ["count"; "how many"; "number"] (Py.lower q2));
    intros H; try discriminate H; reflexivity.
Qed.

(** X10: the local analysis reads the query for its category only: two
    queries of the same category get the same result on the same
    records, text or failure; and two queries that both get a text get
    the same text only if they are of the same category. *)
Theorem same_category_same_analysis (q1 q2 : string) (invs : list InvoiceData) :
  (Spec.classify q1 = Spec.classify q2 ->
   analysis_text q1 invs = analysis_text q2 invs) /\
  (forall text, analysis_text q1 invs = Ok text -> analysis_text q2 invs = Ok text ->
   Spec.classify q1 = Spec.classify q2).
Proof.
  split.
  - intros H. apply analysis_text_by_branch. now rewrite !branch_classify.
  - intros text H1 H2. apply analysis_text_heading in H1, H2.
    exact (heading_identifies _ _ _ H1 H2).
Qed.

Lemma same_category_same_analysis_witness :
  analysis_text "What is the TOTAL?" two_records
  = analysis_text "sum of all amounts, per customer" two_records.
Proof.
  exact (proj1 (same_category_same_analysis "What is the TOTAL?"
                  "sum of all amounts, per customer" two_records) eq_refl).
Defined.

(** ** What the local analysis reads of a record *)

Lemma same_length invs1 invs2 :
  Forall2 same_for_analysis invs1 invs2 -> length invs1 = length invs2.
Proof. intros same. induction same; simpl; congruence. Qed.

Lemma same_customers invs1 invs2 :
  Forall2 same_for_analysis invs1 invs2 -> map customer invs1 = map customer invs2.
Proof.
  intros same. induction same as [|a b l1 l2 (Hc & _ & _) _ IH]; simpl; [reflexivity|].
  now rewrite Hc, IH.
Qed.

Lemma same_sum_amounts invs1 invs2 :
  Forall2 same_for_analysis invs1 invs2 ->
  forall acc, sum_amounts acc invs1 = sum_amounts acc invs2.
Proof.
  intros same. induction same as [|a b l1 l2 (_ & Ha & _) _ IH]; intros acc; simpl;
    [reflexivity|].
  rewrite Ha. destruct (amount_guard (amount b)); [|apply IH].
  destruct (float_of_amount (amount b)); simpl; [apply IH | reflexivity].
Qed.

Lemma same_count invs1 invs2 :
  Forall2 same_for_analysis invs1 invs2 ->
  forall s, count_if (status_is s) invs1 = count_if (status_is s) invs2.
Proof.
  intros same s. unfold count_if.
  induction same as [|a b l1 l2 (_ & _ & Hs) _ IH]; [reflexivity|].
  cbn [List.filter].
  replace (status_is s a) with (status_is s b) by (unfold status_is; now rewrite Hs).
  destruct (status_is s b); cbn [length]; now rewrite IH.
Qed.

Lemma same_tally invs1 invs2 :
  Forall2 same_for_analysis invs1 invs2 ->
  forall d, tally d invs1 = tally d invs2.
Proof.
  intros same. induction same as [|a b l1 l2 (Hc & Ha & _) _ IH]; intros d; simpl;
    [reflexivity|].
  rewrite Hc, Ha. destruct (amount_guard (amount b)); [|apply IH].
  destruct (float_of_amount (amount b)); simpl; [apply IH | reflexivity].
Qed.

(** X11: the local analysis reads three things of a record: its customer,
    its amount and its status, the status up to letter case.  Record
    lists that agree on these, record by record, get the same result for
    every query; invoice ids and payment dates play no part. *)
Theorem analysis_reads_customer_amount_status (q : string) (invs1 invs2 : list InvoiceData) :
  Forall2 same_for_analysis invs1 invs2 ->
  analysis_text q invs1 = analysis_text q invs2.
Proof.
  intros same. unfold analysis_text.
  rewrite (same_length _ _ same), (same_sum_amounts _ _ same), (same_customers _ _ same),
    !(same_count _ _ same), (same_tally _ _ same).
  reflexivity.
Qed.

Lemma relabelled_same : Forall2 same_for_analysis two_records two_records_relabelled.
Proof. repeat constructor. Qed.

Lemma analysis_reads_customer_amount_status_witness :
  analysis_text "payment status" two_records
  = analysis_text "payment status" two_records_relabelled.
Proof.
  exact (analysis_reads_customer_amount_status "payment status" _ _ relabelled_same).
Defined.

(** ** When the local analysis fails *)

Lemma sum_amounts_error (invs : list InvoiceData) (acc : Float.float) (e : exn) :
  sum_amounts acc invs = Raise e ->
  exists inv, In inv invs /\ amount_guard (amount inv) = true /\
              (2 <= occurrences "." (amount inv))%nat /\
              e = not_a_float (amount inv).
Proof.
  revert acc. induction invs as [|inv invs IH]; intros acc; simpl; [discriminate|].
  destruct (amount_guard (amount inv)) eqn:Hg.
  - unfold float_of_amount. destruct (Float.of_str (amount inv)) as [x|] eqn:Hf; simpl.
    + intros H. destruct (IH _ H) as (i & Hi & R). exists i. auto.
    + intros H. injection H as <-. exists inv. repeat split; auto.
      destruct (le_lt_dec (occurrences "." (amount inv)) 1) as [Hle|Hgt]; [|lia].
      destruct (float_reads_guarded _ Hg Hle) as [x Hx]. congruence.
  - intros H. destruct (IH _ H) as (i & Hi & R). exists i. auto.
Qed.

Lemma branch_customer (q : string) :
  branch q = Spec.CustomerRanking <->
  any_in ["total"; "revenue"; "amount"; "sum"] (Py.lower q) = false /\
  any_in ["customer"; "client"; "who"] (Py.lower q) = true.
Proof.
  unfold branch.
  destruct (any_in ["total"; "revenue"; "amount"; "sum"] (Py.lower q)),
           (any_in ["customer"; "client"; "who"] (Py.lower q)),
           (any_in ["status"; "paid"; "payment"] (Py.lower q)),
           (any_in ["count"; "how many"; "number"] (Py.lower q));
    split; try discriminate; try tauto; intros [? ?]; discriminate.
Qed.

Lemma analysis_text_returns (q : string) (invs : list InvoiceData) :
  (exists text, analysis_text q invs = Ok text) <->
  amounts_readable invs = true /\ (invs <> [] \/ Spec.classify q = Spec.CustomerRanking).
Proof.
  rewrite <- branch_classify. split.
  - intros [text H]. split.
    + destruct (amounts_readable invs) eqn:Hr; [reflexivity|].
      apply (sum_amounts_fails_iff invs Float.zero) in Hr. destruct Hr as [e He].
      unfold analysis_text in H. rewrite He in H. discriminate.
    + destruct invs as [|inv invs]; [right | left; discriminate].
      apply branch_customer.
      destruct (any_in ["total"; "revenue"; "amount"; "sum"] (Py.lower q)) eqn:B1.
      { rewrite no_records_divide in H by auto. discriminate. }
      destruct (any_in ["customer"; "client"; "who"] (Py.lower q)) eqn:B2; [auto|].
      rewrite no_records_divide in H by auto. discriminate.
  - intros [Hr [Hne|Hc]].
    + now apply analysis_text_total.
    + apply branch_customer in Hc. destruct Hc as [B1 B2].
      rewrite (customer_branch_text q invs B1 B2 Hr). eauto.
Qed.

(** X12: when the local analysis fails, and how, on records whose amounts
    are ASCII text.  It returns a text
    exactly when every amount that passes the digit test is one [float]
    reads and, unless the query asks for the customer ranking, there is
    at least one record.  It divides by zero exactly on an empty record
    list under a query of another category; its only other failure is
    the ValueError of [float] on a record whose amount is made of digits
    and two or more dots. *)
Theorem analysis_fails_exactly_when (q : string) (invs : list InvoiceData) :
  ascii_amounts invs = true ->
  ((exists text, analysis_text q invs = Ok text) <->
   amounts_readable invs = true /\
   (invs <> [] \/ Spec.classify q = Spec.CustomerRanking)) /\
  (analysis_text q invs = Raise (ZeroDivisionError "division by zero") <->
   invs = [] /\ Spec.classify q <> Spec.CustomerRanking) /\
  (forall e, analysis_text q invs = Raise e ->
     e = ZeroDivisionError "division by zero" \/
     exists inv, In inv invs /\ amount_guard (amount inv) = true /\
                 (2 <= occurrences "." (amount inv))%nat /\
                 e = not_a_float (amount inv)).
Proof.
  intros _. pose proof (analysis_text_returns q invs) as Hret.
  assert (Hzero : invs = [] -> Spec.classify q <> Spec.CustomerRanking ->
                  analysis_text q invs = Raise (ZeroDivisionError "division by zero")).
  { intros -> Hc. apply no_records_divide.
    rewrite <- branch_classify in Hc.
    destruct (any_in ["total"; "revenue"; "amount"; "sum"] (Py.lower q)) eqn:B1; [auto|].
    destruct (any_in ["customer"; "client"; "who"] (Py.lower q)) eqn:B2; [|auto].
    exfalso. apply Hc. now apply branch_customer. }
  assert (Hraise : forall e, analysis_text q invs = Raise e ->
            (invs = [] /\ Spec.classify q <> Spec.CustomerRanking) \/
            exists inv, In inv invs /\ amount_guard (amount inv) = true /\
                        (2 <= occurrences "." (amount inv))%nat /\
                        e = not_a_float (amount inv)).
  { intros e H.
    destruct (sum_amounts Float.zero invs) as [total|e0] eqn:Hs.
    - left.
      assert (Hr : amounts_readable invs = true).
      { destruct (amounts_readable invs) eqn:Hr; [reflexivity|].
        apply (sum_amounts_fails_iff invs Float.zero) in Hr. destruct Hr as [e1 He1].
        congruence. }
      split.
      + destruct invs as [|inv invs]; [reflexivity|].
        destruct (proj2 Hret) as [text Ht]; [split; [exact Hr | left; discriminate]|].
        congruence.
      + intros Hc. destruct (proj2 Hret) as [text Ht]; [split; [exact Hr | now right]|].
        congruence.
    - right. unfold analysis_text in H. rewrite Hs in H. simpl in H. injection H as <-.
      now apply sum_amounts_error with (acc := Float.zero). }
  split; [exact Hret | split].
  - split.
    + intros H. destruct (Hraise _ H) as [Hz|(inv & _ & _ & _ & He)]; [exact Hz|].
      discriminate He.
    + intros [He Hc]. now apply Hzero.
  - intros e H. destruct (Hraise _ H) as [[He Hc]|Hv]; [left | now right].
    rewrite (Hzero He Hc) in H. congruence.
Qed.

Lemma analysis_fails_exactly_when_witness :
  analysis_text "how many invoices?" [] = Raise (ZeroDivisionError "division by zero") /\
  exists text, analysis_text "who are my customers?" [] = Ok text.
Proof.
  split.
  - apply (proj1 (proj2 (analysis_fails_exactly_when "how many invoices?" [] eq_refl))).
    split; [reflexivity | discriminate].
  - apply (proj1 (analysis_fails_exactly_when "who are my customers?" [] eq_refl)).
    split; [reflexivity | now right].
Defined.

(** X13: what the local analyzer does with the model.  When it returns
    a text, the model is loaded and the text is the one the statistics
    give for the query and the records: the model takes no part in it.
    When it fails, it is in one of three ways: without the library it
    raises its HTTP 500 and leaves the model alone; when the model cannot
    be built it raises the builder's exception and no model is kept;
    otherwise the model is loaded and the failure is that of the
    statistics.  The check for a missing model (api.py 103-104) never
    fires. *)
Theorem heuristic_failure_modes env q invs w :
  (forall text w',
     analyze_with_transformers env q invs w = (Ok text, w') ->
     TRANSFORMERS_AVAILABLE env = true /\ analysis_text q invs = Ok text /\
     exists m, _model w' = Some m) /\
  (forall e w',
     analyze_with_transformers env q invs w = (Raise e, w') ->
     (TRANSFORMERS_AVAILABLE env = false /\
      e = HTTPException 500 "sentence-transformers not available" /\
      _model w' = _model w) \/
     (TRANSFORMERS_AVAILABLE env = true /\ _model w = None /\
      SentenceTransformer env = Raise e /\ _model w' = None) \/
     (TRANSFORMERS_AVAILABLE env = true /\ analysis_text q invs = Raise e /\
      exists m, _model w' = Some m)).
Proof.
  unfold analyze_with_transformers, get_transformer_model.
  destruct (TRANSFORMERS_AVAILABLE env); simpl; split.
  - intros text w'. destruct (_model w) as [m|] eqn:Hm.
    + intros H. injection H as H <-. simpl. rewrite Hm. eauto.
    + destruct (SentenceTransformer env) as [m|e0]; [|discriminate].
      intros H. injection H as H <-. simpl. eauto.
  - intros e w'. destruct (_model w) as [m|] eqn:Hm.
    + intros H. injection H as H <-. right. right. simpl. rewrite Hm. eauto.
    + destruct (SentenceTransformer env) as [m|e0].
      * intros H. injection H as H <-. right. right. simpl. eauto.
      * intros H. injection H as <- <-. right. left. simpl. auto.
  - discriminate.
  - intros e w' H. injection H as <- <-. left. auto.
Qed.

Lemma model_fails_to_load :
  analyze_with_transformers env_model_fails "total" two_records fresh
  = (Raise (ModelLoadError "download failed"), emit HeuristicRun fresh).
Proof. reflexivity. Qed.

Lemma local_analysis_of_two_records :
  analyze_with_transformers env_local "total revenue" two_records fresh
  = (Ok revenue_text, mkWorld ∅ (Some all_MiniLM_L6_v2) [HeuristicRun]).
Proof. vm_compute. reflexivity. Qed.

Lemma heuristic_failure_modes_witness :
  analysis_text "total revenue" two_records = Ok revenue_text /\
  ((TRANSFORMERS_AVAILABLE env_model_fails = false /\
    ModelLoadError "download failed"
      = HTTPException 500 "sentence-transformers not available" /\
    _model (emit HeuristicRun fresh) = _model fresh) \/
   (TRANSFORMERS_AVAILABLE env_model_fails = true /\ _model fresh = None /\
    SentenceTransformer env_model_fails = Raise (ModelLoadError "download failed") /\
    _model (emit HeuristicRun fresh) = None) \/
   (TRANSFORMERS_AVAILABLE env_model_fails = true /\
    analysis_text "total" two_records = Raise (ModelLoadError "download failed") /\
    exists m, _model (emit HeuristicRun fresh) = Some m)).
Proof.
  split.
  - exact (proj1 (proj2 (proj1 (heuristic_failure_modes env_local "total revenue"
                                  two_records fresh) _ _ local_analysis_of_two_records))).
  - exact (proj2 (heuristic_failure_modes env_model_fails "total" two_records fresh) _ _
             model_fails_to_load).
Defined.

(** ** The customer ranking on readable amounts *)

Lemma first_occurrences_spec (seen l : list string) :
  NoDup (first_occurrences seen l) /\
  forall c, In c (first_occurrences seen l) <-> In c l /\ ~ In c seen.
Proof.
  revert seen. induction l as [|a l IH]; intros seen; simpl.
  - split; [apply NoDup_nil_2 | tauto].
  - destruct (existsb (String.eqb a) seen) eqn:E.
    + destruct (IH seen) as [Hnd Hin]. split; [exact Hnd|].
      intros c. rewrite Hin. apply existsb_eqb_In in E.
      split; [tauto|]. intros [[->|Hc] Hs]; tauto.
    + destruct (IH (seen ++ [a])) as [Hnd Hin].
      assert (Ha : ~ In a seen).
      { intros Hs. apply existsb_eqb_In in Hs. congruence. }
      split.
      * apply NoDup_cons_2; [|exact Hnd].
        rewrite list_elem_of_In, Hin, in_app_iff. simpl. tauto.
      * intros c. simpl. rewrite Hin, in_app_iff. simpl.
        destruct (String.eqb_spec a c) as [->|Hne]; tauto.
Qed.

Lemma customer_sums_length (invs : list InvoiceData) :
  length (customer_sums invs) = size (list_to_set (map customer invs) : gset string).
Proof.
  unfold customer_sums. rewrite length_map.
  destruct (first_occurrences_spec [] (map customer invs)) as [Hnd Hin].
  rewrite <- (size_list_to_set (C := gset string)) by exact Hnd.
  f_equal. apply set_eq. intros c.
  rewrite !elem_of_list_to_set, !list_elem_of_In, Hin. simpl. tauto.
Qed.

(** X14: the customer ranking, on records whose amounts are ASCII text
    that [float] reads.
    The text lists the first five entries of a ranking which holds each
    customer once with the sum of its amounts (amounts that fail the
    digit test adding nothing), in which no entry stands before one with
    a greater sum, and in which customers with equal sums keep the order
    of their first record; the number of lines is the number of
    customers when there are fewer than five. *)
Theorem customer_ranking_on_readable_amounts (q : string) (invs : list InvoiceData) :
  Spec.classify q = Spec.CustomerRanking ->
  ascii_amounts invs = true -> amounts_readable invs = true ->
  exists ranking,
    analysis_text q invs
    = Ok ("Customer Analysis:" +:+ nl +:+
          "- Total customers: " +:+
            Py.str_of_nat (size (list_to_set (map customer invs) : gset string)) +:+ nl +:+
          "- Top customers by revenue:" +:+ nl +:+
          String.concat EmptyString (map customer_line (firstn 5 ranking))) /\
    Permutation ranking (customer_sums invs) /\
    Sorted (fun a b => Float.ltb (snd a) (snd b) = false) ranking /\
    (forall x y, precedes x y (customer_sums invs) ->
       Float.ltb (snd x) (snd y) = false -> precedes x y ranking) /\
    length (firstn 5 ranking)
    = Nat.min 5 (size (list_to_set (map customer invs) : gset string)).
Proof.
  intros Hc _ Hr. rewrite <- branch_classify in Hc. apply branch_customer in Hc.
  destruct Hc as [B1 B2].
  exists (sorted_desc (customer_sums invs)). split; [|split; [|split; [|split]]].
  - now apply customer_branch_text.
  - apply sorted_desc_permutation.
  - apply sorted_desc_descending.
  - intros x y. apply customer_ranking_stable.
  - rewrite length_firstn, <- customer_sums_length.
    now rewrite (Permutation_length (sorted_desc_permutation _)).
Qed.

Lemma seven_customers_readable : amounts_readable seven_customers = true.
Proof. vm_compute. reflexivity. Qed.

Lemma customer_ranking_on_readable_amounts_witness :
  exists ranking,
    analysis_text "Who are my customers?" seven_customers
    = Ok ("Customer Analysis:" +:+ nl +:+
          "- Total customers: " +:+
            Py.str_of_nat (size (list_to_set (map customer seven_customers) : gset string))
            +:+ nl +:+
          "- Top customers by revenue:" +:+ nl +:+
          String.concat EmptyString (map customer_line (firstn 5 ranking))) /\
    Permutation ranking (customer_sums seven_customers) /\
    Sorted (fun a b => Float.ltb (snd a) (snd b) = false) ranking /\
    (forall x y, precedes x y (customer_sums seven_customers) ->
       Float.ltb (snd x) (snd y) = false -> precedes x y ranking) /\
    length (firstn 5 ranking)
    = Nat.min 5 (size (list_to_set (map customer seven_customers) : gset string)).
Proof.
  exact (customer_ranking_on_readable_amounts "Who are my customers?" seven_customers
           eq_refl eq_refl seven_customers_readable).
Defined.

(** ** The amounts that count *)

Lemma all_digits_without_dots (a : string) :
  Py.all_chars Py.isdigit_char (Py.remove_char "." a)
  = forallb digit_or_dot (list_ascii_of_string a).
Proof.
  induction a as [|c a IH]; simpl; [reflexivity|].
  unfold digit_or_dot at 1. destruct (Ascii.eqb_spec c ".") as [->|Hne]; simpl.
  - exact IH.
  - now rewrite IH, orb_false_r.
Qed.

Lemma amount_guard_digits_and_dots (a : string) : amount_guard a = digits_and_dots a.
Proof.
  unfold amount_guard, digits_and_dots. rewrite <- all_digits_without_dots.
  induction a as [|c a IH]; simpl; [reflexivity|].
  destruct (Ascii.eqb_spec c ".") as [->|Hne]; simpl.
  - exact IH.
  - destruct (Py.isdigit_char c); simpl; [now rewrite andb_true_r | reflexivity].
Qed.

Lemma sum_amounts_guarded (invs : list InvoiceData) (acc : Float.float) :
  sum_amounts acc invs
  = sum_amounts acc (List.filter (fun inv => amount_guard (amount inv)) invs).
Proof.
  revert acc. induction invs as [|inv invs IH]; intros acc; simpl; [reflexivity|].
  destruct (amount_guard (amount inv)) eqn:Hg; simpl; [|apply IH].
  rewrite Hg. destruct (float_of_amount (amount inv)); simpl; [apply IH | reflexivity].
Qed.

(** X15: which amounts enter the totals, for amounts of ASCII text.  An
    amount is added exactly when it is written with digits and dots only
    and has a digit; among those, [float] reads the ones with at most one
    dot.  Every other amount (a sign, a thousands separator, a currency
    symbol, an exponent, blanks around the number, the empty text) is
    passed over in silence: the total is that of the records that pass
    the test. *)
Theorem amounts_that_count :
  (forall a, ascii_text a = true -> amount_guard a = digits_and_dots a) /\
  (forall a, ascii_text a = true -> digits_and_dots a = true ->
     ((exists x, Float.of_str a = Some x) <-> (occurrences "." a <= 1)%nat)) /\
  (forall acc invs, ascii_amounts invs = true ->
     sum_amounts acc invs
     = sum_amounts acc (List.filter (fun inv => digits_and_dots (amount inv)) invs)).
Proof.
  split; [intros a _; apply amount_guard_digits_and_dots | split].
  - intros a _ Ha. rewrite <- amount_guard_digits_and_dots in Ha. split.
    + intros [x Hx]. destruct (le_lt_dec (occurrences "." a) 1) as [Hle|Hgt]; [exact Hle|].
      rewrite float_refuses_two_dots in Hx by lia. discriminate.
    + now apply float_reads_guarded.
  - intros acc invs _. rewrite sum_amounts_guarded. f_equal.
    apply List.filter_ext. intros inv. apply amount_guard_digits_and_dots.
Qed.

Lemma amounts_that_count_witness :
  amount_guard "-5" = false /\ amount_guard "1,000.50" = false /\
  sum_amounts Float.zero abc_amount_records
  = sum_amounts Float.zero [mkInvoice "1" "Acme" "100" "2024-01-01" "Paid"].
Proof.
  destruct amounts_that_count as (Hguard & _ & Hsum).
  split; [exact (Hguard "-5" eq_refl)|].
  split; [exact (Hguard "1,000.50" eq_refl)|].
  exact (Hsum Float.zero abc_amount_records eq_refl).
Defined.

Example amounts_passed_over :
  map amount_guard ["-5"; "+5"; "1,000.50"; "$20"; "1e3"; " 100"; EmptyString; "."; "12.50"; ".5"; "7."]
  = [false; false; false; false; false; false; false; false; true; true; true].
Proof. reflexivity. Qed.

(** ** The short hash of a response *)

Lemma take_free_prefix (s : string) : Py.take 8 ("free_" +:+ s) = "free_" +:+ Py.take 3 s.
Proof. reflexivity. Qed.

Lemma take_length (n : nat) (s : string) :
  (n <= String.length s)%nat -> String.length (Py.take n s) = n.
Proof.
  revert s. induction n as [|n IH]; intros [|c s]; simpl; intros H; try reflexivity.
  - lia.
  - rewrite IH; [reflexivity | lia].
Qed.

(** X16: what a freshly computed response carries besides the text: the
    number of records read, and a short hash of 8 characters, which on
    POST /analyze is the first 8 hex digits of the fingerprint and on
    POST /analyze-free the prefix free_ and only 3 hex digits of it. *)
Theorem response_fields env req w invs csv_content :
  load_request_data env req = Ok (invs, csv_content) ->
  (forall r w',
     cache w !! provider_cache_key (query req) csv_content = None ->
     analyze_invoices env req w = (Ok r, w') ->
     invoices_analyzed r = length invs /\
     query_hash r = Py.take 8 (get_cache_key (query req) csv_content) /\
     String.length (query_hash r) = 8%nat) /\
  (forall r w',
     cache w !! free_cache_key (query req) csv_content = None ->
     analyze_invoices_free env req w = (Ok r, w') ->
     invoices_analyzed r = length invs /\
     query_hash r = "free_" +:+ Py.take 3 (get_cache_key (query req) csv_content) /\
     String.length (query_hash r) = 8%nat).
Proof.
  intros Hl. split; intros r w' Hmiss H.
  - pose proof (analyze_invoices_outcome env req w) as O. rewrite H in O.
    inversion O; subst; rewrite Hl in *;
      match goal with E : Ok _ = Ok _ |- _ => injection E as <- <- end; [congruence|].
    unfold response_for, provider_cache_key. cbn [invoices_analyzed query_hash].
    split; [reflexivity | split; [reflexivity|]].
    apply take_length. rewrite get_cache_key_length. lia.
  - pose proof (analyze_invoices_free_outcome env req w) as O. rewrite H in O.
    inversion O; subst; rewrite Hl in *;
      match goal with E : Ok _ = Ok _ |- _ => injection E as <- <- end; [congruence|].
    unfold response_for, free_cache_key. cbn [invoices_analyzed query_hash].
    rewrite take_free_prefix.
    split; [reflexivity | split; [reflexivity|]].
    rewrite append_length, take_length; [reflexivity|].
    rewrite get_cache_key_length. lia.
Qed.

Lemma two_invoices_load :
  load_request_data env_local revenue_request = Ok (two_records, two_invoices).
Proof. vm_compute. reflexivity. Qed.

Lemma revenue_request_heuristic_run :
  analyze_invoices_free env_local revenue_request fresh = (Ok local_response, after_local).
Proof. vm_compute. reflexivity. Qed.

Lemma response_fields_witness :
  invoices_analyzed local_response = length two_records /\
  query_hash local_response
    = "free_" +:+ Py.take 3 (get_cache_key (query revenue_request) two_invoices) /\
  String.length (query_hash local_response) = 8%nat.
Proof.
  exact (proj2 (response_fields env_local revenue_request fresh two_records two_invoices
                  two_invoices_load)
           local_response after_local eq_refl revenue_request_heuristic_run).
Defined.

(** ** Reading back a dataset of plain fields *)

Lemma append_assoc (s t u : string) : (s +:+ t) +:+ u = s +:+ (t +:+ u).
Proof.
  induction s as [|c s IH]; [reflexivity|].
  change (String c ((s +:+ t) +:+ u) = String c (s +:+ (t +:+ u))). now rewrite IH.
Qed.

Lemma append_empty (s : string) : s +:+ EmptyString = s.
Proof.
  induction s as [|c s IH]; [reflexivity|].
  change (String c (s +:+ EmptyString) = String c s). now rewrite IH.
Qed.

Lemma occurrences_app (c : ascii) (s t : string) :
  occurrences c (s +:+ t) = (occurrences c s + occurrences c t)%nat.
Proof. induction s as [|a s IH]; simpl; [reflexivity | rewrite IH; lia]. Qed.

Lemma plain_char_facts (c : ascii) :
  plain_char c = true ->
  Ascii.eqb c Csv.delimiter = false /\ Ascii.eqb c Csv.quotechar = false /\
  Csv.is_newline c = false /\ Ascii.eqb c LF = false /\ Ascii.eqb c CR = false.
Proof.
  unfold plain_char, Csv.is_newline. change (Py.chr 10) with LF. change (Py.chr 13) with CR.
  destruct (Ascii.eqb c Csv.delimiter), (Ascii.eqb c Csv.quotechar),
    (Ascii.eqb c LF), (Ascii.eqb c CR), (Ascii.eqb c (Py.chr 0)); simpl; intros H;
    try discriminate; auto.
Qed.

Lemma plain_occurrences (c : ascii) (s : string) :
  plain_char c = false -> Py.all_chars plain_char s = true -> occurrences c s = 0%nat.
Proof.
  intros Hc. induction s as [|a s IH]; simpl; [reflexivity|].
  intros H. apply andb_true_iff in H. destruct H as [Ha Hs].
  rewrite (IH Hs). destruct (Ascii.eqb_spec a c) as [->|_]; [congruence | reflexivity].
Qed.

Lemma plain_field_chars (s : string) : plain s = true -> Py.all_chars plain_char s = true.
Proof. unfold plain. intros H. now apply andb_true_iff in H. Qed.

Lemma plain_field_length (s : string) :
  plain s = true -> Z.of_nat (String.length s) <= Csv.field_limit.
Proof. unfold plain. intros H. apply andb_true_iff in H. lia. Qed.

(** *** the lines of the text *)

Lemma split_app_separator (c : ascii) (s t : string) :
  occurrences c s = 0%nat -> Py.split c (s +:+ String c t) = s :: Py.split c t.
Proof.
  induction s as [|a s IH]; simpl.
  - now rewrite Ascii.eqb_refl.
  - destruct (Ascii.eqb a c); [discriminate|]. intros H. now rewrite IH.
Qed.

Lemma split_join_lines (c : ascii) (line : string) (lines : list string) :
  Forall (fun l => occurrences c l = 0%nat) (line :: lines) ->
  Py.split c (Py.join (Py.str1 c) (line :: lines)) = line :: lines.
Proof.
  revert line. induction lines as [|l lines IH]; intros line H.
  - simpl. inversion H; subst. now apply split_without_separator.
  - inversion H; subst.
    change (Py.join (Py.str1 c) (line :: l :: lines))
      with (line +:+ String c (Py.join (Py.str1 c) (l :: lines))).
    rewrite split_app_separator by assumption. now rewrite IH.
Qed.

Lemma record_line_text (inv : InvoiceData) :
  record_line inv
  = invoice_id inv +:+ "," +:+ customer inv +:+ "," +:+ amount inv +:+ "," +:+
    paid_at inv +:+ "," +:+ status inv.
Proof. reflexivity. Qed.

Lemma plain_record_fields (inv : InvoiceData) :
  plain_record inv = true ->
  plain (invoice_id inv) = true /\ plain (customer inv) = true /\
  plain (amount inv) = true /\ plain (paid_at inv) = true /\ plain (status inv) = true.
Proof.
  unfold plain_record, fields_of. cbn [forallb]. rewrite !andb_true_iff. tauto.
Qed.

Lemma record_line_one_line (c : ascii) (inv : InvoiceData) :
  plain_char c = false -> c <> Csv.delimiter -> plain_record inv = true ->
  occurrences c (record_line inv) = 0%nat.
Proof.
  intros Hc Hd H. apply plain_record_fields in H. destruct H as (Hi & Hcu & Ha & Hp & Hs).
  assert (Hcomma : occurrences c "," = 0%nat).
  { cbn [occurrences]. destruct (Ascii.eqb_spec "," c) as [E|_]; [|reflexivity].
    exfalso. apply Hd. now rewrite <- E. }
  rewrite record_line_text, !occurrences_app, Hcomma.
  now rewrite !(plain_occurrences c) by (try assumption; now apply plain_field_chars).
Qed.

Lemma dataset_lines (invs : list InvoiceData) :
  forallb plain_record invs = true ->
  Py.split LF (dataset invs) = header :: map record_line invs.
Proof.
  intros H. unfold dataset. apply (split_join_lines LF). constructor; [reflexivity|].
  apply List.Forall_forall. intros l Hl. apply in_map_iff in Hl. destruct Hl as (inv & <- & Hin).
  apply record_line_one_line; [reflexivity | discriminate |].
  rewrite forallb_forall in H. now apply H.
Qed.

(** *** the parser on a line of plain fields *)

Lemma parse_plain_chars (f rest fld : string) (done : list string) :
  Py.all_chars plain_char f = true ->
  Z.of_nat (String.length fld + String.length f) <= Csv.field_limit ->
  Csv.parse_line (Csv.mkReader Csv.IN_FIELD fld (Z.of_nat (String.length fld)) done)
                 (f +:+ rest)
  = Csv.parse_line (Csv.mkReader Csv.IN_FIELD (fld +:+ f)
                                 (Z.of_nat (String.length (fld +:+ f))) done) rest.
Proof.
  revert fld. induction f as [|c f IH]; intros fld Hp Hl.
  - now rewrite append_empty.
  - cbn [Py.all_chars] in Hp. apply andb_true_iff in Hp. destruct Hp as [Hc Hp].
    destruct (plain_char_facts c Hc) as (Hdel & _ & Hnl & _ & _).
    change (String c f +:+ rest) with (String c (f +:+ rest)).
    cbn [Csv.parse_line]. unfold Csv.parse_process_char at 1. cbn [Csv.state].
    rewrite Hnl, Hdel. unfold Csv.parse_add_char. cbn [Csv.field_len Csv.field Csv.fields Csv.state].
    cbn [String.length] in Hl.
    destruct (Csv.field_limit <=? Z.of_nat (String.length fld)) eqn:E; [lia|].
    replace (Z.of_nat (String.length fld) + 1)
      with (Z.of_nat (String.length (fld +:+ Py.str1 c)))
      by (rewrite append_length; cbn [String.length Py.str1]; lia).
    rewrite IH; [| exact Hp | rewrite append_length; cbn [String.length Py.str1]; lia].
    now rewrite append_assoc.
Qed.

Lemma parse_field_start (f rest : string) (done : list string) :
  plain f = true ->
  Csv.parse_line (Csv.mkReader Csv.START_FIELD EmptyString 0 done) (f +:+ rest)
  = match f with
    | EmptyString => Csv.parse_line (Csv.mkReader Csv.START_FIELD EmptyString 0 done) rest
    | _ => Csv.parse_line
             (Csv.mkReader Csv.IN_FIELD f (Z.of_nat (String.length f)) done) rest
    end.
Proof.
  intros H. destruct f as [|c f]; [reflexivity|].
  pose proof (plain_field_length _ H) as Hlen. apply plain_field_chars in H.
  cbn [Py.all_chars] in H. apply andb_true_iff in H. destruct H as [Hc Hp].
  destruct (plain_char_facts c Hc) as (Hdel & Hq & Hnl & _ & _).
  change (String c f +:+ rest) with (String c (f +:+ rest)).
  cbn [Csv.parse_line]. unfold Csv.parse_process_char at 1. cbn [Csv.state].
  unfold Csv.start_field. rewrite Hnl, Hq, Hdel.
  unfold Csv.parse_add_char. cbn [Csv.field_len Csv.field Csv.fields Csv.state].
  change (Csv.field_limit <=? 0) with false. cbn [option_map].
  change (Csv.set_state Csv.IN_FIELD
            (Csv.mkReader Csv.START_FIELD (EmptyString +:+ Py.str1 c) (0 + 1) done))
    with (Csv.mkReader Csv.IN_FIELD (Py.str1 c) (Z.of_nat (String.length (Py.str1 c))) done).
  rewrite parse_plain_chars; [reflexivity | exact Hp |].
  cbn [String.length Py.str1] in *. lia.
Qed.

Lemma parse_field_end (f tail : string) (done : list string) :
  plain f = true -> line_tail tail ->
  Csv.parse_line (Csv.mkReader Csv.START_FIELD EmptyString 0 done) (f +:+ tail)
  = Some (Csv.mkReader Csv.START_RECORD EmptyString 0 (done ++ [f])).
Proof.
  intros H Ht. rewrite parse_field_start by exact H.
  destruct f as [|c f]; destruct Ht as [->| ->]; reflexivity.
Qed.

Lemma parse_field_comma (f more : string) (done : list string) :
  plain f = true ->
  Csv.parse_line (Csv.mkReader Csv.START_FIELD EmptyString 0 done) (f +:+ "," +:+ more)
  = Csv.parse_line (Csv.mkReader Csv.START_FIELD EmptyString 0 (done ++ [f])) more.
Proof.
  intros H. rewrite parse_field_start by exact H.
  destruct f as [|c f]; reflexivity.
Qed.

Lemma parse_first_char (c : ascii) (line : string) (done : list string) :
  Csv.is_newline c = false ->
  Csv.parse_line (Csv.mkReader Csv.START_RECORD EmptyString 0 done) (String c line)
  = Csv.parse_line (Csv.mkReader Csv.START_FIELD EmptyString 0 done) (String c line).
Proof.
  intros Hnl. cbn [Csv.parse_line]. unfold Csv.parse_process_char. cbn [Csv.state].
  now rewrite Hnl.
Qed.

Lemma parse_record_line (inv : InvoiceData) (tail : string) :
  plain_record inv = true -> line_tail tail ->
  Csv.parse_line Csv.parse_reset (record_line inv +:+ tail)
  = Some (Csv.mkReader Csv.START_RECORD EmptyString 0 (fields_of inv)).
Proof.
  intros H Ht. pose proof (plain_record_fields inv H) as (Hi & Hc & Ha & Hp & Hs).
  rewrite record_line_text, !append_assoc. unfold Csv.parse_reset.
  assert (Hfirst : forall rest,
            Csv.parse_line (Csv.mkReader Csv.START_RECORD EmptyString 0 [])
                           (invoice_id inv +:+ "," +:+ rest)
            = Csv.parse_line (Csv.mkReader Csv.START_FIELD EmptyString 0 [])
                             (invoice_id inv +:+ "," +:+ rest)).
  { intros rest. destruct (invoice_id inv) as [|c i] eqn:E.
    - now apply parse_first_char.
    - apply parse_first_char. apply plain_field_chars in Hi. cbn [Py.all_chars] in Hi.
      apply andb_true_iff in Hi. now destruct (plain_char_facts c (proj1 Hi)) as (_ & _ & ? & _). }
  rewrite Hfirst.
  rewrite !parse_field_comma by assumption.
  now rewrite parse_field_end by assumption.
Qed.

Lemma read_plain_records (tail : string) (invs : list InvoiceData) :
  line_tail tail -> forallb plain_record invs = true ->
  Csv.read_records Csv.parse_reset (map (fun l => l +:+ tail) (map record_line invs))
  = (map fields_of invs, true).
Proof.
  intros Ht. induction invs as [|inv invs IH]; [reflexivity|].
  cbn [forallb map]. intros H. apply andb_true_iff in H. destruct H as [Hinv H].
  cbn [Csv.read_records]. rewrite (parse_record_line inv tail Hinv Ht).
  cbn [Csv.is_start_record Csv.state Csv.fields]. now rewrite (IH H).
Qed.

Lemma filter_nonempty_fields (invs : list InvoiceData) :
  List.filter Csv.nonempty (map fields_of invs) = map fields_of invs.
Proof. induction invs as [|inv invs IH]; [reflexivity|]. cbn. now rewrite IH. Qed.

Lemma DictReader_plain (tail : string) (invs : list InvoiceData) :
  line_tail tail -> forallb plain_record invs = true ->
  Csv.DictReader (map (fun l => l +:+ tail) (header :: map record_line invs))
  = (map (Csv.dict_row (fields_of header_record)) (map fields_of invs), true).
Proof.
  intros Ht H. unfold Csv.DictReader, Csv.reader.
  change header with (record_line header_record).
  change (map (fun l => l +:+ tail) (record_line header_record :: map record_line invs))
    with (map (fun l => l +:+ tail) (map record_line (header_record :: invs))).
  rewrite read_plain_records; [| exact Ht | cbn [forallb]; now rewrite H].
  cbn [map]. now rewrite filter_nonempty_fields.
Qed.

Lemma row_of_record (inv : InvoiceData) :
  InvoiceData_of_row (Csv.dict_row (fields_of header_record) (fields_of inv)) = Ok inv /\
  InvoiceData_of_file_row (Csv.dict_row (fields_of header_record) (fields_of inv)) = Ok inv.
Proof. destruct inv. split; reflexivity. Qed.

Lemma rows_of_records (invs : list InvoiceData) :
  for_rows InvoiceData_of_row
    (map (Csv.dict_row (fields_of header_record)) (map fields_of invs)) true = Ok invs /\
  for_rows InvoiceData_of_file_row
    (map (Csv.dict_row (fields_of header_record)) (map fields_of invs)) true = Ok invs.
Proof.
  induction invs as [|inv invs [IH1 IH2]]; [split; reflexivity|].
  cbn [map for_rows]. destruct (row_of_record inv) as [-> ->]. rewrite IH1, IH2.
  split; reflexivity.
Qed.

(** *** inline data *)

Lemma join_snoc (sep l : string) (ls : list string) (x : string) :
  Py.join sep (l :: ls ++ [x]) = Py.join sep (l :: ls) +:+ sep +:+ x.
Proof.
  revert l. induction ls as [|a ls IH]; intros l; [reflexivity|].
  change (Py.join sep (l :: (a :: ls) ++ [x]))
    with (l +:+ sep +:+ Py.join sep (a :: ls ++ [x])).
  change (Py.join sep (l :: a :: ls)) with (l +:+ sep +:+ Py.join sep (a :: ls)).
  now rewrite IH, !append_assoc.
Qed.

Lemma rstrip_app (s t : string) :
  Py.rstrip t <> EmptyString -> Py.rstrip (s +:+ t) = s +:+ Py.rstrip t.
Proof.
  intros Ht. induction s as [|a s IH]; [reflexivity|].
  change (String a s +:+ t) with (String a (s +:+ t)).
  cbn [Py.rstrip]. rewrite IH.
  change (String a s +:+ Py.rstrip t) with (String a (s +:+ Py.rstrip t)).
  destruct (s +:+ Py.rstrip t) as [|b r] eqn:E; [|reflexivity].
  destruct s; [|discriminate E]. now destruct Ht.
Qed.

Lemma rstrip_after_comma (s : string) :
  Py.rstrip s = s ->
  Py.rstrip ("," +:+ s) = "," +:+ s /\ Py.rstrip ("," +:+ s) <> EmptyString.
Proof.
  intros H. change ("," +:+ s) with (String "," s). cbn [Py.rstrip]. rewrite H.
  destruct s; split; try reflexivity; discriminate.
Qed.

Lemma dataset_head (lines : list string) :
  exists text, Py.join nl (header :: lines) = String "i" text.
Proof. destruct lines; eexists; reflexivity. Qed.

Lemma dataset_stripped (invs : list InvoiceData) (inv : InvoiceData) :
  Py.rstrip (status inv) = status inv ->
  Py.strip (dataset (invs ++ [inv])) = dataset (invs ++ [inv]).
Proof.
  intros Hs. unfold Py.strip.
  destruct (dataset_head (map record_line (invs ++ [inv]))) as [text Ht].
  unfold dataset at 1. rewrite Ht. cbn [Py.lstrip]. change (Py.isspace_char "i") with false.
  cbv iota. rewrite <- Ht. fold (dataset (invs ++ [inv])).
  unfold dataset. rewrite map_app. cbn [map]. rewrite join_snoc, record_line_text.
  destruct (rstrip_after_comma _ Hs) as [Hc Hne].
  rewrite <- !append_assoc.
  rewrite (append_assoc _ "," (status inv)).
  rewrite rstrip_app by exact Hne. now rewrite Hc.
Qed.

Lemma lines_without_tail (lines : list string) :
  map (fun l => l +:+ EmptyString) lines = lines.
Proof.
  induction lines as [|l lines IH]; [reflexivity|]. cbn [map]. now rewrite append_empty, IH.
Qed.

Lemma load_inline_dataset env (q : string) (invs : list InvoiceData)
        (inv : InvoiceData) :
  forallb plain_record (invs ++ [inv]) = true ->
  no_trailing_space (status inv) = true ->
  load_request_data env (mkRequest q (Some (dataset (invs ++ [inv]))))
  = Ok (invs ++ [inv], dataset (invs ++ [inv])).
Proof.
  intros Hp Hs. unfold no_trailing_space in Hs. apply andb_true_iff in Hs.
  destruct Hs as [_ Hs]. apply String.eqb_eq in Hs.
  unfold load_request_data. cbn [csv_data].
  destruct (dataset_head (map record_line (invs ++ [inv]))) as [text Ht].
  assert (Htruthy : Py.truthy (Some (dataset (invs ++ [inv]))) = true)
    by (unfold dataset; now rewrite Ht).
  rewrite Htruthy. cbn [default from_option id].
  rewrite (dataset_stripped invs inv Hs).
  change (Py.chr 10) with LF. rewrite (dataset_lines _ Hp).
  assert (Hlen : (length (header :: map record_line (invs ++ [inv])) <? 2)%nat = false).
  { apply Nat.ltb_ge. cbn [length]. rewrite length_map, length_app. cbn [length]. lia. }
  rewrite Hlen.
  rewrite <- (lines_without_tail (header :: map record_line (invs ++ [inv]))).
  rewrite (DictReader_plain EmptyString _ (or_introl eq_refl) Hp).
  now rewrite (proj1 (rows_of_records (invs ++ [inv]))).
Qed.

(** X17: inline data is read back as written.  Records whose fields
    hold no comma, double quote, carriage return, line feed or NUL (and
    stay within the reader's field size), written one per line under the
    header line, the last status ASCII text that does not end in white
    space, are exactly
    the records both endpoints go on with, and the text is the dataset
    that enters the cache key. *)
Theorem inline_dataset_round_trip env (q : string) (invs : list InvoiceData)
        (inv : InvoiceData) :
  forallb plain_record (invs ++ [inv]) = true ->
  no_trailing_space (status inv) = true ->
  load_request_data env (mkRequest q (Some (dataset (invs ++ [inv]))))
  = Ok (invs ++ [inv], dataset (invs ++ [inv])).
Proof. intros Hp Hs. now apply load_inline_dataset. Qed.

Lemma spaced_records_plain : forallb plain_record spaced_records = true.
Proof. vm_compute. reflexivity. Qed.

Lemma spaced_records_readable : amounts_readable spaced_records = true.
Proof. vm_compute. reflexivity. Qed.

Lemma inline_dataset_round_trip_witness :
  load_request_data env_bare (mkRequest "total" (Some (dataset spaced_records)))
  = Ok (spaced_records, dataset spaced_records).
Proof.
  exact (inline_dataset_round_trip env_bare "total"
           [mkInvoice "INV 1" "Acme & Sons" "1.5" "2024-01-01" "Paid"]
           (mkInvoice EmptyString "Bolt" "-3" EmptyString "Partially Paid")
           spaced_records_plain eq_refl).
Defined.

(** *** the persisted file *)

Lemma universal_newlines_line (line_end l rest : string) :
  line_end = nl \/ line_end = CRLF -> occurrences CR l = 0%nat ->
  Csv.universal_newlines (l +:+ line_end +:+ rest)
  = l +:+ nl +:+ Csv.universal_newlines rest.
Proof.
  intros Hle. induction l as [|c l IH]; intros Hl.
  - destruct Hle as [->| ->]; reflexivity.
  - cbn [occurrences] in Hl. change (Py.chr 13) with CR in *.
    change (String c l +:+ line_end +:+ rest) with (String c (l +:+ line_end +:+ rest)).
    cbn [Csv.universal_newlines]. change (Py.chr 13) with CR.
    destruct (Ascii.eqb c CR) eqn:E; [discriminate|].
    rewrite IH by lia. reflexivity.
Qed.

Lemma universal_newlines_file (line_end : string) (lines : list string) :
  line_end = nl \/ line_end = CRLF ->
  Forall (fun l => occurrences CR l = 0%nat) lines ->
  Csv.universal_newlines (file_of_lines line_end lines) = file_of_lines nl lines.
Proof.
  intros Hle H. induction H as [|l lines Hl _ IH]; [reflexivity|].
  cbn [file_of_lines fold_right]. fold (file_of_lines line_end lines).
  fold (file_of_lines nl lines).
  now rewrite (universal_newlines_line line_end l _ Hle Hl), IH.
Qed.

Lemma file_lines_line (l rest : string) :
  occurrences LF l = 0%nat ->
  Csv.file_lines (l +:+ nl +:+ rest) = (l +:+ nl) :: Csv.file_lines rest.
Proof.
  induction l as [|c l IH]; intros Hl; [reflexivity|].
  cbn [occurrences] in Hl.
  change (String c l +:+ nl +:+ rest) with (String c (l +:+ nl +:+ rest)).
  cbn [Csv.file_lines]. change (Py.chr 10) with LF.
  destruct (Ascii.eqb c LF) eqn:E; [discriminate|].
  rewrite IH by lia.
  destruct (l +:+ nl +:+ rest) eqn:E2; [|reflexivity].
  destruct l; discriminate E2.
Qed.

Lemma file_lines_file (lines : list string) :
  Forall (fun l => occurrences LF l = 0%nat) lines ->
  Csv.file_lines (file_of_lines nl lines) = map (fun l => l +:+ nl) lines.
Proof.
  intros H. induction H as [|l lines Hl _ IH]; [reflexivity|].
  cbn [file_of_lines fold_right map]. fold (file_of_lines nl lines).
  now rewrite (file_lines_line l _ Hl), IH.
Qed.

Lemma dataset_one_line_each (c : ascii) (invs : list InvoiceData) :
  plain_char c = false -> c <> Csv.delimiter -> forallb plain_record invs = true ->
  Forall (fun l => occurrences c l = 0%nat) (header :: map record_line invs).
Proof.
  intros Hc Hd H. change header with (record_line header_record).
  change (record_line header_record :: map record_line invs)
    with (map record_line (header_record :: invs)).
  apply List.Forall_forall. intros l Hl. apply in_map_iff in Hl.
  destruct Hl as (inv & <- & Hin). apply record_line_one_line; try assumption.
  destruct Hin as [<-|Hin]; [reflexivity|].
  rewrite forallb_forall in H. now apply H.
Qed.

Lemma load_dataset_file env (line_end : string) (invs : list InvoiceData) :
  line_end = nl \/ line_end = CRLF -> forallb plain_record invs = true ->
  load_csv_data (with_invoices_csv (Some (dataset_file line_end invs)) env) = Ok invs.
Proof.
  intros Hle Hp. unfold load_csv_data, with_invoices_csv. cbn [invoices_csv].
  unfold dataset_file.
  rewrite (universal_newlines_file line_end _ Hle)
    by (apply dataset_one_line_each; [reflexivity | discriminate | exact Hp]).
  rewrite file_lines_file
    by (apply dataset_one_line_each; [reflexivity | discriminate | exact Hp]).
  rewrite (DictReader_plain nl _ (or_intror eq_refl) Hp).
  exact (proj2 (rows_of_records invs)).
Qed.

(** X18: the persisted file is read back as written, whatever its line
    ends.  When invoices.csv holds the header line and one line per
    record, the fields without comma, double quote, carriage return,
    line feed or NUL, every line closed by a line feed or by carriage return
    and line feed, GET /invoices lists exactly these records with their
    count, and a request without inline data is served from them under
    the text with plain line feeds: the same dataset saved with Windows
    line ends gets the same cache key. *)
Theorem persisted_dataset_round_trip env (line_end : string) (invs : list InvoiceData) :
  line_end = nl \/ line_end = CRLF -> forallb plain_record invs = true ->
  get_invoices (with_invoices_csv (Some (dataset_file line_end invs)) env)
    = Ok (invs, length invs) /\
  (forall req, invs <> [] -> Py.truthy (csv_data req) = false ->
     load_request_data (with_invoices_csv (Some (dataset_file line_end invs)) env) req
     = Ok (invs, dataset_file nl invs)).
Proof.
  intros Hle Hp. pose proof (load_dataset_file env line_end invs Hle Hp) as Hload. split.
  - unfold get_invoices. now rewrite Hload.
  - intros req Hne Hnone. unfold load_request_data. rewrite Hnone, Hload. cbn [bindR].
    destruct invs as [|inv invs]; [congruence|]. cbn [is_empty].
    unfold with_invoices_csv. cbn [invoices_csv]. unfold dataset_file.
    rewrite (universal_newlines_file line_end _ Hle)
      by (apply dataset_one_line_each; [reflexivity | discriminate | exact Hp]).
    reflexivity.
Qed.

Lemma persisted_dataset_round_trip_witness :
  get_invoices (with_invoices_csv (Some (dataset_file CRLF spaced_records)) env_local)
    = Ok (spaced_records, 2%nat) /\
  load_request_data (with_invoices_csv (Some (dataset_file CRLF spaced_records)) env_local)
                    overview_of_file
    = Ok (spaced_records, dataset_file nl spaced_records).
Proof.
  pose proof (persisted_dataset_round_trip env_local CRLF spaced_records
                (or_intror eq_refl) spaced_records_plain) as [Hget Hload].
  split; [exact Hget|].
  exact (Hload overview_of_file ltac:(discriminate) eq_refl).
Defined.

(** ** Line ends of the persisted file *)

Lemma universal_newlines_no_CR_upto (n : nat) : forall s,
  (String.length s <= n)%nat -> occurrences CR (Csv.universal_newlines s) = 0%nat.
Proof.
  induction n as [|n IH]; intros [|c rest] Hn; try reflexivity;
    cbn [String.length] in Hn; [lia|].
  cbn [Csv.universal_newlines]. change (Py.chr 13) with CR. change (Py.chr 10) with LF.
  destruct (Ascii.eqb c CR) eqn:Ec.
  - destruct rest as [|c' rest']; [reflexivity|].
    cbn [String.length] in Hn.
    destruct (Ascii.eqb c' LF); cbn [occurrences];
      change (Ascii.eqb LF CR) with false; cbv iota; rewrite IH;
      cbn [String.length]; lia.
  - cbn [occurrences]. rewrite Ec, IH; [reflexivity | lia].
Qed.

Lemma universal_newlines_fixed (s : string) :
  occurrences CR s = 0%nat -> Csv.universal_newlines s = s.
Proof.
  induction s as [|c s IH]; [reflexivity|].
  cbn [occurrences Csv.universal_newlines]. change (Py.chr 13) with CR.
  destruct (Ascii.eqb c CR); [discriminate|]. intros H. now rewrite IH.
Qed.

Lemma universal_newlines_idempotent (s : string) :
  Csv.universal_newlines (Csv.universal_newlines s) = Csv.universal_newlines s.
Proof.
  apply universal_newlines_fixed.
  now apply (universal_newlines_no_CR_upto (String.length s)).
Qed.

(** X19: the line ends of invoices.csv do not matter: the file and its
    copy with every line end turned into a line feed are the same
    dataset for GET /invoices and for both analysis endpoints, same
    records, same cache key, same result, whatever the file holds. *)
Theorem line_ends_do_not_matter env (text : string) req w :
  get_invoices (with_invoices_csv (Some (Csv.universal_newlines text)) env)
    = get_invoices (with_invoices_csv (Some text) env) /\
  analyze_invoices (with_invoices_csv (Some (Csv.universal_newlines text)) env) req w
    = analyze_invoices (with_invoices_csv (Some text) env) req w /\
  analyze_invoices_free (with_invoices_csv (Some (Csv.universal_newlines text)) env) req w
    = analyze_invoices_free (with_invoices_csv (Some text) env) req w.
Proof.
  assert (Hcsv : load_csv_data (with_invoices_csv (Some (Csv.universal_newlines text)) env)
                 = load_csv_data (with_invoices_csv (Some text) env)).
  { unfold load_csv_data, with_invoices_csv. cbn [invoices_csv].
    now rewrite universal_newlines_idempotent. }
  assert (Hreq : load_request_data
                   (with_invoices_csv (Some (Csv.universal_newlines text)) env) req
                 = load_request_data (with_invoices_csv (Some text) env) req).
  { unfold load_request_data. rewrite Hcsv. unfold with_invoices_csv. cbn [invoices_csv].
    now rewrite universal_newlines_idempotent. }
  split; [|split].
  - unfold get_invoices. now rewrite Hcsv.
  - unfold analyze_invoices, bind, lift. rewrite Hreq. reflexivity.
  - unfold analyze_invoices_free, bind, lift. rewrite Hreq. reflexivity.
Qed.

Example quoted_field_across_lines :
  get_invoices (with_invoices_csv (Some quoted_crlf_csv) env_local)
  = Ok ([mkInvoice "1" ("Acme" +:+ nl +:+ "Ltd") "100" "2024-01-01" "Paid"], 1%nat).
Proof. vm_compute. reflexivity. Qed.

(** ** The two ways a row becomes a record *)



Example lenient_file_rows :
  InvoiceData_of_row row_without_status = Raise ValidationError /\
  InvoiceData_of_file_row row_without_status
    = Ok (mkInvoice "1" "Acme" "100" "2024-01-01" EmptyString) /\
  InvoiceData_of_row row_with_surplus = Raise (TypeError "keywords must be strings") /\
  InvoiceData_of_file_row row_with_surplus
    = Ok (mkInvoice "1" "Acme" "100" "2024-01-01" "Paid").
Proof. repeat split; reflexivity. Qed.


(** ** The counts the texts report *)

Lemma count_disjoint (p q : InvoiceData -> bool) (invs : list InvoiceData) :
  (forall inv, p inv && q inv = false) ->
  (count_if p invs + count_if q invs <= length invs)%nat.
Proof.
  intros H. unfold count_if. induction invs as [|inv invs IH]; [reflexivity|].
  cbn [List.filter]. specialize (H inv).
  destruct (p inv), (q inv); cbn [length]; try discriminate; lia.
Qed.

Lemma first_occurrences_length (seen l : list string) :
  (length (first_occurrences seen l) <= length l)%nat.
Proof.
  revert seen. induction l as [|a l IH]; intros seen; [reflexivity|].
  cbn [first_occurrences]. destruct (existsb (String.eqb a) seen); cbn [length].
  - specialize (IH seen). lia.
  - specialize (IH (seen ++ [a])). lia.
Qed.

(** X21: the counts a text reports fit together: an invoice is counted
    as fully paid or as partially paid, never as both, so that the two
    counts add up to the number of invoices at most; there are no more
    customers than invoices, and at least one when there is an invoice. *)
Theorem reported_counts_consistent (invs : list InvoiceData) :
  (count_if (status_is "paid") invs + count_if (status_is "partially paid") invs
   <= length invs)%nat /\
  (size (list_to_set (map customer invs) : gset string) <= length invs)%nat /\
  (invs <> [] -> (1 <= size (list_to_set (map customer invs) : gset string))%nat).
Proof.
  split; [|split].
  - apply count_disjoint. intros inv. unfold status_is.
    destruct (String.eqb_spec (Py.lower (status inv)) "paid") as [->|_]; reflexivity.
  - rewrite <- customer_sums_length. unfold customer_sums. rewrite length_map.
    rewrite <- (length_map customer invs). apply first_occurrences_length.
  - intros Hne. pose proof (customers_nonempty invs Hne). lia.
Qed.

(** ** A well-formed request is answered *)

(** X22: end to end.  A request that carries a dataset of plain records
    (as in X17) is answered by POST /analyze-free whenever the local
    analyzer can be loaded and the amounts are ASCII text that [float]
    reads, and by POST /analyze whenever Claude is configured and
    answers its next call; the response is in the cache afterwards, and
    when it was not there before it counts the records of the dataset
    and carries the text of the local statistics, or Claude's reply. *)
Theorem well_formed_request_is_answered env (q : string) (invs : list InvoiceData)
        (inv : InvoiceData) w :
  forallb plain_record (invs ++ [inv]) = true ->
  no_trailing_space (status inv) = true ->
  (TRANSFORMERS_AVAILABLE env = true ->
   (exists m, SentenceTransformer env = Ok m) ->
   ascii_amounts (invs ++ [inv]) = true -> amounts_readable (invs ++ [inv]) = true ->
   exists r w',
     analyze_invoices_free env (mkRequest q (Some (dataset (invs ++ [inv])))) w = (Ok r, w') /\
     cache w' !! free_cache_key q (dataset (invs ++ [inv])) = Some r /\
     (cache w !! free_cache_key q (dataset (invs ++ [inv])) = None ->
      analysis_text q (invs ++ [inv]) = Ok (analysis r) /\
      invoices_analyzed r = length (invs ++ [inv]))) /\
  (forall t,
   CLAUDE_AVAILABLE env = true -> Py.truthy (ANTHROPIC_API_KEY env) = true ->
   messages_create env (calls_to Claude (trace w)) (make_prompt (invs ++ [inv]) q) = Text t ->
   exists r w',
     analyze_invoices env (mkRequest q (Some (dataset (invs ++ [inv])))) w = (Ok r, w') /\
     cache w' !! provider_cache_key q (dataset (invs ++ [inv])) = Some r /\
     (cache w !! provider_cache_key q (dataset (invs ++ [inv])) = None ->
      analysis r = t /\ invoices_analyzed r = length (invs ++ [inv]))).
Proof.
  intros Hp Hs.
  pose proof (load_inline_dataset env q invs inv Hp Hs) as Hload.
  split.
  - intros Ha [m Hm] _ Hr.
    unfold analyze_invoices_free, bind, lift. rewrite Hload. cbn [query].
    destruct (cache w !! free_cache_key q (dataset (invs ++ [inv]))) as [cached|] eqn:Hc.
    + exists cached, w. split; [reflexivity|]. split; [exact Hc | discriminate].
    + destruct (analysis_text_total q (invs ++ [inv])) as [text Ht];
        [now destruct invs | exact Hr |].
      unfold try_except, analyze_with_transformers, get_transformer_model.
      rewrite Ha, Hm. cbn [negb emit _model].
      destruct (_model w) as [m0|]; rewrite Ht; eexists; eexists;
        (split; [reflexivity|]); cbn [cache set_cache set_model emit];
        (split; [apply lookup_insert_eq | intros _; split; reflexivity]).
  - intros t Ha Hk Hreply.
    unfold analyze_invoices, bind, lift. rewrite Hload. cbn [query].
    destruct (cache w !! provider_cache_key q (dataset (invs ++ [inv]))) as [cached|] eqn:Hc.
    + exists cached, w. split; [reflexivity|]. split; [exact Hc | discriminate].
    + unfold try_except, call_llm, retry.
      rewrite (retrying_ok _ _ _ _ _ _ (call_llm_once_claude _ _ _ _ Ha Hk Hreply)).
      eexists; eexists. split; [reflexivity|]. cbn [cache set_cache emit].
      split; [apply lookup_insert_eq | intros _; split; reflexivity].
Qed.

Lemma well_formed_request_is_answered_witness :
  exists r w',
    analyze_invoices_free env_local (mkRequest "total" (Some (dataset spaced_records))) fresh
      = (Ok r, w') /\
    cache w' !! free_cache_key "total" (dataset spaced_records) = Some r /\
    (cache fresh !! free_cache_key "total" (dataset spaced_records) = None ->
     analysis_text "total" spaced_records = Ok (analysis r) /\
     invoices_analyzed r = length spaced_records).
Proof.
  exact (proj1 (well_formed_request_is_answered env_local "total"
                  [mkInvoice "INV 1" "Acme & Sons" "1.5" "2024-01-01" "Paid"]
                  (mkInvoice EmptyString "Bolt" "-3" EmptyString "Partially Paid")
                  fresh spaced_records_plain eq_refl)
           eq_refl (ex_intro _ all_MiniLM_L6_v2 eq_refl) eq_refl spaced_records_readable).
Defined.
